(** * Progression and reward state machine of the hunter fitness API

    Shallow embedding of [backend/server.py]: the progression engine
    ([calculate_rank], [calculate_exp_needed], [get_training_reps]), the
    catalog tables, the user document and the handlers that mutate it
    ([register], [upgrade_stat], [get_daily_quests], [complete_quest],
    [fail_quest], [unlock_achievement], [buy_item]).

    Conventions of the embedding.
    - Python [int] is [Z].
    - The three float expressions of the source are modelled by exact
      rational arithmetic followed by truncation toward zero ([Z.quot]),
      which is what [int(...)] does to a float:
        [int(150 * 1.8 ** (level - 1))],
        [int(base + (max - base) * ((level - 1) / 49))],
        [int(x * 0.15)]  and  [int(reps * multiplier)].
      Catalog multipliers are kept in tenths ([12] stands for [1.2]).
    - Documents are records; Mongo arrays used with [$addToSet] are lists
      without repetition of the inserted value; an update document is a
      list of field operations ([UpdateOp]) applied in order.
    - The clock, [uuid.uuid4] and [random.choice] are inputs of the
      handler that consults them; a request reads the clock once, so that
      [yesterday] is the day before [today].
    - Keys that [register] always writes are read directly; the defaults
      of [user.get(key, default)] never apply to such documents.
    - A raised [HTTPException] is the [Err] outcome; every handler raises
      before its first write, so [Err] leaves the database as it was. *)

From Stdlib Require Import ZArith List String Bool Lia.
Import ListNotations.

Open Scope string_scope.
Open Scope list_scope.
Open Scope Z_scope.

(** ** Progression engine *)

(** [calculate_rank], server.py lines 115-121. *)
Definition calculate_rank (level : Z) : string :=
  if 80 <=? level then "S"
  else if 60 <=? level then "A"
  else if 40 <=? level then "B"
  else if 25 <=? level then "C"
  else if 10 <=? level then "D"
  else "E".

(** [calculate_exp_needed], lines 123-125:
    [int(150 * (1.8 ** (level - 1)))] with [1.8 = 18/10]; a negative
    exponent inverts the base. *)
Definition calculate_exp_needed (level : Z) : Z :=
  if 1 <=? level
  then Z.quot (150 * 18 ^ (level - 1)) (10 ^ (level - 1))
  else Z.quot (150 * 10 ^ (1 - level)) (18 ^ (1 - level)).

(** [get_training_reps], lines 130-135.
    [progress = (level - 1) / 49] is a true division; the sum is put over
    the common denominator 49 before truncation. *)
Definition get_training_reps (level base_reps max_reps : Z) : Z :=
  if 50 <=? level then max_reps
  else Z.quot (49 * base_reps + (max_reps - base_reps) * (level - 1)) 49.

(** ** Catalog *)

Record Exercise := mkExercise {
  ex_name : string;
  ex_reps : Z;
  ex_unit : string;
  ex_stat : string
}.

Record ExerciseTemplate := mkTemplate {
  tpl_name : string;
  tpl_base_reps : Z;
  tpl_max_reps : Z;
  tpl_unit : string;
  tpl_stat : string
}.

Definition BASE_DAILY_EXERCISES : list ExerciseTemplate :=
  [ mkTemplate "Flexiones" 10 100 "repeticiones" "strength";
    mkTemplate "Sentadillas" 10 100 "repeticiones" "endurance";
    mkTemplate "Abdominales" 10 100 "repeticiones" "vitality";
    mkTemplate "Correr" 1 10 "km" "agility" ].

(** Display-only entries of the catalog dictionaries (name, description)
    are not read by the handlers below and are left out. *)
Record Dungeon := mkDungeon {
  dg_id : string;
  dg_min_level : Z;
  dg_multiplier10 : Z;
  dg_difficulty : string;
  dg_exp : Z;
  dg_gold : Z
}.

Definition SPECIAL_DUNGEONS : list Dungeon :=
  [ mkDungeon "dungeon_prueba_novato" 1 10 "E" 30 20;
    mkDungeon "dungeon_cueva_goblins" 3 12 "E" 50 30;
    mkDungeon "dungeon_bosque_oscuro" 5 13 "E" 70 40;
    mkDungeon "dungeon_mina_abandonada" 10 15 "D" 100 60;
    mkDungeon "dungeon_templo_serpiente" 12 16 "D" 130 80;
    mkDungeon "dungeon_pantano_veneno" 15 17 "D" 160 100;
    mkDungeon "dungeon_ruinas_antiguas" 18 18 "D" 200 120;
    mkDungeon "dungeon_fortaleza_hielo" 25 20 "C" 300 180;
    mkDungeon "dungeon_volcan_activo" 28 22 "C" 380 220;
    mkDungeon "dungeon_cementerio_maldito" 32 24 "C" 450 280;
    mkDungeon "dungeon_laboratorio_demonios" 36 26 "C" 550 350;
    mkDungeon "dungeon_castillo_vampiro" 40 30 "B" 700 450;
    mkDungeon "dungeon_abismo_oscuridad" 44 33 "B" 900 550;
    mkDungeon "dungeon_torre_demonio" 48 36 "B" 1100 700;
    mkDungeon "dungeon_dimension_caos" 52 38 "B" 1300 850;
    mkDungeon "dungeon_palacio_reyes" 60 40 "A" 1800 1100;
    mkDungeon "dungeon_templo_gigantes" 65 45 "A" 2200 1400;
    mkDungeon "dungeon_santuario_dragon" 70 50 "A" 2800 1800;
    mkDungeon "dungeon_trono_sombras" 75 55 "A" 3500 2200;
    mkDungeon "dungeon_puerta_infierno" 80 60 "S" 5000 3000;
    mkDungeon "dungeon_reino_demonios" 85 70 "S" 7000 4500;
    mkDungeon "dungeon_tumba_monarcas" 90 80 "S" 10000 6000;
    mkDungeon "dungeon_vacio_absoluto" 95 100 "S" 15000 10000 ].

Record Mission := mkMission {
  ms_id : string;
  ms_min_level : Z;
  ms_exp : Z;
  ms_gold : Z;
  ms_shadow : option string
}.

Definition SPECIAL_MISSIONS : list Mission :=
  [ mkMission "mission_despertar" 1 200 100 None;
    mkMission "mission_primer_paso" 1 150 80 None;
    mkMission "mission_resistencia_basica" 5 180 90 None;
    mkMission "mission_cazador_real" 10 400 250 (Some "shadow_goblin");
    mkMission "mission_semana_hierro" 10 600 350 None;
    mkMission "mission_dominador_d" 15 800 500 None;
    mkMission "mission_fortaleza_mental" 20 1000 600 (Some "shadow_knight");
    mkMission "mission_ascenso_c" 25 1500 900 (Some "shadow_mage");
    mkMission "mission_mes_acero" 25 3000 1500 (Some "shadow_tank");
    mkMission "mission_conquistador_c" 30 2500 1200 None;
    mkMission "mission_mil_repeticiones" 35 2000 1000 None;
    mkMission "mission_elite_b" 40 4000 2500 (Some "shadow_assassin");
    mkMission "mission_leyenda_100" 40 10000 5000 (Some "shadow_general");
    mkMission "mission_sung_jinwoo" 50 5000 3000 (Some "shadow_beru");
    mkMission "mission_destructor_b" 50 6000 3500 None;
    mkMission "mission_rango_a" 60 8000 5000 (Some "shadow_dragon");
    mkMission "mission_aniquilador_a" 70 12000 7000 (Some "shadow_demon_lord");
    mkMission "mission_10k_reps" 60 8000 4000 None;
    mkMission "mission_rango_s" 80 20000 12000 (Some "shadow_monarch");
    mkMission "mission_aniquilador_s" 85 30000 20000 (Some "shadow_sovereign");
    mkMission "mission_ano_acero" 80 50000 30000 (Some "shadow_ashborn") ].

Record Boss := mkBoss {
  bs_id : string;
  bs_min_level : Z;
  bs_multiplier10 : Z;
  bs_exp : Z;
  bs_gold : Z;
  bs_shadow : option string
}.

Definition WEEKLY_BOSSES : list Boss :=
  [ mkBoss "boss_igris" 20 40 2000 1200 (Some "shadow_igris");
    mkBoss "boss_tusk" 30 50 4000 2500 (Some "shadow_tusk");
    mkBoss "boss_baran" 50 60 8000 5000 (Some "shadow_baran");
    mkBoss "boss_ant_king" 60 70 12000 7500 (Some "shadow_beru");
    mkBoss "boss_legia" 75 80 20000 12000 (Some "shadow_legia");
    mkBoss "boss_querehsha" 85 90 30000 18000 (Some "shadow_querehsha");
    mkBoss "boss_antares" 95 120 50000 30000 (Some "shadow_antares") ].

(** [SHADOWS]: shadow id to rarity (the stat bonus is read only by the
    profile view). *)
Definition SHADOWS : list (string * string) :=
  [ ("shadow_goblin", "common"); ("shadow_knight", "uncommon");
    ("shadow_mage", "uncommon"); ("shadow_tank", "rare");
    ("shadow_assassin", "rare"); ("shadow_general", "epic");
    ("shadow_igris", "epic"); ("shadow_tusk", "epic");
    ("shadow_beru", "legendary"); ("shadow_dragon", "legendary");
    ("shadow_baran", "legendary"); ("shadow_demon_lord", "legendary");
    ("shadow_monarch", "mythic"); ("shadow_legia", "mythic");
    ("shadow_querehsha", "mythic"); ("shadow_sovereign", "mythic");
    ("shadow_ashborn", "divine"); ("shadow_antares", "divine") ].

Record PunishmentExercise := mkPEx {
  pex_name : string;
  pex_reps : Z;
  pex_unit : string
}.

Record PunishmentTemplate := mkPunishment {
  pt_name : string;
  pt_exercises : list PunishmentExercise;
  pt_exp : Z
}.

Definition PUNISHMENT_QUESTS : list PunishmentTemplate :=
  [ mkPunishment "Castigo: Resistencia Extrema"
      [mkPEx "Burpees" 50 "repeticiones"] 30;
    mkPunishment "Castigo: Fuerza Mental"
      [mkPEx "Plancha" 5 "minutos"] 40;
    mkPunishment "Castigo: Velocidad"
      [mkPEx "Sprint" 10 "sprints de 100m"] 35;
    mkPunishment "Castigo: Core de Acero"
      [mkPEx "Plancha lateral" 3 "minutos por lado"] 45;
    mkPunishment "Castigo: Piernas de Hierro"
      [mkPEx "Sentadillas con salto" 100 "repeticiones"] 50 ].

(** The [effect] dictionary of a shop item: each key is present or not. *)
Record Effect := mkEffect {
  eff_exp : option Z;
  eff_gold : option Z;
  eff_streak_shield : option Z;
  eff_title : option string;
  eff_stat : option string;
  eff_value : option Z
}.

Definition effect_exp (n : Z) : Effect :=
  mkEffect (Some n) None None None None None.
Definition effect_shield (n : Z) : Effect :=
  mkEffect None None (Some n) None None None.
Definition effect_title (t : string) : Effect :=
  mkEffect None None None (Some t) None None.
Definition effect_stat (s : string) (v : Z) : Effect :=
  mkEffect None None None None (Some s) (Some v).

Record ShopItem := mkItem {
  it_id : string;
  it_price : Z;
  it_type : string;
  it_effect : Effect
}.

Definition SHOP_ITEMS : list ShopItem :=
  [ mkItem "potion_exp_1" 150 "consumable" (effect_exp 50);
    mkItem "potion_exp_2" 500 "consumable" (effect_exp 200);
    mkItem "potion_exp_3" 2000 "consumable" (effect_exp 1000);
    mkItem "title_shadow" 10000 "title" (effect_title "Monarca de las Sombras");
    mkItem "title_hunter" 2000 "title" (effect_title "Cazador Élite");
    mkItem "title_demon_slayer" 5000 "title"
      (effect_title "Exterminador de Demonios");
    mkItem "title_sovereign" 25000 "title" (effect_title "Soberano");
    mkItem "stat_str" 800 "stat_boost" (effect_stat "strength" 3);
    mkItem "stat_end" 800 "stat_boost" (effect_stat "endurance" 3);
    mkItem "stat_agi" 800 "stat_boost" (effect_stat "agility" 3);
    mkItem "stat_vit" 800 "stat_boost" (effect_stat "vitality" 3);
    mkItem "streak_protect" 1500 "consumable" (effect_shield 1) ].

Record Achievement := mkAch {
  ach_id : string;
  reward_gold : Z;
  category : string
}.

Definition ACHIEVEMENTS : list Achievement :=
  [ mkAch "first_quest" 50 "quests"; mkAch "quests_10" 150 "quests";
    mkAch "quests_50" 500 "quests"; mkAch "quests_100" 1000 "quests";
    mkAch "quests_500" 5000 "quests"; mkAch "quests_1000" 15000 "quests";
    mkAch "level_10" 200 "level"; mkAch "level_25" 500 "level";
    mkAch "level_40" 1500 "level"; mkAch "level_50" 3000 "level";
    mkAch "level_60" 5000 "level"; mkAch "level_80" 10000 "level";
    mkAch "level_100" 25000 "level";
    mkAch "streak_3" 100 "streak"; mkAch "streak_7" 300 "streak";
    mkAch "streak_14" 600 "streak"; mkAch "streak_30" 1500 "streak";
    mkAch "streak_60" 3000 "streak"; mkAch "streak_100" 5000 "streak";
    mkAch "streak_365" 30000 "streak";
    mkAch "dungeon_first" 100 "dungeon"; mkAch "dungeon_e_5" 200 "dungeon";
    mkAch "dungeon_d_5" 400 "dungeon"; mkAch "dungeon_c_5" 800 "dungeon";
    mkAch "dungeon_b_5" 1500 "dungeon"; mkAch "dungeon_a_5" 3000 "dungeon";
    mkAch "dungeon_s" 5000 "dungeon"; mkAch "dungeon_s_10" 15000 "dungeon";
    mkAch "boss_first" 500 "boss"; mkAch "boss_igris" 1000 "boss";
    mkAch "boss_beru" 5000 "boss"; mkAch "boss_antares" 25000 "boss";
    mkAch "boss_all" 50000 "boss";
    mkAch "shadow_first" 200 "shadow"; mkAch "shadow_5" 800 "shadow";
    mkAch "shadow_10" 2000 "shadow"; mkAch "shadow_legendary" 3000 "shadow";
    mkAch "shadow_mythic" 8000 "shadow"; mkAch "shadow_divine" 20000 "shadow";
    mkAch "guild_join" 100 "guild"; mkAch "guild_create" 300 "guild";
    mkAch "stats_50" 500 "stats"; mkAch "stats_100" 2000 "stats";
    mkAch "stats_all_50" 3000 "stats";
    mkAch "reps_1000" 300 "reps"; mkAch "reps_10000" 1500 "reps";
    mkAch "reps_100000" 10000 "reps" ].

(** ** Documents *)

Record Stats := mkStats {
  strength : Z;
  endurance : Z;
  agility : Z;
  vitality : Z
}.

(** [user["stats"][name]] for one of the four stat names. *)
Definition get_stat (name : string) (s : Stats) : Z :=
  if (name =? "strength")%string then strength s
  else if (name =? "endurance")%string then endurance s
  else if (name =? "agility")%string then agility s
  else if (name =? "vitality")%string then vitality s
  else 0.

(** [$inc] of [stats.<name>]. *)
Definition inc_stat (name : string) (d : Z) (s : Stats) : Stats :=
  if (name =? "strength")%string
  then mkStats (strength s + d) (endurance s) (agility s) (vitality s)
  else if (name =? "endurance")%string
  then mkStats (strength s) (endurance s + d) (agility s) (vitality s)
  else if (name =? "agility")%string
  then mkStats (strength s) (endurance s) (agility s + d) (vitality s)
  else if (name =? "vitality")%string
  then mkStats (strength s) (endurance s) (agility s) (vitality s + d)
  else s.

(** [dungeons_completed]: one counter per difficulty letter. *)
Record DungeonCounts := mkCounts {
  count_E : Z;
  count_D : Z;
  count_C : Z;
  count_B : Z;
  count_A : Z;
  count_S : Z
}.

Definition get_count (r : string) (c : DungeonCounts) : Z :=
  if (r =? "E")%string then count_E c
  else if (r =? "D")%string then count_D c
  else if (r =? "C")%string then count_C c
  else if (r =? "B")%string then count_B c
  else if (r =? "A")%string then count_A c
  else if (r =? "S")%string then count_S c
  else 0.

Definition inc_count (r : string) (d : Z) (c : DungeonCounts) : DungeonCounts :=
  if (r =? "E")%string
  then mkCounts (count_E c + d) (count_D c) (count_C c) (count_B c)
         (count_A c) (count_S c)
  else if (r =? "D")%string
  then mkCounts (count_E c) (count_D c + d) (count_C c) (count_B c)
         (count_A c) (count_S c)
  else if (r =? "C")%string
  then mkCounts (count_E c) (count_D c) (count_C c + d) (count_B c)
         (count_A c) (count_S c)
  else if (r =? "B")%string
  then mkCounts (count_E c) (count_D c) (count_C c) (count_B c + d)
         (count_A c) (count_S c)
  else if (r =? "A")%string
  then mkCounts (count_E c) (count_D c) (count_C c) (count_B c)
         (count_A c + d) (count_S c)
  else if (r =? "S")%string
  then mkCounts (count_E c) (count_D c) (count_C c) (count_B c)
         (count_A c) (count_S c + d)
  else c.

(** A pending punishment quest, stored inline in the user document. *)
Record PunishmentQuest := mkPQ {
  pq_id : string;
  pq_name : string;
  pq_exercises : list PunishmentExercise;
  pq_exp_reward : Z;
  pq_quest_type : string;
  pq_created_at : Z
}.

(** The user document as [register] creates it.  A calendar date is its
    day number, a timestamp a clock reading. *)
Record User := mkUser {
  id : string;
  email : string;
  password : string;
  hunter_name : string;
  level : Z;
  experience : Z;
  rank : string;
  gold : Z;
  title : string;
  stats : Stats;
  stat_points : Z;
  guild_id : option string;
  achievements : list string;
  quests_completed : Z;
  inventory : list string;
  active_quests : list string;
  punishment_quests : list PunishmentQuest;
  shadows : list string;
  streak : Z;
  best_streak : Z;
  last_quest_date : option Z;
  total_reps : Z;
  dungeons_completed : DungeonCounts;
  bosses_defeated : list string;
  special_missions_completed : list string;
  streak_shields : Z;
  training_start_time : option Z;
  created_at : Z
}.

Definition with_level (v : Z) (u : User) : User :=
  mkUser (id u) (email u) (password u) (hunter_name u) v (experience u)
    (rank u) (gold u) (title u) (stats u) (stat_points u) (guild_id u)
    (achievements u) (quests_completed u) (inventory u) (active_quests u)
    (punishment_quests u) (shadows u) (streak u) (best_streak u)
    (last_quest_date u) (total_reps u) (dungeons_completed u)
    (bosses_defeated u) (special_missions_completed u) (streak_shields u)
    (training_start_time u) (created_at u).

Definition with_experience (v : Z) (u : User) : User :=
  mkUser (id u) (email u) (password u) (hunter_name u) (level u) v (rank
    u) (gold u) (title u) (stats u) (stat_points u) (guild_id u)
    (achievements u) (quests_completed u) (inventory u) (active_quests u)
    (punishment_quests u) (shadows u) (streak u) (best_streak u)
    (last_quest_date u) (total_reps u) (dungeons_completed u)
    (bosses_defeated u) (special_missions_completed u) (streak_shields u)
    (training_start_time u) (created_at u).

Definition with_rank (v : string) (u : User) : User :=
  mkUser (id u) (email u) (password u) (hunter_name u) (level u)
    (experience u) v (gold u) (title u) (stats u) (stat_points u)
    (guild_id u) (achievements u) (quests_completed u) (inventory u)
    (active_quests u) (punishment_quests u) (shadows u) (streak u)
    (best_streak u) (last_quest_date u) (total_reps u) (dungeons_completed
    u) (bosses_defeated u) (special_missions_completed u) (streak_shields
    u) (training_start_time u) (created_at u).

Definition with_gold (v : Z) (u : User) : User :=
  mkUser (id u) (email u) (password u) (hunter_name u) (level u)
    (experience u) (rank u) v (title u) (stats u) (stat_points u)
    (guild_id u) (achievements u) (quests_completed u) (inventory u)
    (active_quests u) (punishment_quests u) (shadows u) (streak u)
    (best_streak u) (last_quest_date u) (total_reps u) (dungeons_completed
    u) (bosses_defeated u) (special_missions_completed u) (streak_shields
    u) (training_start_time u) (created_at u).

Definition with_title (v : string) (u : User) : User :=
  mkUser (id u) (email u) (password u) (hunter_name u) (level u)
    (experience u) (rank u) (gold u) v (stats u) (stat_points u) (guild_id
    u) (achievements u) (quests_completed u) (inventory u) (active_quests
    u) (punishment_quests u) (shadows u) (streak u) (best_streak u)
    (last_quest_date u) (total_reps u) (dungeons_completed u)
    (bosses_defeated u) (special_missions_completed u) (streak_shields u)
    (training_start_time u) (created_at u).

Definition with_stats (v : Stats) (u : User) : User :=
  mkUser (id u) (email u) (password u) (hunter_name u) (level u)
    (experience u) (rank u) (gold u) (title u) v (stat_points u) (guild_id
    u) (achievements u) (quests_completed u) (inventory u) (active_quests
    u) (punishment_quests u) (shadows u) (streak u) (best_streak u)
    (last_quest_date u) (total_reps u) (dungeons_completed u)
    (bosses_defeated u) (special_missions_completed u) (streak_shields u)
    (training_start_time u) (created_at u).

Definition with_stat_points (v : Z) (u : User) : User :=
  mkUser (id u) (email u) (password u) (hunter_name u) (level u)
    (experience u) (rank u) (gold u) (title u) (stats u) v (guild_id u)
    (achievements u) (quests_completed u) (inventory u) (active_quests u)
    (punishment_quests u) (shadows u) (streak u) (best_streak u)
    (last_quest_date u) (total_reps u) (dungeons_completed u)
    (bosses_defeated u) (special_missions_completed u) (streak_shields u)
    (training_start_time u) (created_at u).

Definition with_achievements (v : list string) (u : User) : User :=
  mkUser (id u) (email u) (password u) (hunter_name u) (level u)
    (experience u) (rank u) (gold u) (title u) (stats u) (stat_points u)
    (guild_id u) v (quests_completed u) (inventory u) (active_quests u)
    (punishment_quests u) (shadows u) (streak u) (best_streak u)
    (last_quest_date u) (total_reps u) (dungeons_completed u)
    (bosses_defeated u) (special_missions_completed u) (streak_shields u)
    (training_start_time u) (created_at u).

Definition with_quests_completed (v : Z) (u : User) : User :=
  mkUser (id u) (email u) (password u) (hunter_name u) (level u)
    (experience u) (rank u) (gold u) (title u) (stats u) (stat_points u)
    (guild_id u) (achievements u) v (inventory u) (active_quests u)
    (punishment_quests u) (shadows u) (streak u) (best_streak u)
    (last_quest_date u) (total_reps u) (dungeons_completed u)
    (bosses_defeated u) (special_missions_completed u) (streak_shields u)
    (training_start_time u) (created_at u).

Definition with_punishment_quests (v : list PunishmentQuest) (u : User) : User :=
  mkUser (id u) (email u) (password u) (hunter_name u) (level u)
    (experience u) (rank u) (gold u) (title u) (stats u) (stat_points u)
    (guild_id u) (achievements u) (quests_completed u) (inventory u)
    (active_quests u) v (shadows u) (streak u) (best_streak u)
    (last_quest_date u) (total_reps u) (dungeons_completed u)
    (bosses_defeated u) (special_missions_completed u) (streak_shields u)
    (training_start_time u) (created_at u).

Definition with_shadows (v : list string) (u : User) : User :=
  mkUser (id u) (email u) (password u) (hunter_name u) (level u)
    (experience u) (rank u) (gold u) (title u) (stats u) (stat_points u)
    (guild_id u) (achievements u) (quests_completed u) (inventory u)
    (active_quests u) (punishment_quests u) v (streak u) (best_streak u)
    (last_quest_date u) (total_reps u) (dungeons_completed u)
    (bosses_defeated u) (special_missions_completed u) (streak_shields u)
    (training_start_time u) (created_at u).

Definition with_streak (v : Z) (u : User) : User :=
  mkUser (id u) (email u) (password u) (hunter_name u) (level u)
    (experience u) (rank u) (gold u) (title u) (stats u) (stat_points u)
    (guild_id u) (achievements u) (quests_completed u) (inventory u)
    (active_quests u) (punishment_quests u) (shadows u) v (best_streak u)
    (last_quest_date u) (total_reps u) (dungeons_completed u)
    (bosses_defeated u) (special_missions_completed u) (streak_shields u)
    (training_start_time u) (created_at u).

Definition with_best_streak (v : Z) (u : User) : User :=
  mkUser (id u) (email u) (password u) (hunter_name u) (level u)
    (experience u) (rank u) (gold u) (title u) (stats u) (stat_points u)
    (guild_id u) (achievements u) (quests_completed u) (inventory u)
    (active_quests u) (punishment_quests u) (shadows u) (streak u) v
    (last_quest_date u) (total_reps u) (dungeons_completed u)
    (bosses_defeated u) (special_missions_completed u) (streak_shields u)
    (training_start_time u) (created_at u).

Definition with_last_quest_date (v : option Z) (u : User) : User :=
  mkUser (id u) (email u) (password u) (hunter_name u) (level u)
    (experience u) (rank u) (gold u) (title u) (stats u) (stat_points u)
    (guild_id u) (achievements u) (quests_completed u) (inventory u)
    (active_quests u) (punishment_quests u) (shadows u) (streak u)
    (best_streak u) v (total_reps u) (dungeons_completed u)
    (bosses_defeated u) (special_missions_completed u) (streak_shields u)
    (training_start_time u) (created_at u).

Definition with_total_reps (v : Z) (u : User) : User :=
  mkUser (id u) (email u) (password u) (hunter_name u) (level u)
    (experience u) (rank u) (gold u) (title u) (stats u) (stat_points u)
    (guild_id u) (achievements u) (quests_completed u) (inventory u)
    (active_quests u) (punishment_quests u) (shadows u) (streak u)
    (best_streak u) (last_quest_date u) v (dungeons_completed u)
    (bosses_defeated u) (special_missions_completed u) (streak_shields u)
    (training_start_time u) (created_at u).

Definition with_dungeons_completed (v : DungeonCounts) (u : User) : User :=
  mkUser (id u) (email u) (password u) (hunter_name u) (level u)
    (experience u) (rank u) (gold u) (title u) (stats u) (stat_points u)
    (guild_id u) (achievements u) (quests_completed u) (inventory u)
    (active_quests u) (punishment_quests u) (shadows u) (streak u)
    (best_streak u) (last_quest_date u) (total_reps u) v (bosses_defeated
    u) (special_missions_completed u) (streak_shields u)
    (training_start_time u) (created_at u).

Definition with_bosses_defeated (v : list string) (u : User) : User :=
  mkUser (id u) (email u) (password u) (hunter_name u) (level u)
    (experience u) (rank u) (gold u) (title u) (stats u) (stat_points u)
    (guild_id u) (achievements u) (quests_completed u) (inventory u)
    (active_quests u) (punishment_quests u) (shadows u) (streak u)
    (best_streak u) (last_quest_date u) (total_reps u) (dungeons_completed
    u) v (special_missions_completed u) (streak_shields u)
    (training_start_time u) (created_at u).

Definition with_special_missions_completed (v : list string) (u : User) : User :=
  mkUser (id u) (email u) (password u) (hunter_name u) (level u)
    (experience u) (rank u) (gold u) (title u) (stats u) (stat_points u)
    (guild_id u) (achievements u) (quests_completed u) (inventory u)
    (active_quests u) (punishment_quests u) (shadows u) (streak u)
    (best_streak u) (last_quest_date u) (total_reps u) (dungeons_completed
    u) (bosses_defeated u) v (streak_shields u) (training_start_time u)
    (created_at u).

Definition with_streak_shields (v : Z) (u : User) : User :=
  mkUser (id u) (email u) (password u) (hunter_name u) (level u)
    (experience u) (rank u) (gold u) (title u) (stats u) (stat_points u)
    (guild_id u) (achievements u) (quests_completed u) (inventory u)
    (active_quests u) (punishment_quests u) (shadows u) (streak u)
    (best_streak u) (last_quest_date u) (total_reps u) (dungeons_completed
    u) (bosses_defeated u) (special_missions_completed u) v
    (training_start_time u) (created_at u).

Definition with_training_start_time (v : option Z) (u : User) : User :=
  mkUser (id u) (email u) (password u) (hunter_name u) (level u)
    (experience u) (rank u) (gold u) (title u) (stats u) (stat_points u)
    (guild_id u) (achievements u) (quests_completed u) (inventory u)
    (active_quests u) (punishment_quests u) (shadows u) (streak u)
    (best_streak u) (last_quest_date u) (total_reps u) (dungeons_completed
    u) (bosses_defeated u) (special_missions_completed u) (streak_shields
    u) v (created_at u).

(** One persisted daily quest.  The constant or display-only keys of the
    stored dictionary (name, description, quest_type, time_limit_hours,
    exercises_progress, deadline, created_at) are read by no handler and
    are left out. *)
Record DailyQuest := mkDaily {
  dq_id : string;
  dq_user_id : string;
  dq_date : Z;
  dq_exercises : list Exercise;
  dq_exp_reward : Z;
  dq_gold_reward : Z;
  dq_difficulty : string;
  dq_is_completed : bool
}.

(** ** Update documents *)

Definition str_eqb (a b : string) : bool := String.eqb a b.

(** Python's [x in l] on a list of strings. *)
Definition mem (x : string) (l : list string) : bool :=
  existsb (str_eqb x) l.

(** [$addToSet]: the value is appended unless it is already there. *)
Definition add_to_set (x : string) (l : list string) : list string :=
  if mem x l then l else l ++ [x].

(** The field operations the handlers send to [db.users.update_one]. *)
Inductive UpdateOp : Type :=
| Set_streak (v : Z)
| Set_best_streak (v : Z)
| Set_last_quest_date (v : option Z)
| Set_training_start_time (v : option Z)
| Set_experience (v : Z)
| Set_level (v : Z)
| Set_rank (v : string)
| Set_title (v : string)
| Inc_stat (name : string) (d : Z)
| Inc_stat_points (d : Z)
| Inc_gold (d : Z)
| Inc_experience (d : Z)
| Inc_quests_completed (d : Z)
| Inc_total_reps (d : Z)
| Inc_dungeons_completed (r : string) (d : Z)
| Inc_streak_shields (d : Z)
| AddToSet_shadows (s : string)
| AddToSet_bosses_defeated (s : string)
| AddToSet_special_missions_completed (s : string)
| AddToSet_achievements (s : string)
| Pull_punishment_quests (qid : string)
| Push_punishment_quests (q : PunishmentQuest).

Definition apply_op (op : UpdateOp) (u : User) : User :=
  match op with
  | Set_streak v => with_streak v u
  | Set_best_streak v => with_best_streak v u
  | Set_last_quest_date v => with_last_quest_date v u
  | Set_training_start_time v => with_training_start_time v u
  | Set_experience v => with_experience v u
  | Set_level v => with_level v u
  | Set_rank v => with_rank v u
  | Set_title v => with_title v u
  | Inc_stat name d => with_stats (inc_stat name d (stats u)) u
  | Inc_stat_points d => with_stat_points (stat_points u + d) u
  | Inc_gold d => with_gold (gold u + d) u
  | Inc_experience d => with_experience (experience u + d) u
  | Inc_quests_completed d => with_quests_completed (quests_completed u + d) u
  | Inc_total_reps d => with_total_reps (total_reps u + d) u
  | Inc_dungeons_completed r d =>
      with_dungeons_completed (inc_count r d (dungeons_completed u)) u
  | Inc_streak_shields d => with_streak_shields (streak_shields u + d) u
  | AddToSet_shadows s => with_shadows (add_to_set s (shadows u)) u
  | AddToSet_bosses_defeated s =>
      with_bosses_defeated (add_to_set s (bosses_defeated u)) u
  | AddToSet_special_missions_completed s =>
      with_special_missions_completed
        (add_to_set s (special_missions_completed u)) u
  | AddToSet_achievements s =>
      with_achievements (add_to_set s (achievements u)) u
  | Pull_punishment_quests qid =>
      with_punishment_quests
        (filter (fun p => negb (str_eqb (pq_id p) qid)) (punishment_quests u)) u
  | Push_punishment_quests q =>
      with_punishment_quests (punishment_quests u ++ [q]) u
  end.

Definition apply_ops (ops : list UpdateOp) (u : User) : User :=
  fold_left (fun doc op => apply_op op doc) ops u.

(** ** The database: the [users] and [daily_quests] collections *)

Record DB := mkDB {
  users : list User;
  daily_quests : list DailyQuest
}.

(** [update_one]: the first document that matches the filter is updated. *)
Fixpoint update_first {A : Type} (p : A -> bool) (f : A -> A) (l : list A)
  : list A :=
  match l with
  | [] => []
  | x :: rest => if p x then f x :: rest else x :: update_first p f rest
  end.

Definition has_id (uid : string) (u : User) : bool := str_eqb (id u) uid.

(** [db.users.find_one({"id": uid})] *)
Definition users_find_one (uid : string) (db : DB) : option User :=
  find (has_id uid) (users db).

(** [db.users.update_one({"id": uid}, ops)] *)
Definition users_update_one (uid : string) (ops : list UpdateOp) (db : DB)
  : DB :=
  mkDB (update_first (has_id uid) (apply_ops ops) (users db))
       (daily_quests db).

Definition set_is_completed (q : DailyQuest) : DailyQuest :=
  mkDaily (dq_id q) (dq_user_id q) (dq_date q) (dq_exercises q)
          (dq_exp_reward q) (dq_gold_reward q) (dq_difficulty q) true.

(** [db.daily_quests.update_one({"id": qid}, {"$set": {"is_completed": True}})] *)
Definition daily_set_completed (qid : string) (db : DB) : DB :=
  mkDB (users db)
       (update_first (fun q => str_eqb (dq_id q) qid) set_is_completed
          (daily_quests db)).

(** ** Outcomes and the state monad of a request *)

Inductive Detail : Type :=
| User_not_found
| Email_registered
| Hunter_name_exists
| Insufficient_stat_points
| Invalid_stat
| Quest_already_completed
| Dungeon_not_found
| Boss_not_found
| Punishment_not_found
| Mission_not_found
| Quest_not_found
| Level_required (min_level : Z)
| Item_not_found
| Insufficient_gold.

(** A handler returns its payload and the new database, or raises
    [HTTPException(status_code, detail)]. *)
Inductive Result (A : Type) : Type :=
| Ok (payload : A) (db : DB)
| Err (status_code : Z) (detail : Detail).

Arguments Ok {A} payload db.
Arguments Err {A} status_code detail.

Definition M (A : Type) : Type := DB -> A * DB.

Definition ret {A : Type} (a : A) : M A := fun db => (a, db).

Definition bind {A B : Type} (m : M A) (k : A -> M B) : M B :=
  fun db => let (a, db') := m db in k a db'.

Notation "x <- m ;; k" := (bind m (fun x => k))
  (at level 61, m at next level, right associativity).

(** [get_current_user] once the token is decoded to [user_id]. *)
Definition get_current_user (user_id : string) (db : DB) : option User :=
  users_find_one user_id db.

(** ** Achievements *)

(** [unlock_achievement], lines 1064-1076: the achievement is looked up
    in the catalog, then one update adds its id to the set and its reward
    to the gold. *)
Definition unlock_achievement (user_id achievement_id : string)
  : M (option Achievement) :=
  fun db =>
    match find (fun a => str_eqb (ach_id a) achievement_id) ACHIEVEMENTS with
    | None => (None, db)
    | Some achievement =>
        (Some achievement,
         users_update_one user_id
           [AddToSet_achievements achievement_id;
            Inc_gold (reward_gold achievement)] db)
    end.

(** The recurring
    [if cond: ach = await unlock_achievement(...); if ach: acc.append(ach)]. *)
Definition unlock_when (cond : bool) (user_id achievement_id : string)
    (acc : list Achievement) : M (list Achievement) :=
  if cond
  then ach <- unlock_achievement user_id achievement_id ;;
       ret (match ach with Some a => acc ++ [a] | None => acc end)
  else ret acc.

(** [for threshold, ach_id in table:
       if value >= threshold and ach_id not in user["achievements"]: ...] *)
Fixpoint unlock_thresholds (value : Z) (table : list (Z * string))
    (user : User) (acc : list Achievement) : M (list Achievement) :=
  match table with
  | [] => ret acc
  | (threshold, achievement_id) :: rest =>
      acc' <- unlock_when ((threshold <=? value)
                           && negb (mem achievement_id (achievements user)))
                (id user) achievement_id acc ;;
      unlock_thresholds value rest user acc'
  end.

(** ** Registration *)

Definition new_user (user_id password_hash : string) (now : Z)
    (email_ hunter : string) : User :=
  mkUser user_id email_ password_hash hunter
         1 0 "E" 100 "Novato" (mkStats 10 10 10 10) 0 None
         [] 0 [] [] [] [] 0 0 None 0 (mkCounts 0 0 0 0 0 0) [] [] 0 None now.

(** [register], lines 345-388.  [user_id] is the fresh [uuid4],
    [password_hash] the bcrypt hash; the token of the response is left
    out. *)
Definition register (user_id password_hash : string) (now : Z)
    (email_ hunter : string) (db : DB) : Result (string * string) :=
  if existsb (fun u => str_eqb (email u) email_) (users db)
  then Err 400 Email_registered
  else if existsb (fun u => str_eqb (hunter_name u) hunter) (users db)
  then Err 400 Hunter_name_exists
  else Ok (user_id, hunter)
          (mkDB (users db ++ [new_user user_id password_hash now email_ hunter])
                (daily_quests db)).

(** ** Stat upgrade *)

(** [upgrade_stat], lines 455-487.  [points] is any integer: the request
    model declares [points: int = 1] without a bound. *)
Definition upgrade_stat (stat_name : string) (points : Z) (user_id : string)
    (db : DB) : Result (list Achievement) :=
  match get_current_user user_id db with
  | None => Err 401 User_not_found
  | Some user =>
      if stat_points user <? points then Err 400 Insufficient_stat_points
      else if negb (mem stat_name ["strength"; "endurance"; "agility"; "vitality"])
      then Err 400 Invalid_stat
      else
        let new_stat_value := get_stat stat_name (stats user) + points in
        let db1 :=
          users_update_one (id user)
            [Inc_stat stat_name points; Inc_stat_points (- points)] db in
        let (achievements_unlocked, db2) :=
          (a1 <- unlock_when ((50 <=? new_stat_value)
                              && negb (mem "stats_50" (achievements user)))
                   (id user) "stats_50" [] ;;
           unlock_when ((100 <=? new_stat_value)
                        && negb (mem "stats_100" (achievements user)))
             (id user) "stats_100" a1) db1 in
        Ok achievements_unlocked db2
  end.

(** ** Daily quest *)

(** The response: the stored dictionary without its [user_id] key. *)
Record DailyQuestView := mkView {
  v_id : string;
  v_date : Z;
  v_exercises : list Exercise;
  v_exp_reward : Z;
  v_gold_reward : Z;
  v_difficulty : string;
  v_is_completed : bool
}.

Definition clean_daily (q : DailyQuest) : DailyQuestView :=
  mkView (dq_id q) (dq_date q) (dq_exercises q) (dq_exp_reward q)
         (dq_gold_reward q) (dq_difficulty q) (dq_is_completed q).

Definition daily_exercises (level : Z) : list Exercise :=
  map (fun ex =>
         mkExercise (tpl_name ex)
           (get_training_reps level (tpl_base_reps ex) (tpl_max_reps ex))
           (tpl_unit ex) (tpl_stat ex))
      BASE_DAILY_EXERCISES.

(** [db.daily_quests.find_one({"user_id": uid, "date": today})] *)
Definition daily_find_by_date (uid : string) (today : Z) (db : DB)
  : option DailyQuest :=
  find (fun q => str_eqb (dq_user_id q) uid && (dq_date q =? today))
       (daily_quests db).

(** [get_daily_quests], lines 491-543.
    [today] is the UTC date of the request, [fresh_id] the [uuid4] drawn
    for a new instance. *)
Definition get_daily_quests (today : Z) (fresh_id : string) (user_id : string)
    (db : DB) : Result DailyQuestView :=
  match get_current_user user_id db with
  | None => Err 401 User_not_found
  | Some user =>
      let level_ := level user in
      let exercises := daily_exercises level_ in
      match daily_find_by_date (id user) today db with
      | Some existing => Ok (clean_daily existing) db
      | None =>
          let base_exp := 25 + level_ * 2 in
          let base_gold := 10 + level_ in
          let quest :=
            mkDaily fresh_id (id user) today exercises base_exp base_gold
                    (calculate_rank level_) false in
          Ok (clean_daily quest)
             (mkDB (users db) (daily_quests db ++ [quest]))
      end
  end.

(** ** Quest completion *)

(** The [while new_exp >= exp_needed] loop of lines 835-839, unrolled
    [fuel] times. *)
Fixpoint level_up_steps (fuel : nat) (new_exp new_level stat_points_gained : Z)
  : Z * Z * Z :=
  match fuel with
  | O => (new_exp, new_level, stat_points_gained)
  | S fuel' =>
      let exp_needed := calculate_exp_needed new_level in
      if exp_needed <=? new_exp
      then level_up_steps fuel' (new_exp - exp_needed) (new_level + 1)
             (stat_points_gained + 3)
      else (new_exp, new_level, stat_points_gained)
  end.

(** The loop itself.  The number of unrollings exceeds the number of
    iterations the loop can make ([level_up_loop_unfold] below shows that
    this definition satisfies the equation of the [while] loop on every
    input, so the bound is never met). *)
Definition level_up_loop (new_exp new_level stat_points_gained : Z)
  : Z * Z * Z :=
  level_up_steps (S (Z.to_nat new_exp + Z.to_nat (1 - new_level)))
                 new_exp new_level stat_points_gained.

(** Truthiness of [d.get("shadow")]: neither [None] nor the empty string. *)
Definition truthy (s : option string) : bool :=
  match s with
  | Some x => negb (str_eqb x "")
  | None => false
  end.

Definition count_reps (unit_ : string) (reps acc : Z) : Z :=
  if str_eqb unit_ "repeticiones" then acc + reps
  else if str_eqb unit_ "km" then acc + reps * 100
  else acc.

Definition daily_reps (exercises : list Exercise) : Z :=
  fold_left (fun acc ex => count_reps (ex_unit ex) (ex_reps ex) acc)
            exercises 0.

(** The repetitions of a dungeon or boss: the daily targets scaled by the
    multiplier, [int(base_reps * multiplier)]. *)
Definition scaled_reps (level_ multiplier10 : Z) : Z :=
  fold_left
    (fun acc ex =>
       let base_reps :=
         get_training_reps level_ (tpl_base_reps ex) (tpl_max_reps ex) in
       let reps := Z.quot (base_reps * multiplier10) 10 in
       count_reps (tpl_unit ex) reps acc)
    BASE_DAILY_EXERCISES 0.

Definition punishment_reps (exercises : list PunishmentExercise) : Z :=
  fold_left
    (fun acc ex =>
       if str_eqb (pex_unit ex) "repeticiones" then acc + pex_reps ex else acc)
    exercises 0.

Definition date_is (d : option Z) (day : Z) : bool :=
  match d with
  | Some x => x =? day
  | None => false
  end.

(** The streak rule of a daily completion, lines 700-709. *)
Definition new_streak_of (user : User) (today : Z) : Z :=
  let last_date := last_quest_date user in
  let yesterday := today - 1 in
  if date_is last_date yesterday || date_is last_date today
  then streak user + (if date_is last_date today then 0 else 1)
  else match last_date with
       | None => 1
       | Some _ => 1
       end.

(** What the dispatch on the quest id leaves for the common tail. *)
Record Dispatched := mkDispatched {
  d_exp_reward : Z;
  d_gold_reward : Z;
  d_total_reps_gained : Z;
  d_shadow_earned : option string
}.

(** The [if daily: ... elif quest_id.startswith(...): ... else: raise]
    chain of [complete_quest], lines 685-827. *)
Definition dispatch (today : Z) (quest_id : string) (user : User)
    (daily : option DailyQuest) (db : DB) : Result Dispatched :=
  match daily with
  | Some d =>
      if dq_is_completed d then Err 400 Quest_already_completed
      else
        let total_reps_gained := daily_reps (dq_exercises d) in
        let db1 := daily_set_completed quest_id db in
        let new_streak := new_streak_of user today in
        let best := Z.max new_streak (best_streak user) in
        Ok (mkDispatched (dq_exp_reward d) (dq_gold_reward d)
              total_reps_gained None)
           (users_update_one (id user)
              [Set_streak new_streak; Set_best_streak best;
               Set_last_quest_date (Some today);
               Set_training_start_time None] db1)
  | None =>
      if prefix "dungeon_" quest_id then
        match find (fun d => str_eqb (dg_id d) quest_id) SPECIAL_DUNGEONS with
        | None => Err 404 Dungeon_not_found
        | Some dungeon =>
            if level user <? dg_min_level dungeon
            then Err 400 (Level_required (dg_min_level dungeon))
            else
              Ok (mkDispatched (dg_exp dungeon) (dg_gold dungeon)
                    (scaled_reps (level user) (dg_multiplier10 dungeon)) None)
                 (users_update_one (id user)
                    [Inc_dungeons_completed (dg_difficulty dungeon) 1] db)
        end
      else if prefix "boss_" quest_id then
        match find (fun b => str_eqb (bs_id b) quest_id) WEEKLY_BOSSES with
        | None => Err 404 Boss_not_found
        | Some boss =>
            if level user <? bs_min_level boss
            then Err 400 (Level_required (bs_min_level boss))
            else
              let reps := scaled_reps (level user) (bs_multiplier10 boss) in
              match bs_shadow boss with
              | Some shadow =>
                  if truthy (bs_shadow boss) && negb (mem shadow (shadows user))
                  then
                    Ok (mkDispatched (bs_exp boss) (bs_gold boss) reps
                          (Some shadow))
                       (users_update_one (id user)
                          [AddToSet_shadows shadow;
                           AddToSet_bosses_defeated quest_id] db)
                  else
                    Ok (mkDispatched (bs_exp boss) (bs_gold boss) reps None)
                       (users_update_one (id user)
                          [AddToSet_bosses_defeated quest_id] db)
              | None =>
                  Ok (mkDispatched (bs_exp boss) (bs_gold boss) reps None)
                     (users_update_one (id user)
                        [AddToSet_bosses_defeated quest_id] db)
              end
        end
      else if prefix "punishment_" quest_id then
        match find (fun p => str_eqb (pq_id p) quest_id)
                   (punishment_quests user) with
        | None => Err 404 Punishment_not_found
        | Some punishment =>
            Ok (mkDispatched (pq_exp_reward punishment) 0
                  (punishment_reps (pq_exercises punishment)) None)
               (users_update_one (id user)
                  [Pull_punishment_quests quest_id] db)
        end
      else if prefix "mission_" quest_id then
        match find (fun m => str_eqb (ms_id m) quest_id) SPECIAL_MISSIONS with
        | None => Err 404 Mission_not_found
        | Some mission =>
            if mem quest_id (special_missions_completed user)
            then Err 400 Quest_already_completed
            else
              match ms_shadow mission with
              | Some shadow =>
                  if truthy (ms_shadow mission)
                     && negb (mem shadow (shadows user))
                  then
                    Ok (mkDispatched (ms_exp mission) (ms_gold mission) 0
                          (Some shadow))
                       (users_update_one (id user)
                          [AddToSet_shadows shadow;
                           AddToSet_special_missions_completed quest_id] db)
                  else
                    Ok (mkDispatched (ms_exp mission) (ms_gold mission) 0 None)
                       (users_update_one (id user)
                          [AddToSet_special_missions_completed quest_id] db)
              | None =>
                  Ok (mkDispatched (ms_exp mission) (ms_gold mission) 0 None)
                     (users_update_one (id user)
                        [AddToSet_special_missions_completed quest_id] db)
              end
        end
      else Err 404 Quest_not_found
  end.

(** The threshold tables of lines 886-889, 898-901 and 908. *)
Definition level_achievements : list (Z * string) :=
  [ (10, "level_10"); (25, "level_25"); (40, "level_40"); (50, "level_50");
    (60, "level_60"); (80, "level_80"); (100, "level_100") ].

Definition streak_achievements : list (Z * string) :=
  [ (3, "streak_3"); (7, "streak_7"); (14, "streak_14"); (30, "streak_30");
    (60, "streak_60"); (100, "streak_100"); (365, "streak_365") ].

Definition reps_achievements : list (Z * string) :=
  [ (1000, "reps_1000"); (10000, "reps_10000"); (100000, "reps_100000") ].

(** The dictionaries of lines 924-931 and 950-954. *)
Definition dungeon_achievements : list (string * (Z * string)) :=
  [ ("E", (5, "dungeon_e_5")); ("D", (5, "dungeon_d_5"));
    ("C", (5, "dungeon_c_5")); ("B", (5, "dungeon_b_5"));
    ("A", (5, "dungeon_a_5")); ("S", (1, "dungeon_s")) ].

Definition boss_specific : list (string * string) :=
  [ ("boss_igris", "boss_igris"); ("boss_ant_king", "boss_beru");
    ("boss_antares", "boss_antares") ].

(** Lookup in a dictionary given as a list of pairs. *)
Definition dict_get {V : Type} (key : string) (d : list (string * V))
  : option V :=
  option_map snd (find (fun kv => str_eqb (fst kv) key) d).

(** Quest-count achievements, lines 865-883. *)
Definition quest_checks (user : User) (quests_completed_ : Z)
    (acc : list Achievement) : M (list Achievement) :=
  let uid := id user in
  let owned a := mem a (achievements user) in
  a1 <- unlock_when (quests_completed_ =? 1) uid "first_quest" acc ;;
  a2 <- unlock_when ((10 <=? quests_completed_) && negb (owned "quests_10"))
          uid "quests_10" a1 ;;
  a3 <- unlock_when ((50 <=? quests_completed_) && negb (owned "quests_50"))
          uid "quests_50" a2 ;;
  a4 <- unlock_when ((100 <=? quests_completed_) && negb (owned "quests_100"))
          uid "quests_100" a3 ;;
  a5 <- unlock_when ((500 <=? quests_completed_) && negb (owned "quests_500"))
          uid "quests_500" a4 ;;
  unlock_when ((1000 <=? quests_completed_) && negb (owned "quests_1000"))
    uid "quests_1000" a5.

(** Dungeon achievements, lines 914-942. *)
Definition dungeon_checks (quest_id : string) (user : User)
    (acc : list Achievement) : M (list Achievement) :=
  let uid := id user in
  let owned a := mem a (achievements user) in
  if prefix "dungeon_" quest_id then
    match find (fun d => str_eqb (dg_id d) quest_id) SPECIAL_DUNGEONS with
    | None => ret acc
    | Some dungeon =>
        a1 <- unlock_when (negb (owned "dungeon_first")) uid "dungeon_first"
                acc ;;
        let rank_ := dg_difficulty dungeon in
        let current_count := get_count rank_ (dungeons_completed user) + 1 in
        a2 <- match dict_get rank_ dungeon_achievements with
              | Some (count_needed, achievement_id) =>
                  unlock_when ((count_needed <=? current_count)
                               && negb (owned achievement_id))
                    uid achievement_id a1
              | None => ret a1
              end ;;
        if str_eqb rank_ "S" then
          let s_count := get_count "S" (dungeons_completed user) + 1 in
          unlock_when ((10 <=? s_count) && negb (owned "dungeon_s_10"))
            uid "dungeon_s_10" a2
        else ret a2
    end
  else ret acc.

(** Boss achievements, lines 944-964. *)
Definition boss_checks (quest_id : string) (user : User)
    (acc : list Achievement) : M (list Achievement) :=
  let uid := id user in
  let owned a := mem a (achievements user) in
  if prefix "boss_" quest_id then
    a1 <- unlock_when (negb (owned "boss_first")) uid "boss_first" acc ;;
    a2 <- match dict_get quest_id boss_specific with
          | Some achievement_id =>
              unlock_when (negb (owned achievement_id)) uid achievement_id a1
          | None => ret a1
          end ;;
    let all_boss_ids := map bs_id WEEKLY_BOSSES in
    let bosses_defeated_ := bosses_defeated user ++ [quest_id] in
    unlock_when (forallb (fun b => mem b bosses_defeated_) all_boss_ids
                 && negb (owned "boss_all"))
      uid "boss_all" a2
  else ret acc.

(** Shadow achievements, lines 966-992. *)
Definition shadow_checks (shadow_earned : option string) (user : User)
    (acc : list Achievement) : M (list Achievement) :=
  let uid := id user in
  let owned a := mem a (achievements user) in
  match shadow_earned with
  | Some shadow =>
      if truthy shadow_earned then
        let shadows_ := shadows user ++ [shadow] in
        let shadow_count := Z.of_nat (List.length shadows_) in
        a1 <- unlock_when (shadow_count =? 1) uid "shadow_first" acc ;;
        a2 <- unlock_when ((5 <=? shadow_count) && negb (owned "shadow_5"))
                uid "shadow_5" a1 ;;
        a3 <- unlock_when ((10 <=? shadow_count) && negb (owned "shadow_10"))
                uid "shadow_10" a2 ;;
        let rarity :=
          match dict_get shadow SHADOWS with
          | Some r => r
          | None => "common"
          end in
        a4 <- unlock_when (str_eqb rarity "legendary"
                           && negb (owned "shadow_legendary"))
                uid "shadow_legendary" a3 ;;
        a5 <- unlock_when (str_eqb rarity "mythic"
                           && negb (owned "shadow_mythic"))
                uid "shadow_mythic" a4 ;;
        unlock_when (str_eqb rarity "divine" && negb (owned "shadow_divine"))
          uid "shadow_divine" a5
      else ret acc
  | None => ret acc
  end.

(** The achievement checks at the end of [complete_quest] (lines
    862-992), in the order
    of the source.  [user] is the snapshot loaded at the start of the
    request; [is_daily] is the truth value of [daily]. *)
Definition check_achievements (quest_id : string) (user : User)
    (is_daily : bool) (new_level new_total_reps quests_completed_ : Z)
    (shadow_earned : option string) : M (list Achievement) :=
  a1 <- quest_checks user quests_completed_ [] ;;
  a2 <- unlock_thresholds new_level level_achievements user a1 ;;
  let streak_ := streak user in
  a3 <- (if is_daily
         then unlock_thresholds streak_ streak_achievements user a2
         else ret a2) ;;
  a4 <- unlock_thresholds new_total_reps reps_achievements user a3 ;;
  a5 <- dungeon_checks quest_id user a4 ;;
  a6 <- boss_checks quest_id user a5 ;;
  shadow_checks shadow_earned user a6.

Record CompleteResponse := mkComplete {
  cr_exp_gained : Z;
  cr_gold_gained : Z;
  cr_new_level : Z;
  cr_new_exp : Z;
  cr_exp_to_next : Z;
  cr_new_rank : string;
  cr_stat_points_gained : Z;
  cr_level_up : bool;
  cr_achievements_unlocked : list Achievement;
  cr_shadow_earned : option string;
  cr_reps_gained : Z
}.

(** [db.daily_quests.find_one({"id": quest_id, "user_id": uid})] *)
Definition daily_find_by_id (quest_id uid : string) (db : DB)
  : option DailyQuest :=
  find (fun q => str_eqb (dq_id q) quest_id && str_eqb (dq_user_id q) uid)
       (daily_quests db).

(** [complete_quest], lines 673-1007: dispatch, level-up loop, the
    progression update, the achievement checks, the response. *)
Definition complete_quest (today : Z) (quest_id : string) (user_id : string)
    (db : DB) : Result CompleteResponse :=
  match get_current_user user_id db with
  | None => Err 401 User_not_found
  | Some user =>
      let daily := daily_find_by_id quest_id (id user) db in
      match dispatch today quest_id user daily db with
      | Err code detail => Err code detail
      | Ok d db1 =>
          let '(new_exp, new_level, stat_points_gained) :=
            level_up_loop (experience user + d_exp_reward d) (level user) 0 in
          let exp_needed := calculate_exp_needed new_level in
          let new_rank := calculate_rank new_level in
          let quests_completed_ := quests_completed user + 1 in
          let new_total_reps := total_reps user + d_total_reps_gained d in
          let db2 :=
            users_update_one (id user)
              [Set_experience new_exp; Set_level new_level; Set_rank new_rank;
               Inc_gold (d_gold_reward d); Inc_stat_points stat_points_gained;
               Inc_quests_completed 1;
               Inc_total_reps (d_total_reps_gained d)] db1 in
          let (achievements_unlocked, db3) :=
            check_achievements quest_id user
              (match daily with Some _ => true | None => false end)
              new_level new_total_reps quests_completed_ (d_shadow_earned d)
              db2 in
          Ok (mkComplete (d_exp_reward d) (d_gold_reward d) new_level new_exp
                exp_needed new_rank stat_points_gained
                (level user <? new_level) achievements_unlocked
                (match d_shadow_earned d with
                 | Some s => if truthy (d_shadow_earned d)
                             then dict_get s SHADOWS else None
                 | None => None
                 end)
                (d_total_reps_gained d))
             db3
      end
  end.

(** ** Quest failure *)

Record FailResponse := mkFail {
  fr_exp_lost : Z;
  fr_punishment_assigned : string;
  fr_streak_protected : bool
}.

(** [random.choice(seq)] given the random draw [r]. *)
Definition random_choice {A : Type} (r : nat) (seq : list A) (default : A)
  : A :=
  nth (Nat.modulo r (List.length seq)) seq default.

(** [int(experience * 0.15)] *)
Definition exp_penalty_of (experience_ : Z) : Z :=
  Z.quot (experience_ * 15) 100.

(** [fail_quest], lines 1009-1062.
    [r] is the draw of [random.choice], [uuid] the string of the [uuid4]
    whose first eight characters name the punishment, [now] the clock. *)
Definition fail_quest (r : nat) (uuid : string) (now : Z) (quest_id : string)
    (user_id : string) (db : DB) : Result FailResponse :=
  match get_current_user user_id db with
  | None => Err 401 User_not_found
  | Some user =>
      let shields := streak_shields user in
      let streak_protected := 0 <? shields in
      let db1 :=
        if 0 <? shields
        then users_update_one (id user) [Inc_streak_shields (-1)] db
        else users_update_one (id user) [Set_streak 0] db in
      let punishment :=
        random_choice r PUNISHMENT_QUESTS (mkPunishment "" [] 0) in
      let punishment_quest :=
        mkPQ (String.append "punishment_" (substring 0 8 uuid))
             (pt_name punishment) (pt_exercises punishment)
             (pt_exp punishment) "punishment" now in
      let exp_penalty := exp_penalty_of (experience user) in
      let new_exp := Z.max 0 (experience user - exp_penalty) in
      let db2 :=
        users_update_one (id user)
          [Set_experience new_exp; Set_training_start_time None;
           Push_punishment_quests punishment_quest] db1 in
      Ok (mkFail exp_penalty (pq_name punishment_quest) streak_protected) db2
  end.

(** ** Shop *)

(** The update document [buy_item] builds: the price is taken first, then
    the keys of the effect are merged in. *)
Definition purchase_ops (item : ShopItem) : list UpdateOp :=
  let eff := it_effect item in
  if str_eqb (it_type item) "consumable" then
    [Inc_gold (match eff_gold eff with
               | Some g => - it_price item + g
               | None => - it_price item
               end)]
    ++ match eff_exp eff with Some e => [Inc_experience e] | None => [] end
    ++ match eff_streak_shield eff with
       | Some s => [Inc_streak_shields s]
       | None => []
       end
  else if str_eqb (it_type item) "title" then
    [Inc_gold (- it_price item)]
    ++ match eff_title eff with Some t => [Set_title t] | None => [] end
  else if str_eqb (it_type item) "stat_boost" then
    [Inc_gold (- it_price item)]
    ++ match eff_stat eff, eff_value eff with
       | Some s, Some v => [Inc_stat s v]
       | _, _ => []
       end
  else [Inc_gold (- it_price item)].

(** [buy_item], lines 1084-1111.  The response message names the item. *)
Definition buy_item (item_id : string) (user_id : string) (db : DB)
  : Result string :=
  match get_current_user user_id db with
  | None => Err 401 User_not_found
  | Some user =>
      match find (fun i => str_eqb (it_id i) item_id) SHOP_ITEMS with
      | None => Err 404 Item_not_found
      | Some item =>
          if gold user <? it_price item then Err 400 Insufficient_gold
          else Ok (it_id item) (users_update_one (id user) (purchase_ops item) db)
      end
  end.

(** ** Listings and views *)

(** The [rank_order] dictionary of [get_special_missions] (line 628),
    read with [rank_order.get(rank, 0)]. *)
Definition rank_order (r : string) : Z :=
  if str_eqb r "E" then 1
  else if str_eqb r "D" then 2
  else if str_eqb r "C" then 3
  else if str_eqb r "B" then 4
  else if str_eqb r "A" then 5
  else if str_eqb r "S" then 6
  else 0.

(** The exercises a dungeon or boss listing shows: the daily targets
    scaled by the multiplier (lines 552-556 and 581-585). *)
Definition scaled_exercises (level_ multiplier10 : Z) : list Exercise :=
  map (fun ex =>
         let base_reps :=
           get_training_reps level_ (tpl_base_reps ex) (tpl_max_reps ex) in
         mkExercise (tpl_name ex) (Z.quot (base_reps * multiplier10) 10)
                    (tpl_unit ex) (tpl_stat ex))
      BASE_DAILY_EXERCISES.

(** One entry of [GET /quests/special]; the constant keys (quest_type,
    time_limit_hours) and the display-only ones are left out. *)
Record SpecialQuest := mkSpecial {
  sq_id : string;
  sq_exercises : list Exercise;
  sq_exp_reward : Z;
  sq_gold_reward : Z;
  sq_difficulty : string;
  sq_min_level : Z;
  sq_is_completed : bool
}.

(** [get_special_quests], lines 545-572. *)
Definition get_special_quests (user_id : string) (db : DB)
  : Result (list SpecialQuest) :=
  match get_current_user user_id db with
  | None => Err 401 User_not_found
  | Some user =>
      let level_ := level user in
      Ok (flat_map
            (fun dungeon =>
               if dg_min_level dungeon <=? level_
               then [mkSpecial (dg_id dungeon)
                       (scaled_exercises level_ (dg_multiplier10 dungeon))
                       (dg_exp dungeon) (dg_gold dungeon)
                       (dg_difficulty dungeon) (dg_min_level dungeon) false]
               else [])
            SPECIAL_DUNGEONS) db
  end.

(** One entry of [GET /quests/weekly-boss]. *)
Record BossQuest := mkBossQuest {
  bq_id : string;
  bq_exercises : list Exercise;
  bq_exp_reward : Z;
  bq_gold_reward : Z;
  bq_min_level : Z;
  bq_shadow_reward : option string;
  bq_already_defeated : bool
}.

(** [get_weekly_boss], lines 574-603. *)
Definition get_weekly_boss (user_id : string) (db : DB)
  : Result (list BossQuest) :=
  match get_current_user user_id db with
  | None => Err 401 User_not_found
  | Some user =>
      let level_ := level user in
      Ok (flat_map
            (fun boss =>
               if bs_min_level boss <=? level_
               then [mkBossQuest (bs_id boss)
                       (scaled_exercises level_ (bs_multiplier10 boss))
                       (bs_exp boss) (bs_gold boss) (bs_min_level boss)
                       (bs_shadow boss)
                       (mem (bs_id boss) (bosses_defeated user))]
               else [])
            WEEKLY_BOSSES) db
  end.

(** The [requirement] entries of [SPECIAL_MISSIONS] (lines 184-218), by
    mission id; the constructor is the [type] key. *)
Inductive Requirement : Type :=
| Req_streak (value : Z)
| Req_level (value : Z)
| Req_dungeon_rank (value : string)
| Req_rank (value : string)
| Req_dungeon_count (value : Z) (rank_ : string)
| Req_total_reps (value : Z)
| Req_no_fail_streak (value : Z).

Definition MISSION_REQUIREMENTS : list (string * Requirement) :=
  [ ("mission_despertar", Req_streak 3);
    ("mission_primer_paso", Req_level 5);
    ("mission_resistencia_basica", Req_dungeon_rank "E");
    ("mission_cazador_real", Req_rank "D");
    ("mission_semana_hierro", Req_streak 7);
    ("mission_dominador_d", Req_dungeon_count 5 "D");
    ("mission_fortaleza_mental", Req_no_fail_streak 10);
    ("mission_ascenso_c", Req_rank "C");
    ("mission_mes_acero", Req_streak 30);
    ("mission_conquistador_c", Req_dungeon_count 10 "C");
    ("mission_mil_repeticiones", Req_total_reps 1000);
    ("mission_elite_b", Req_rank "B");
    ("mission_leyenda_100", Req_streak 100);
    ("mission_sung_jinwoo", Req_level 50);
    ("mission_destructor_b", Req_dungeon_count 15 "B");
    ("mission_rango_a", Req_rank "A");
    ("mission_aniquilador_a", Req_dungeon_count 20 "A");
    ("mission_10k_reps", Req_total_reps 10000);
    ("mission_rango_s", Req_rank "S");
    ("mission_aniquilador_s", Req_dungeon_count 10 "S");
    ("mission_ano_acero", Req_streak 365) ].

(** One entry of [GET /quests/special-missions]; [target] is a number, or
    the string of a requirement of type [dungeon_rank], which no branch
    replaces. *)
Record MissionQuest := mkMissionQuest {
  mq_id : string;
  mq_exp_reward : Z;
  mq_gold_reward : Z;
  mq_shadow_reward : option string;
  mq_is_completed : bool;
  mq_can_complete : bool;
  mq_progress : Z;
  mq_target : Z + string;
  mq_min_level : Z
}.

(** The [if]/[elif] chain on [req["type"]] (lines 621-640): progress,
    target and [can_complete]. *)
Definition requirement_progress (req : Requirement) (user : User)
  : Z * (Z + string) * bool :=
  match req with
  | Req_streak target =>
      let progress := streak user in
      (progress, inl target, target <=? progress)
  | Req_level target =>
      let progress := level user in
      (progress, inl target, target <=? progress)
  | Req_rank value =>
      let progress := rank_order (rank user) in
      let target := rank_order value in
      (progress, inl target, target <=? progress)
  | Req_dungeon_count target dungeon_rank =>
      let progress := get_count dungeon_rank (dungeons_completed user) in
      (progress, inl target, target <=? progress)
  | Req_total_reps target =>
      let progress := total_reps user in
      (progress, inl target, target <=? progress)
  | Req_no_fail_streak target =>
      let progress := streak user in
      (progress, inl target, target <=? progress)
  | Req_dungeon_rank value => (0, inr value, false)
  end.

(** [get_special_missions], lines 605-657.  A mission without an entry in
    the requirement table does not occur in the catalog. *)
Definition get_special_missions (user_id : string) (db : DB)
  : Result (list MissionQuest) :=
  match get_current_user user_id db with
  | None => Err 401 User_not_found
  | Some user =>
      let level_ := level user in
      let completed := special_missions_completed user in
      Ok (flat_map
            (fun mission =>
               if ms_min_level mission <=? level_
               then
                 match dict_get (ms_id mission) MISSION_REQUIREMENTS with
                 | None => []
                 | Some req =>
                     let is_completed := mem (ms_id mission) completed in
                     let '(progress, target, can_complete) :=
                       requirement_progress req user in
                     [mkMissionQuest (ms_id mission) (ms_exp mission)
                        (ms_gold mission) (ms_shadow mission) is_completed
                        (can_complete && negb is_completed) progress target
                        (ms_min_level mission)]
                 end
               else [])
            SPECIAL_MISSIONS) db
  end.

(** [get_punishment_quests], lines 659-661. *)
Definition get_punishment_quests (user_id : string) (db : DB)
  : Result (list PunishmentQuest) :=
  match get_current_user user_id db with
  | None => Err 401 User_not_found
  | Some user => Ok (punishment_quests user) db
  end.

(** [start_training], lines 663-671; [now] is the clock reading. *)
Definition start_training (now : Z) (quest_id : string) (user_id : string)
    (db : DB) : Result Z :=
  match get_current_user user_id db with
  | None => Err 401 User_not_found
  | Some user =>
      Ok now (users_update_one (id user)
                [Set_training_start_time (Some now)] db)
  end.

(** The [stat_bonus] entries of [SHADOWS] (lines 231-250). *)
Definition SHADOW_STAT_BONUS : list (string * list (string * Z)) :=
  [ ("shadow_goblin", [("strength", 2)]);
    ("shadow_knight", [("endurance", 5)]);
    ("shadow_mage", [("vitality", 5)]);
    ("shadow_tank", [("endurance", 10)]);
    ("shadow_assassin", [("agility", 10)]);
    ("shadow_general", [("strength", 15)]);
    ("shadow_igris", [("strength", 10); ("endurance", 10)]);
    ("shadow_tusk", [("strength", 20)]);
    ("shadow_beru", [("strength", 15); ("agility", 15)]);
    ("shadow_dragon", [("vitality", 25)]);
    ("shadow_baran", [("strength", 20); ("vitality", 10)]);
    ("shadow_demon_lord", [("strength", 15); ("endurance", 15)]);
    ("shadow_monarch", [("strength", 25); ("agility", 25)]);
    ("shadow_legia", [("strength", 30); ("endurance", 20)]);
    ("shadow_querehsha", [("vitality", 40)]);
    ("shadow_sovereign", [("strength", 30); ("agility", 20); ("vitality", 20)]);
    ("shadow_ashborn", [("strength", 50); ("agility", 50)]);
    ("shadow_antares", [("strength", 50); ("endurance", 50); ("vitality", 50)]) ].

(** The bonus of one shadow added to the running totals; an id that is
    not in [SHADOWS] adds nothing. *)
Definition add_shadow_bonus (acc : Stats) (shadow_id : string) : Stats :=
  match dict_get shadow_id SHADOW_STAT_BONUS with
  | Some bonus =>
      fold_left (fun acc' sb => inc_stat (fst sb) (snd sb) acc') bonus acc
  | None => acc
  end.

(** The [shadow_bonuses] loop of [get_profile], lines 403-407. *)
Definition shadow_bonuses_of (owned : list string) : Stats :=
  fold_left add_shadow_bonus owned (mkStats 0 0 0 0).

(** The response of [get_profile]: the keys copied from the document
    (every key but the password) and the two computed ones. *)
Record Profile := mkProfile {
  pf_document : User;
  pf_exp_to_next : Z;
  pf_shadow_bonuses : Stats
}.

(** [get_profile], lines 400-436. *)
Definition get_profile (user_id : string) (db : DB) : Result Profile :=
  match get_current_user user_id db with
  | None => Err 401 User_not_found
  | Some user =>
      Ok (mkProfile user (calculate_exp_needed (level user))
            (shadow_bonuses_of (shadows user))) db
  end.

(** [get_achievements], lines 1252-1261: the catalog with the [unlocked]
    flag of the user. *)
Definition get_achievements (user_id : string) (db : DB)
  : Result (list (Achievement * bool)) :=
  match get_current_user user_id db with
  | None => Err 401 User_not_found
  | Some user =>
      Ok (map (fun ach => (ach, mem (ach_id ach) (achievements user)))
              ACHIEVEMENTS) db
  end.

(** [get_shadows], lines 1115-1127: id, rarity and the [owned] flag. *)
Definition get_shadows (user_id : string) (db : DB)
  : Result (list (string * string * bool)) :=
  match get_current_user user_id db with
  | None => Err 401 User_not_found
  | Some user =>
      Ok (map (fun entry => (fst entry, snd entry,
                             mem (fst entry) (shadows user)))
              SHADOWS) db
  end.

(** ** Guilds *)

(** A guild document (lines 1146-1156). *)
Record Guild := mkGuild {
  g_id : string;
  g_name : string;
  g_description : string;
  g_leader_id : string;
  g_leader_name : string;
  g_members : list string;
  g_member_count : Z;
  g_total_level : Z;
  g_created_at : Z
}.

(** The database together with the [guilds] collection. *)
Record World := mkWorld {
  w_db : DB;
  w_guilds : list Guild
}.

Inductive GuildDetail : Type :=
| Guild_user_not_found
| Already_in_guild
| Guild_name_exists
| Guild_not_found
| Not_in_guild.

Inductive GuildResult (A : Type) : Type :=
| GOk (payload : A) (w : World)
| GErr (status_code : Z) (detail : GuildDetail).

Arguments GOk {A} payload w.
Arguments GErr {A} status_code detail.

Definition with_guild_id (v : option string) (u : User) : User :=
  mkUser (id u) (email u) (password u) (hunter_name u) (level u)
    (experience u) (rank u) (gold u) (title u) (stats u) (stat_points u) v
    (achievements u) (quests_completed u) (inventory u) (active_quests u)
    (punishment_quests u) (shadows u) (streak u) (best_streak u)
    (last_quest_date u) (total_reps u) (dungeons_completed u)
    (bosses_defeated u) (special_missions_completed u) (streak_shields u)
    (training_start_time u) (created_at u).

(** [db.users.update_one({"id": uid}, {"$set": {"guild_id": v}})] *)
Definition users_set_guild_id (uid : string) (v : option string) (db : DB)
  : DB :=
  mkDB (update_first (has_id uid) (with_guild_id v) (users db))
       (daily_quests db).

Definition guild_id_is (gid : string) (u : User) : bool :=
  match guild_id u with
  | Some g => str_eqb g gid
  | None => false
  end.

(** [db.users.update_many({"guild_id": gid}, {"$set": {"guild_id": None}})] *)
Definition users_clear_guild (gid : string) (db : DB) : DB :=
  mkDB (map (fun u => if guild_id_is gid u then with_guild_id None u else u)
            (users db))
       (daily_quests db).

Definition has_guild_id (gid : string) (g : Guild) : bool :=
  str_eqb (g_id g) gid.

(** [db.guilds.find_one({"id": gid})] *)
Definition guilds_find_one (gid : string) (w : World) : option Guild :=
  find (has_guild_id gid) (w_guilds w).

(** [delete_one]: the first document that matches is removed. *)
Fixpoint delete_first {A : Type} (p : A -> bool) (l : list A) : list A :=
  match l with
  | [] => []
  | x :: rest => if p x then rest else x :: delete_first p rest
  end.

(** The update of [join_guild]: [$push] members, [$inc] both counters. *)
Definition guild_add_member (uid : string) (level_ : Z) (g : Guild) : Guild :=
  mkGuild (g_id g) (g_name g) (g_description g) (g_leader_id g)
          (g_leader_name g) (g_members g ++ [uid]) (g_member_count g + 1)
          (g_total_level g + level_) (g_created_at g).

(** The update of [leave_guild]: [$pull] members, [$inc] both counters. *)
Definition guild_remove_member (uid : string) (level_ : Z) (g : Guild)
  : Guild :=
  mkGuild (g_id g) (g_name g) (g_description g) (g_leader_id g)
          (g_leader_name g)
          (filter (fun m => negb (str_eqb m uid)) (g_members g))
          (g_member_count g + -1) (g_total_level g + - level_)
          (g_created_at g).

(** [create_guild], lines 1136-1164; [fresh_id] is the [uuid4], [now] the
    clock. *)
Definition create_guild (fresh_id : string) (now : Z)
    (name description : string) (user_id : string) (w : World)
  : GuildResult string :=
  match get_current_user user_id (w_db w) with
  | None => GErr 401 Guild_user_not_found
  | Some user =>
      if truthy (guild_id user) then GErr 400 Already_in_guild
      else if existsb (fun g => str_eqb (g_name g) name) (w_guilds w)
      then GErr 400 Guild_name_exists
      else
        let guild :=
          mkGuild fresh_id name description (id user) (hunter_name user)
                  [id user] 1 (level user) now in
        let db1 := users_set_guild_id (id user) (Some fresh_id) (w_db w) in
        let db2 :=
          snd (unlock_when (negb (mem "guild_create" (achievements user)))
                 (id user) "guild_create" [] db1) in
        GOk fresh_id (mkWorld db2 (w_guilds w ++ [guild]))
  end.

(** [join_guild], lines 1166-1187. *)
Definition join_guild (gid : string) (user_id : string) (w : World)
  : GuildResult string :=
  match get_current_user user_id (w_db w) with
  | None => GErr 401 Guild_user_not_found
  | Some user =>
      if truthy (guild_id user) then GErr 400 Already_in_guild
      else
        match guilds_find_one gid w with
        | None => GErr 404 Guild_not_found
        | Some guild =>
            let guilds1 :=
              update_first (has_guild_id gid)
                (guild_add_member (id user) (level user)) (w_guilds w) in
            let db1 := users_set_guild_id (id user) (Some gid) (w_db w) in
            let db2 :=
              snd (unlock_when (negb (mem "guild_join" (achievements user)))
                     (id user) "guild_join" [] db1) in
            GOk (g_name guild) (mkWorld db2 guilds1)
        end
  end.

(** [leave_guild], lines 1189-1208. *)
Definition leave_guild (user_id : string) (w : World) : GuildResult unit :=
  match get_current_user user_id (w_db w) with
  | None => GErr 401 Guild_user_not_found
  | Some user =>
      match guild_id user with
      | None => GErr 400 Not_in_guild
      | Some gid =>
          if negb (truthy (guild_id user)) then GErr 400 Not_in_guild
          else
            let guild := guilds_find_one gid w in
            let is_leader :=
              match guild with
              | Some g => str_eqb (g_leader_id g) (id user)
              | None => false
              end in
            if is_leader
            then
              GOk tt (mkWorld (users_clear_guild gid (w_db w))
                              (delete_first (has_guild_id gid) (w_guilds w)))
            else
              GOk tt
                (mkWorld (users_set_guild_id (id user) None (w_db w))
                   (update_first (has_guild_id gid)
                      (guild_remove_member (id user) (level user))
                      (w_guilds w)))
      end
  end.

(** One entry of [members_info]: the projection
    [{"id": 1, "hunter_name": 1, "level": 1, "rank": 1}]. *)
Record MemberInfo := mkMemberInfo {
  mi_id : string;
  mi_hunter_name : string;
  mi_level : Z;
  mi_rank : string
}.

Definition member_info (u : User) : MemberInfo :=
  mkMemberInfo (id u) (hunter_name u) (level u) (rank u).

(** [get_guild_details], lines 1210-1222: the guild and the first 100
    users whose id is on its member list, in the order of the
    collection. *)
Definition get_guild_details (gid : string) (w : World)
  : GuildResult (Guild * list MemberInfo) :=
  match guilds_find_one gid w with
  | None => GErr 404 Guild_not_found
  | Some guild =>
      let members :=
        firstn 100
          (map member_info
               (filter (fun u => mem (id u) (g_members guild))
                       (users (w_db w)))) in
      GOk (guild, members) w
  end.

(** ** Cleaning a Mongo document *)

(** The values [clean_mongo_doc] tells apart: [None], an [ObjectId], a
    dictionary, a list, and any other scalar. *)
#[warnings="-register-all"] Inductive Json : Type :=
| JNone
| JObjectId (oid : string)
| JScalar (text : string)
| JDict (fields : list (string * Json))
| JList (items : list Json).

Definition is_object_id (v : Json) : bool :=
  match v with
  | JObjectId _ => true
  | _ => false
  end.

(** [clean_mongo_doc], lines 73-88. *)
Fixpoint clean_mongo_doc (doc : Json) : Json :=
  match doc with
  | JDict fields =>
      JDict
        ((fix clean_fields (l : list (string * Json)) : list (string * Json) :=
            match l with
            | [] => []
            | (key, value) :: rest =>
                if str_eqb key "_id" || is_object_id value
                then clean_fields rest
                else
                  (key,
                   match value with
                   | JDict _ => clean_mongo_doc value
                   | JList items =>
                       JList
                         ((fix clean_items (l' : list Json) : list Json :=
                             match l' with
                             | [] => []
                             | item :: rest' =>
                                 match item with
                                 | JDict _ => clean_mongo_doc item
                                 | _ => item
                                 end :: clean_items rest'
                             end) items)
                   | _ => value
                   end) :: clean_fields rest
            end) fields)
  | _ => doc
  end.

(** ** The two clock readings of a completion *)

(** The streak rule of a daily completion, lines 700-709, with the two
    strings the code compares the stored date with: [today], formatted
    from the clock reading of line 678, and [yesterday], formatted from a
    second reading at line 702, after the awaited database calls. *)
Definition new_streak_at (user : User) (today yesterday : Z) : Z :=
  let last_date := last_quest_date user in
  if date_is last_date yesterday || date_is last_date today
  then streak user + (if date_is last_date today then 0 else 1)
  else match last_date with
       | None => 1
       | Some _ => 1
       end.

(** The dispatch of lines 685-827 on the two readings.  Only the branch
    of a daily quest reads them. *)
Definition dispatch_at (today yesterday : Z) (quest_id : string)
    (user : User) (daily : option DailyQuest) (db : DB) : Result Dispatched :=
  match daily with
  | Some d =>
      if dq_is_completed d then Err 400 Quest_already_completed
      else
        let total_reps_gained := daily_reps (dq_exercises d) in
        let db1 := daily_set_completed quest_id db in
        let new_streak := new_streak_at user today yesterday in
        let best := Z.max new_streak (best_streak user) in
        Ok (mkDispatched (dq_exp_reward d) (dq_gold_reward d)
              total_reps_gained None)
           (users_update_one (id user)
              [Set_streak new_streak; Set_best_streak best;
               Set_last_quest_date (Some today);
               Set_training_start_time None] db1)
  | None => dispatch today quest_id user None db
  end.

(** The body of [complete_quest], lines 675-1007, on the two readings and
    on the snapshot [user] that the dependency [get_current_user] loaded
    before the body runs: every check of the body reads the snapshot,
    every write goes to the database. *)
Definition complete_quest_body (today yesterday : Z) (quest_id : string)
    (user : User) (db : DB) : Result CompleteResponse :=
  let daily := daily_find_by_id quest_id (id user) db in
  match dispatch_at today yesterday quest_id user daily db with
  | Err code detail => Err code detail
  | Ok d db1 =>
      let '(new_exp, new_level, stat_points_gained) :=
        level_up_loop (experience user + d_exp_reward d) (level user) 0 in
      let exp_needed := calculate_exp_needed new_level in
      let new_rank := calculate_rank new_level in
      let quests_completed_ := quests_completed user + 1 in
      let new_total_reps := total_reps user + d_total_reps_gained d in
      let db2 :=
        users_update_one (id user)
          [Set_experience new_exp; Set_level new_level; Set_rank new_rank;
           Inc_gold (d_gold_reward d); Inc_stat_points stat_points_gained;
           Inc_quests_completed 1;
           Inc_total_reps (d_total_reps_gained d)] db1 in
      let (achievements_unlocked, db3) :=
        check_achievements quest_id user
          (match daily with Some _ => true | None => false end)
          new_level new_total_reps quests_completed_ (d_shadow_earned d)
          db2 in
      Ok (mkComplete (d_exp_reward d) (d_gold_reward d) new_level new_exp
            exp_needed new_rank stat_points_gained
            (level user <? new_level) achievements_unlocked
            (match d_shadow_earned d with
             | Some s => if truthy (d_shadow_earned d)
                         then dict_get s SHADOWS else None
             | None => None
             end)
            (d_total_reps_gained d))
         db3
  end.

(** [complete_quest], lines 673-1007, on the two readings: the dependency
    loads the snapshot, the body runs on it.  [complete_quest today] is
    the request whose second reading falls on the same UTC date as the
    first, so that [yesterday] is [today - 1]. *)
Definition complete_quest_at (today yesterday : Z) (quest_id : string)
    (user_id : string) (db : DB) : Result CompleteResponse :=
  match get_current_user user_id db with
  | None => Err 401 User_not_found
  | Some user => complete_quest_body today yesterday quest_id user db
  end.

(** ** Notions used in the statements *)

Definition is_ach_op (op : UpdateOp) : Prop :=
  match op with
  | AddToSet_achievements _ | Inc_gold _ => True
  | _ => False
  end.

(** A request step that only sends achievement updates for [uid]. *)
Definition ach_only (uid : string) {A : Type} (m : M A) : Prop :=
  forall db, exists ops,
    Forall is_ach_op ops /\ snd (m db) = users_update_one uid ops db.

(** The user document with its two reward fields blanked. *)
Definition without_rewards (u : User) : User :=
  with_achievements [] (with_gold 0 u).

(** The update documents sent for a list of unlocked achievements. *)
Definition reward_ops (unlocked : list Achievement) : list UpdateOp :=
  flat_map (fun a => [AddToSet_achievements (ach_id a);
                      Inc_gold (reward_gold a)]) unlocked.

(** A check that extends the accumulator [acc] with achievements whose ids
    satisfy [P], and sends exactly their update documents. *)
Definition tracked (uid : string) (P : string -> Prop)
    (acc : list Achievement) (m : M (list Achievement)) : Prop :=
  forall db, exists unlocked,
    fst (m db) = acc ++ unlocked
    /\ snd (m db) = users_update_one uid (reward_ops unlocked) db
    /\ Forall (fun a => P (ach_id a)) unlocked.

(** First reading: an id is paid only if the snapshot does not hold it,
    the two counter-guarded ids apart. *)
Definition not_yet_owned (user : User) (aid : string) : Prop :=
  mem aid (achievements user) = false
  \/ aid = "first_quest" \/ aid = "shadow_first".

(** Second reading: a streak milestone is paid only if the streak of the
    snapshot has reached it. *)
Definition streak_reached (user : User) (aid : string) : Prop :=
  forall m, In (m, aid) streak_achievements -> m <= streak user.

(** The operations [dispatch] sends: none of them touches the level, the
    experience, the rank, the gold, the stat points or the achievements. *)
Definition is_dispatch_op (op : UpdateOp) : Prop :=
  match op with
  | Set_streak _ | Set_best_streak _ | Set_last_quest_date _
  | Set_training_start_time _ | Inc_dungeons_completed _ _
  | AddToSet_shadows _ | AddToSet_bosses_defeated _
  | AddToSet_special_missions_completed _ | Pull_punishment_quests _ => True
  | _ => False
  end.

(** The gold of the achievements in a payload. *)
Definition total_reward (unlocked : list Achievement) : Z :=
  fold_right (fun a s => reward_gold a + s) 0 unlocked.

(** [grants_shadow q s]: the catalog boss or special mission with id [q]
    has [s] as its shadow reward. *)
Definition grants_shadow (q s : string) : Prop :=
  (exists b, In b WEEKLY_BOSSES /\ bs_id b = q /\ bs_shadow b = Some s)
  \/ (exists m, In m SPECIAL_MISSIONS /\ ms_id m = q /\ ms_shadow m = Some s).

(** The stored instances of a user on a date. *)
Definition instances_on (uid : string) (today : Z) (db : DB)
  : list DailyQuest :=
  filter (fun q => str_eqb (dq_user_id q) uid && (dq_date q =? today))
         (daily_quests db).

(** Rank follows the level and the experience is below the threshold of
    the level. *)
Definition progression_invariant (u : User) : Prop :=
  rank u = calculate_rank (level u)
  /\ experience u < calculate_exp_needed (level u).

(** A freshly registered hunter and the database that holds only him. *)
Definition hunter : User :=
  new_user "u1" "hash" 0 "hunter@example.org" "Jinwoo".

Definition db_registered : DB := mkDB [hunter] [].

(** Payload and database of an outcome, for runs that are known to
    succeed. *)
Definition default_response : CompleteResponse :=
  mkComplete 0 0 0 0 0 "" 0 false [] None 0.

Definition response_of (r : Result CompleteResponse) : CompleteResponse :=
  match r with
  | Ok p _ => p
  | Err _ _ => default_response
  end.

Definition view_of (r : Result DailyQuestView) : DailyQuestView :=
  match r with
  | Ok v _ => v
  | Err _ _ => mkView "" 0 [] 0 0 "" false
  end.

Definition db_of {A : Type} (r : Result A) : DB :=
  match r with
  | Ok _ db => db
  | Err _ _ => mkDB [] []
  end.



(** A level-20 hunter without shadows, and one who owns Igris. *)
Definition recruit : User := with_rank "D" (with_level 20 hunter).
Definition veteran : User := with_shadows ["shadow_igris"] recruit.
Definition db_recruit : DB := mkDB [recruit] [].
Definition db_veteran : DB := mkDB [veteran] [].

(** Igris fought by the veteran, and twice in a row by the recruit. *)
Definition veteran_fight : Result CompleteResponse :=
  complete_quest 7 "boss_igris" "u1" db_veteran.
Definition recruit_fight1 : Result CompleteResponse :=
  complete_quest 7 "boss_igris" "u1" db_recruit.
Definition recruit_fight2 : Result CompleteResponse :=
  complete_quest 8 "boss_igris" "u1" (db_of recruit_fight1).

(** The first dungeon cleared by the registered hunter. *)
Definition first_dungeon : Result CompleteResponse :=
  complete_quest 1 "dungeon_prueba_novato" "u1" db_registered.

(** The daily quest of day 1 fetched, then completed. *)
Definition db_daily : DB := db_of (get_daily_quests 1 "q1" "u1" db_registered).
Definition daily_done : Result CompleteResponse :=
  complete_quest 1 "q1" "u1" db_daily.


(** The thresholds of [n] consecutive levels from level [l] on. *)
Fixpoint thresholds_sum (l : Z) (n : nat) : Z :=
  match n with
  | O => 0
  | S k => calculate_exp_needed l + thresholds_sum (l + 1) k
  end.

(** A hunter with a streak of five days and gold to spend. *)
Definition rich_hunter : User := with_streak 5 (with_gold 5000 hunter).
Definition db_rich : DB := mkDB [rich_hunter] [].

(** The four stats and the unallocated points together. *)
Definition stat_total (u : User) : Z :=
  strength (stats u) + endurance (stats u) + agility (stats u)
  + vitality (stats u) + stat_points u.

(** The four lists that are kept with [$addToSet] hold no id twice. *)
Definition collections_ok (u : User) : Prop :=
  NoDup (achievements u) /\ NoDup (shadows u)
  /\ NoDup (bosses_defeated u) /\ NoDup (special_missions_completed u).

(** Every id of the four lists of [u] is in the same list of [u']. *)
Definition collections_grow (u u' : User) : Prop :=
  incl (achievements u) (achievements u')
  /\ incl (shadows u) (shadows u')
  /\ incl (bosses_defeated u) (bosses_defeated u')
  /\ incl (special_missions_completed u) (special_missions_completed u').

Definition in_catalog (a : Achievement) : Prop := In a ACHIEVEMENTS.

(** Componentwise order on the four stats. *)
Definition stats_le (a b : Stats) : Prop :=
  strength a <= strength b /\ endurance a <= endurance b
  /\ agility a <= agility b /\ vitality a <= vitality b.

(** A world with the registered hunter and one guild led by someone
    else. *)
Definition guild_one : Guild :=
  mkGuild "g1" "Cazadores" "" "u0" "Jefe" ["u0"] 1 5 0.

Definition world_one_guild : World := mkWorld db_registered [guild_one].

(** A world in which the registered hunter leads a guild that a second
    hunter has joined. *)
Definition guild_led : Guild :=
  mkGuild "g1" "Cazadores" "" "u1" "Jefe" ["u1"; "u2"] 2 3 0.

Definition world_led : World :=
  mkWorld (mkDB [with_guild_id (Some "g1") hunter;
                 with_guild_id (Some "g1")
                   (new_user "u2" "h2" 0 "b@x" "Beta")] [])
          [guild_led].

(** The first test of the loop of [clean_mongo_doc], negated: the field
    is kept. *)
Definition kept_field (kv : string * Json) : bool :=
  negb (str_eqb (fst kv) "_id" || is_object_id (snd kv)).

Definition is_dict (v : Json) : bool :=
  match v with
  | JDict _ => true
  | _ => false
  end.

(** A document in which no dictionary that cleaning visits (the
    document, the dictionaries that are values of its fields, the
    dictionaries that are items of its list values, and so on) has an
    [_id] key or an [ObjectId] value. *)
Fixpoint id_free (doc : Json) : bool :=
  match doc with
  | JDict fields =>
      (fix fields_free (l : list (string * Json)) : bool :=
         match l with
         | [] => true
         | (key, value) :: rest =>
             negb (str_eqb key "_id") && negb (is_object_id value)
             && match value with
                | JDict _ => id_free value
                | JList items =>
                    (fix items_free (l' : list Json) : bool :=
                       match l' with
                       | [] => true
                       | item :: rest' =>
                           match item with
                           | JDict _ => id_free item
                           | _ => true
                           end && items_free rest'
                       end) items
                | _ => true
                end
             && fields_free rest
         end) fields
  | _ => true
  end.

(** Induction on documents, with the hypothesis for every value of a
    dictionary and every item of a list. *)
Fixpoint Json_nested_ind (P : Json -> Prop)
    (HNone : P JNone)
    (HOid : forall oid, P (JObjectId oid))
    (HScalar : forall text, P (JScalar text))
    (HDict : forall fields,
        Forall (fun kv => P (snd kv)) fields -> P (JDict fields))
    (HList : forall items, Forall P items -> P (JList items))
    (doc : Json) : P doc :=
  match doc with
  | JNone => HNone
  | JObjectId oid => HOid oid
  | JScalar text => HScalar text
  | JDict fields =>
      HDict fields
        ((fix go (l : list (string * Json))
            : Forall (fun kv => P (snd kv)) l :=
            match l with
            | [] => Forall_nil _
            | kv :: rest =>
                Forall_cons kv
                  (Json_nested_ind P HNone HOid HScalar HDict HList (snd kv))
                  (go rest)
            end) fields)
  | JList items =>
      HList items
        ((fix go (l : list Json) : Forall P l :=
            match l with
            | [] => Forall_nil _
            | item :: rest =>
                Forall_cons item
                  (Json_nested_ind P HNone HOid HScalar HDict HList item)
                  (go rest)
            end) items)
  end.

(** What cleaning does to the value of a kept field. *)
Definition clean_value (value : Json) : Json :=
  match value with
  | JDict _ => clean_mongo_doc value
  | JList items =>
      JList (map (fun item => if is_dict item then clean_mongo_doc item
                              else item) items)
  | _ => value
  end.

Definition value_free (value : Json) : bool :=
  match value with
  | JDict _ => id_free value
  | JList items =>
      forallb (fun item => if is_dict item then id_free item else true) items
  | _ => true
  end.

(** Two registered hunters. *)
Definition db_two : DB :=
  mkDB [hunter; new_user "u2" "hash2" 0 "beta@example.org" "Beta"] [].

(** User ids and guild ids are unique; every guild has a non-empty id, a
    member list without repetition and a member count equal to its
    length; a user who is on the member list of a guild refers to that
    guild; and a user who refers to a guild is on the member list of a
    stored guild with that id. *)
Definition guilds_consistent (w : World) : Prop :=
  NoDup (map id (users (w_db w)))
  /\ NoDup (map g_id (w_guilds w))
  /\ (forall g, In g (w_guilds w) ->
        truthy (Some (g_id g)) = true
        /\ NoDup (g_members g)
        /\ g_member_count g = Z.of_nat (List.length (g_members g)))
  /\ (forall g u, In g (w_guilds w) -> In u (users (w_db w)) ->
        In (id u) (g_members g) -> guild_id u = Some (g_id g))
  /\ (forall u, In u (users (w_db w)) -> truthy (guild_id u) = true ->
        exists g, In g (w_guilds w)
                  /\ guild_id u = Some (g_id g)
                  /\ In (id u) (g_members g)).

(** * Properties *)

(** ** The experience threshold and the level-up loop *)

Lemma pow10_le_pow18 (k : Z) : 0 <= k -> 0 < 10 ^ k <= 18 ^ k.
Proof.
  intros Hk. split.
  - apply Z.pow_pos_nonneg; lia.
  - apply Z.pow_le_mono_l; lia.
Qed.

Lemma exp_needed_div (level : Z) :
  1 <= level ->
  calculate_exp_needed level = (150 * 18 ^ (level - 1)) / 10 ^ (level - 1).
Proof.
  intros H. unfold calculate_exp_needed.
  destruct (Z.leb_spec 1 level); [|lia].
  destruct (pow10_le_pow18 (level - 1)) as [Hp Hq]; [lia|].
  apply Z.quot_div_nonneg; lia.
Qed.

Lemma exp_needed_nonneg (level : Z) : 0 <= calculate_exp_needed level.
Proof.
  unfold calculate_exp_needed.
  destruct (Z.leb_spec 1 level).
  - destruct (pow10_le_pow18 (level - 1)) as [Hp Hq]; [lia|].
    apply Z.quot_pos; lia.
  - assert (0 < 10 ^ (1 - level)) by (apply Z.pow_pos_nonneg; lia).
    assert (0 < 18 ^ (1 - level)) by (apply Z.pow_pos_nonneg; lia).
    apply Z.quot_pos; lia.
Qed.

Lemma exp_needed_ge_150 (level : Z) :
  1 <= level -> 150 <= calculate_exp_needed level.
Proof.
  intros H. rewrite exp_needed_div by assumption.
  destruct (pow10_le_pow18 (level - 1)) as [Hp Hq]; [lia|].
  apply Z.div_le_lower_bound; lia.
Qed.





Lemma level_up_steps_exit (fuel : nat) :
  forall e l p e' l' p',
    (Z.to_nat e + Z.to_nat (1 - l) < fuel)%nat ->
    level_up_steps fuel e l p = (e', l', p') ->
    e' < calculate_exp_needed l'.
Proof.
  induction fuel as [|fuel IH]; intros e l p e' l' p' Hm Hrun; [lia|].
  cbn [level_up_steps] in Hrun.
  destruct (Z.leb_spec (calculate_exp_needed l) e) as [Hle|Hgt].
  - apply IH in Hrun; [assumption|].
    pose proof (exp_needed_nonneg l) as Hn.
    destruct (Z.le_gt_cases 1 l) as [Hl|Hl].
    + pose proof (exp_needed_ge_150 l Hl). lia.
    + lia.
  - injection Hrun as <- <- <-. assumption.
Qed.

(** ** The store *)

Lemma some_inj {A : Type} (x y : A) : Some x = Some y -> x = y.
Proof. intros H. injection H as H. exact H. Qed.

Lemma str_eqb_eq (a b : string) : str_eqb a b = true <-> a = b.
Proof. apply String.eqb_eq. Qed.

Lemma str_eqb_refl (a : string) : str_eqb a a = true.
Proof. apply String.eqb_refl. Qed.

Lemma mem_In (x : string) (l : list string) : mem x l = true <-> In x l.
Proof.
  unfold mem. rewrite existsb_exists. split.
  - intros [y [Hy He]]. apply str_eqb_eq in He. subst. assumption.
  - intros H. exists x. split; [assumption | apply str_eqb_refl].
Qed.


Lemma mem_add_to_set (x : string) (l : list string) :
  mem x (add_to_set x l) = true.
Proof.
  unfold add_to_set. destruct (mem x l) eqn:E; [assumption|].
  apply mem_In, in_or_app. right. left. reflexivity.
Qed.

Lemma apply_op_id (op : UpdateOp) (u : User) : id (apply_op op u) = id u.
Proof. destruct op; reflexivity. Qed.

Lemma apply_ops_id (ops : list UpdateOp) (u : User) :
  id (apply_ops ops u) = id u.
Proof.
  unfold apply_ops. revert u.
  induction ops as [|op ops IH]; intros u; [reflexivity|].
  cbn [fold_left]. rewrite IH. apply apply_op_id.
Qed.

Lemma apply_ops_app (ops1 ops2 : list UpdateOp) (u : User) :
  apply_ops (ops1 ++ ops2) u = apply_ops ops2 (apply_ops ops1 u).
Proof. unfold apply_ops. apply fold_left_app. Qed.

Lemma find_update_first {A : Type} (p : A -> bool) (f : A -> A) (l : list A) :
  (forall x, p (f x) = p x) ->
  find p (update_first p f l) = option_map f (find p l).
Proof.
  intros Hp. induction l as [|x rest IH]; [reflexivity|].
  cbn [update_first find]. destruct (p x) eqn:E.
  - cbn [find]. rewrite Hp, E. reflexivity.
  - cbn [find]. rewrite E. exact IH.
Qed.

Lemma update_first_twice {A : Type} (p : A -> bool) (f g : A -> A)
    (l : list A) :
  (forall x, p (f x) = p x) ->
  update_first p g (update_first p f l) = update_first p (fun x => g (f x)) l.
Proof.
  intros Hp. induction l as [|x rest IH]; [reflexivity|].
  cbn [update_first]. destruct (p x) eqn:E.
  - cbn [update_first]. rewrite Hp, E. reflexivity.
  - cbn [update_first]. rewrite E, IH. reflexivity.
Qed.

Lemma update_first_ext {A : Type} (p : A -> bool) (f g : A -> A)
    (l : list A) :
  (forall x, f x = g x) -> update_first p f l = update_first p g l.
Proof.
  intros H. induction l as [|x rest IH]; [reflexivity|].
  cbn [update_first]. rewrite H, IH. reflexivity.
Qed.

Lemma update_first_same {A : Type} (p : A -> bool) (l : list A) :
  update_first p (fun x => x) l = l.
Proof.
  induction l as [|x rest IH]; [reflexivity|].
  cbn [update_first]. rewrite IH. destruct (p x); reflexivity.
Qed.

Lemma has_id_apply_ops (uid : string) (ops : list UpdateOp) (u : User) :
  has_id uid (apply_ops ops u) = has_id uid u.
Proof. unfold has_id. rewrite apply_ops_id. reflexivity. Qed.

Lemma find_one_update_one (uid : string) (ops : list UpdateOp) (db : DB) :
  users_find_one uid (users_update_one uid ops db)
  = option_map (apply_ops ops) (users_find_one uid db).
Proof.
  unfold users_find_one, users_update_one. cbn [users].
  apply find_update_first. intros x. apply has_id_apply_ops.
Qed.

Lemma update_one_twice (uid : string) (ops1 ops2 : list UpdateOp) (db : DB) :
  users_update_one uid ops2 (users_update_one uid ops1 db)
  = users_update_one uid (ops1 ++ ops2) db.
Proof.
  unfold users_update_one. cbn [users daily_quests]. f_equal.
  rewrite update_first_twice by (intros x; apply has_id_apply_ops).
  apply update_first_ext. intros x. symmetry. apply apply_ops_app.
Qed.

Lemma update_one_nil (uid : string) (db : DB) :
  users_update_one uid [] db = db.
Proof.
  unfold users_update_one. destruct db as [us dq]. cbn [users daily_quests].
  f_equal. apply update_first_same.
Qed.

Lemma daily_quests_update_one (uid : string) (ops : list UpdateOp) (db : DB) :
  daily_quests (users_update_one uid ops db) = daily_quests db.
Proof. reflexivity. Qed.

Lemma find_one_id (uid : string) (db : DB) (u : User) :
  users_find_one uid db = Some u -> id u = uid.
Proof.
  unfold users_find_one. intros H. apply find_some in H.
  destruct H as [_ H]. apply str_eqb_eq in H. exact H.
Qed.

(** ** The achievement checks only touch [achievements] and [gold] *)

Lemma ach_only_ret (uid : string) {A : Type} (a : A) : ach_only uid (ret a).
Proof.
  intros db. exists []. split; [constructor|].
  cbn. symmetry. apply update_one_nil.
Qed.

Lemma ach_only_bind (uid : string) {A B : Type} (m : M A) (k : A -> M B) :
  ach_only uid m -> (forall a, ach_only uid (k a)) -> ach_only uid (bind m k).
Proof.
  intros Hm Hk db. unfold bind.
  destruct (Hm db) as [ops1 [F1 E1]].
  destruct (m db) as [a db1]. cbn [snd] in E1.
  destruct (Hk a db1) as [ops2 [F2 E2]].
  exists (ops1 ++ ops2). split.
  - apply Forall_app. split; assumption.
  - rewrite E2, E1. apply update_one_twice.
Qed.

Lemma ach_only_unlock (uid aid : string) :
  ach_only uid (unlock_achievement uid aid).
Proof.
  intros db. unfold unlock_achievement.
  destruct (find _ ACHIEVEMENTS) as [a|].
  - eexists. split; [|reflexivity]. repeat constructor.
  - exists []. split; [constructor|]. cbn. symmetry. apply update_one_nil.
Qed.

Lemma ach_only_unlock_when (c : bool) (uid aid : string)
    (acc : list Achievement) :
  ach_only uid (unlock_when c uid aid acc).
Proof.
  unfold unlock_when. destruct c.
  - apply ach_only_bind; [apply ach_only_unlock|].
    intros a. apply ach_only_ret.
  - apply ach_only_ret.
Qed.

Lemma ach_only_thresholds (value : Z) (table : list (Z * string)) (user : User) :
  forall acc, ach_only (id user) (unlock_thresholds value table user acc).
Proof.
  induction table as [|[t a] rest IH]; intros acc; cbn [unlock_thresholds].
  - apply ach_only_ret.
  - apply ach_only_bind; [apply ach_only_unlock_when|]. exact IH.
Qed.

Ltac ach_only_step :=
  first
    [ apply ach_only_ret
    | apply ach_only_unlock_when
    | apply ach_only_thresholds
    | apply ach_only_bind; [|intros ?] ].

Ltac ach_only_cases :=
  repeat first
    [ ach_only_step
    | match goal with
      | |- ach_only _ (if ?c then _ else _) => destruct c
      | |- ach_only _ (match ?o with Some _ => _ | None => _ end) => destruct o
      | |- ach_only _ (let (_, _) := ?x in _) => destruct x
      end ].

Lemma ach_only_quest_checks (user : User) (n : Z) (acc : list Achievement) :
  ach_only (id user) (quest_checks user n acc).
Proof. unfold quest_checks. ach_only_cases. Qed.

Lemma ach_only_dungeon_checks (q : string) (user : User)
    (acc : list Achievement) :
  ach_only (id user) (dungeon_checks q user acc).
Proof. unfold dungeon_checks. ach_only_cases. Qed.

Lemma ach_only_boss_checks (q : string) (user : User) (acc : list Achievement) :
  ach_only (id user) (boss_checks q user acc).
Proof. unfold boss_checks. ach_only_cases. Qed.

Lemma ach_only_shadow_checks (s : option string) (user : User)
    (acc : list Achievement) :
  ach_only (id user) (shadow_checks s user acc).
Proof. unfold shadow_checks. ach_only_cases. Qed.

Lemma ach_only_check_achievements (q : string) (user : User) (is_daily : bool)
    (new_level new_total_reps n : Z) (s : option string) :
  ach_only (id user)
    (check_achievements q user is_daily new_level new_total_reps n s).
Proof.
  unfold check_achievements.
  repeat first
    [ apply ach_only_quest_checks | apply ach_only_dungeon_checks
    | apply ach_only_boss_checks | apply ach_only_shadow_checks
    | ach_only_step
    | match goal with
      | |- ach_only _ (if ?c then _ else _) => destruct c
      end ].
Qed.

(** ** Quest completion, stage by stage *)

(** Reduction of projections of an updated user document. *)
Ltac doc_simpl :=
  cbn [apply_ops fold_left apply_op option_map app
       with_level with_experience with_rank with_gold with_title with_stats
       with_stat_points with_achievements with_quests_completed
       with_punishment_quests with_shadows with_streak with_best_streak
       with_last_quest_date with_total_reps with_dungeons_completed
       with_bosses_defeated with_special_missions_completed
       with_streak_shields with_training_start_time
       id email password hunter_name level experience rank gold title stats
       stat_points guild_id achievements quests_completed inventory
       active_quests punishment_quests shadows streak best_streak
       last_quest_date total_reps dungeons_completed bosses_defeated
       special_missions_completed streak_shields training_start_time
       created_at].

Lemma ach_op_keeps (op : UpdateOp) (u : User) :
  is_ach_op op -> without_rewards (apply_op op u) = without_rewards u.
Proof. destruct op; cbn [is_ach_op]; intros H; try contradiction; reflexivity. Qed.

Lemma ach_ops_keep (ops : list UpdateOp) :
  Forall is_ach_op ops ->
  forall u, without_rewards (apply_ops ops u) = without_rewards u.
Proof.
  unfold apply_ops. induction 1 as [|op ops Hop _ IH]; intros u; [reflexivity|].
  cbn [fold_left]. rewrite IH. apply ach_op_keeps. exact Hop.
Qed.

(** What a successful completion did, stage by stage. *)
Lemma complete_quest_stages (today : Z) (q uid : string) (db db' : DB)
    (r : CompleteResponse) :
  complete_quest today q uid db = Ok r db' ->
  exists user d db1 aops,
    users_find_one uid db = Some user
    /\ dispatch today q user (daily_find_by_id q uid db) db = Ok d db1
    /\ level_up_loop (experience user + d_exp_reward d) (level user) 0
       = (cr_new_exp r, cr_new_level r, cr_stat_points_gained r)
    /\ cr_new_rank r = calculate_rank (cr_new_level r)
    /\ cr_exp_to_next r = calculate_exp_needed (cr_new_level r)
    /\ Forall is_ach_op aops
    /\ db' = users_update_one uid
               ([Set_experience (cr_new_exp r); Set_level (cr_new_level r);
                 Set_rank (cr_new_rank r); Inc_gold (d_gold_reward d);
                 Inc_stat_points (cr_stat_points_gained r);
                 Inc_quests_completed 1;
                 Inc_total_reps (d_total_reps_gained d)] ++ aops) db1.
Proof.
  unfold complete_quest, get_current_user. intros H.
  destruct (users_find_one uid db) as [user|] eqn:Hu; [|discriminate].
  pose proof (find_one_id _ _ _ Hu) as Hid. rewrite Hid in H.
  destruct (dispatch today q user (daily_find_by_id q uid db) db)
    as [d db1|code detail] eqn:Hd; [|discriminate].
  destruct (level_up_loop (experience user + d_exp_reward d) (level user) 0)
    as [[e l] p] eqn:Hl.
  match type of H with
  | context [check_achievements ?a ?b ?c ?d ?e ?f ?g ?h] =>
      destruct (ach_only_check_achievements a b c d e f g h) as [aops [Fa Ea]];
      destruct (check_achievements a b c d e f g h) as [achs db3]
  end.
  cbn [snd] in Ea. rewrite Hid in Ea. injection H as <- <-.
  exists user, d, db1, aops. cbn.
  repeat split; try assumption; try reflexivity.
  rewrite Ea. apply update_one_twice.
Qed.

Ltac break_hyp H :=
  repeat match type of H with
         | context [match ?x with _ => _ end] => destruct x eqn:?
         | context [if ?x then _ else _] => destruct x eqn:?
         end.

(** [dispatch] only ever adds to the shadow set the reward shadow of the
    boss or mission it found, and only when the snapshot does not own it. *)
Lemma dispatch_shadows (today : Z) (q : string) (user : User)
    (daily : option DailyQuest) (db db1 : DB) (d : Dispatched) :
  users_find_one (id user) db = Some user ->
  dispatch today q user daily db = Ok d db1 ->
  exists u1,
    users_find_one (id user) db1 = Some u1
    /\ shadows u1 = match d_shadow_earned d with
                    | Some s => shadows user ++ [s]
                    | None => shadows user
                    end
    /\ forall s, d_shadow_earned d = Some s ->
         daily = None
         /\ mem s (shadows user) = false
         /\ ((exists b, find (fun b => str_eqb (bs_id b) q) WEEKLY_BOSSES = Some b
                        /\ bs_shadow b = Some s)
             \/ (exists m, find (fun m => str_eqb (ms_id m) q) SPECIAL_MISSIONS
                           = Some m
                        /\ ms_shadow m = Some s)).
Proof.
  intros Hu H. unfold dispatch in H. break_hyp H; try discriminate;
    injection H as <- <-;
    match goal with
    | |- context [users_update_one _ ?ops ?db0] =>
        exists (apply_ops ops user);
        rewrite find_one_update_one;
        change (users_find_one (id user) db0) with (users_find_one (id user) db);
        rewrite Hu
    end;
    (split; [reflexivity|]); cbn [d_shadow_earned];
    (split; [|intros s' Hs'; try discriminate]).
  all: try reflexivity.
  all: try match goal with
       | Hc : (_ && negb (mem ?s _))%bool = true |- _ =>
           apply andb_prop in Hc; destruct Hc as [_ Hc];
           apply negb_true_iff in Hc
       end.
  all: try (cbn; unfold add_to_set;
            match goal with Hc : mem _ _ = false |- _ => rewrite Hc end;
            reflexivity).
  all: injection Hs' as <-; (split; [reflexivity|]); (split; [assumption|]).
  - left. eexists. split; [reflexivity | assumption].
  - right. eexists. split; [reflexivity | assumption].
Qed.

Lemma ach_ops_field {T : Type} (f : User -> T) (aops : list UpdateOp)
    (u : User) :
  (forall x, f (without_rewards x) = f x) ->
  Forall is_ach_op aops -> f (apply_ops aops u) = f u.
Proof.
  intros Hf Ha. rewrite <- (Hf (apply_ops aops u)), <- (Hf u).
  f_equal. apply ach_ops_keep. exact Ha.
Qed.

(** The user document after a successful completion: the document left by
    [dispatch], then the progression update, then achievement rewards. *)
Lemma complete_quest_user (today : Z) (q uid : string) (db db' : DB)
    (r : CompleteResponse) (user : User) :
  users_find_one uid db = Some user ->
  complete_quest today q uid db = Ok r db' ->
  exists d db1 u1 aops,
    dispatch today q user (daily_find_by_id q uid db) db = Ok d db1
    /\ users_find_one uid db1 = Some u1
    /\ Forall is_ach_op aops
    /\ level_up_loop (experience user + d_exp_reward d) (level user) 0
       = (cr_new_exp r, cr_new_level r, cr_stat_points_gained r)
    /\ users_find_one uid db'
       = Some (apply_ops aops
                 (apply_ops
                    [Set_experience (cr_new_exp r); Set_level (cr_new_level r);
                     Set_rank (calculate_rank (cr_new_level r));
                     Inc_gold (d_gold_reward d);
                     Inc_stat_points (cr_stat_points_gained r);
                     Inc_quests_completed 1;
                     Inc_total_reps (d_total_reps_gained d)] u1)).
Proof.
  intros Hu H.
  destruct (complete_quest_stages _ _ _ _ _ _ H)
    as (user0 & d & db1 & aops & Hu0 & Hd & Hl & Hr & _ & Ha & ->).
  rewrite Hu in Hu0. injection Hu0 as <-.
  pose proof (find_one_id _ _ _ Hu) as Hid.
  assert (Hu' : users_find_one (id user) db = Some user) by (rewrite Hid; exact Hu).
  destruct (dispatch_shadows _ _ _ _ _ _ _ Hu' Hd) as (u1 & Hu1 & _).
  rewrite Hid in Hu1.
  exists d, db1, u1, aops.
  repeat split; try assumption.
  rewrite find_one_update_one, Hu1. cbn [option_map].
  rewrite apply_ops_app, Hr. reflexivity.
Qed.

Lemma complete_quest_shadows (today : Z) (q uid : string) (db db' : DB)
    (r : CompleteResponse) (user : User) :
  users_find_one uid db = Some user ->
  complete_quest today q uid db = Ok r db' ->
  exists user',
    users_find_one uid db' = Some user'
    /\ (shadows user' = shadows user
        \/ exists s,
             shadows user' = shadows user ++ [s]
             /\ daily_find_by_id q uid db = None
             /\ mem s (shadows user) = false
             /\ ((exists b, find (fun b => str_eqb (bs_id b) q) WEEKLY_BOSSES
                            = Some b /\ bs_shadow b = Some s)
                 \/ (exists m, find (fun m => str_eqb (ms_id m) q)
                                 SPECIAL_MISSIONS = Some m
                               /\ ms_shadow m = Some s))).
Proof.
  intros Hu H.
  destruct (complete_quest_user _ _ _ _ _ _ _ Hu H)
    as (d & db1 & u1 & aops & Hd & Hu1 & Ha & _ & Hfin).
  pose proof (find_one_id _ _ _ Hu) as Hid.
  assert (Hu' : users_find_one (id user) db = Some user) by (rewrite Hid; exact Hu).
  destruct (dispatch_shadows _ _ _ _ _ _ _ Hu' Hd) as (u1' & Hu1' & Hsh & Hearn).
  rewrite Hid, Hu1 in Hu1'. injection Hu1' as <-.
  eexists. split; [exact Hfin|].
  rewrite (ach_ops_field shadows) by (reflexivity || assumption).
  change (shadows (apply_ops _ u1)) with (shadows u1).
  rewrite Hsh. destruct (d_shadow_earned d) as [s|].
  - right. exists s. destruct (Hearn s eq_refl) as (Hn & Hm & Hc).
    repeat split; assumption.
  - left. reflexivity.
Qed.

(** ** What the achievement checks pay *)

Section Tracked.

Variable uid : string.
Variable P : string -> Prop.

Lemma tracked_ret (acc : list Achievement) : tracked uid P acc (ret acc).
Proof.
  intros db. exists []. cbn. rewrite app_nil_r, update_one_nil.
  repeat split. constructor.
Qed.

Lemma tracked_bind (acc : list Achievement) (m : M (list Achievement))
    (k : list Achievement -> M (list Achievement)) :
  tracked uid P acc m ->
  (forall acc', tracked uid P acc' (k acc')) ->
  tracked uid P acc (bind m k).
Proof.
  intros Hm Hk db. unfold bind.
  destruct (Hm db) as (n1 & E1 & D1 & F1).
  destruct (m db) as [a1 db1]. cbn [fst snd] in E1, D1. subst a1 db1.
  destruct (Hk (acc ++ n1) (users_update_one uid (reward_ops n1) db))
    as (n2 & E2 & D2 & F2).
  exists (n1 ++ n2). rewrite E2, D2. split; [apply eq_sym, app_assoc|].
  split.
  - unfold reward_ops. rewrite flat_map_app. apply update_one_twice.
  - apply Forall_app. split; assumption.
Qed.

Lemma tracked_unlock_when (c : bool) (aid : string) (acc : list Achievement) :
  (c = true -> P aid) -> tracked uid P acc (unlock_when c uid aid acc).
Proof.
  intros Hc db. unfold unlock_when. destruct c; [|apply tracked_ret].
  unfold bind, unlock_achievement, ret.
  destruct (find _ ACHIEVEMENTS) as [a|] eqn:E.
  - apply find_some in E. destruct E as [_ E]. apply str_eqb_eq in E.
    subst aid. exists [a]. cbn. repeat split.
    constructor; [apply Hc; reflexivity|constructor].
  - exists []. cbn. rewrite app_nil_r, update_one_nil.
    repeat split. constructor.
Qed.

End Tracked.

Lemma tracked_thresholds (P : string -> Prop) (value : Z)
    (table : list (Z * string)) (user : User) :
  (forall t a, In (t, a) table -> t <= value ->
               mem a (achievements user) = false -> P a) ->
  forall acc, tracked (id user) P acc (unlock_thresholds value table user acc).
Proof.
  induction table as [|[t a] rest IH]; intros Hp acc; cbn [unlock_thresholds].
  - apply tracked_ret.
  - apply tracked_bind.
    + apply tracked_unlock_when. intros Hc. apply andb_prop in Hc.
      destruct Hc as [Ht Hm]. apply (Hp t a); [left; reflexivity| |].
      * apply Z.leb_le. exact Ht.
      * apply negb_true_iff. exact Hm.
    + apply IH. intros t' a' Hin. apply Hp. right. exact Hin.
Qed.

Lemma dict_get_In {V : Type} (key : string) (d : list (string * V)) (v : V) :
  dict_get key d = Some v -> In (key, v) d.
Proof.
  unfold dict_get. intros H.
  destruct (find _ d) as [[k v']|] eqn:E; [|discriminate].
  injection H as <-. apply find_some in E. destruct E as [Hin Hk].
  apply str_eqb_eq in Hk. cbn in Hk. subst k. exact Hin.
Qed.

Ltac guard_owned :=
  let Hc := fresh "Hc" in
  intros Hc;
  first
    [ left; apply andb_prop in Hc; destruct Hc as [_ Hc];
      apply negb_true_iff in Hc; exact Hc
    | left; apply negb_true_iff in Hc; exact Hc
    | right; auto ].

Ltac not_in_streak_table :=
  let m := fresh "m" in
  let Hin := fresh "Hin" in
  intros m Hin; unfold streak_achievements in Hin; cbn [In] in Hin;
  repeat (destruct Hin as [Hin|Hin]; [discriminate Hin|]);
  contradiction.

Lemma dungeon_ids_not_streak (r : string) (c : Z) (a : string) (user : User) :
  dict_get r dungeon_achievements = Some (c, a) -> streak_reached user a.
Proof.
  intros H. apply dict_get_In in H. unfold dungeon_achievements in H.
  cbn [In] in H.
  repeat (destruct H as [H|H];
          [inversion H; subst; not_in_streak_table|]).
  contradiction.
Qed.

Lemma boss_ids_not_streak (q a : string) (user : User) :
  dict_get q boss_specific = Some a -> streak_reached user a.
Proof.
  intros H. apply dict_get_In in H. unfold boss_specific in H.
  cbn [In] in H.
  repeat (destruct H as [H|H];
          [inversion H; subst; not_in_streak_table|]).
  contradiction.
Qed.

Ltac guard_streak :=
  intros _;
  first [ eapply dungeon_ids_not_streak; eassumption
        | eapply boss_ids_not_streak; eassumption
        | not_in_streak_table ].

Ltac tracked_cases side :=
  repeat first
    [ apply tracked_ret
    | apply tracked_unlock_when; side
    | apply tracked_bind; [|intros ?]
    | match goal with
      | |- tracked _ _ _ (if ?c then _ else _) => destruct c
      | |- tracked _ _ _ (match ?o with Some _ => _ | None => _ end) =>
          destruct o eqn:?
      | |- tracked _ _ _ (let (_, _) := ?x in _) => destruct x
      end ].

Lemma tracked_checks (P : string -> Prop) (q : string) (user : User)
    (is_daily : bool) (new_level new_total_reps n : Z) (s : option string) :
  (forall acc, tracked (id user) P acc (quest_checks user n acc)) ->
  (forall acc, tracked (id user) P acc
                 (unlock_thresholds new_level level_achievements user acc)) ->
  (forall acc, is_daily = true ->
               tracked (id user) P acc
                 (unlock_thresholds (streak user) streak_achievements user acc)) ->
  (forall acc, tracked (id user) P acc
                 (unlock_thresholds new_total_reps reps_achievements user acc)) ->
  (forall acc, tracked (id user) P acc (dungeon_checks q user acc)) ->
  (forall acc, tracked (id user) P acc (boss_checks q user acc)) ->
  (forall acc, tracked (id user) P acc (shadow_checks s user acc)) ->
  tracked (id user) P []
    (check_achievements q user is_daily new_level new_total_reps n s).
Proof.
  intros H1 H2 H3 H4 H5 H6 H7. unfold check_achievements.
  apply tracked_bind; [apply H1|intros a1].
  apply tracked_bind; [apply H2|intros a2].
  apply tracked_bind.
  { destruct is_daily; [apply H3; reflexivity|apply tracked_ret]. }
  intros a3.
  apply tracked_bind; [apply H4|intros a4].
  apply tracked_bind; [apply H5|intros a5].
  apply tracked_bind; [apply H6|intros a6].
  apply H7.
Qed.

Lemma checks_pay_unowned (q : string) (user : User) (is_daily : bool)
    (new_level new_total_reps n : Z) (s : option string) :
  tracked (id user) (not_yet_owned user) []
    (check_achievements q user is_daily new_level new_total_reps n s).
Proof.
  apply tracked_checks; intros acc; try intros _;
    try (apply tracked_thresholds; intros t a _ _ Hm; left; exact Hm).
  - unfold quest_checks. tracked_cases guard_owned.
  - unfold dungeon_checks. tracked_cases guard_owned.
  - unfold boss_checks. tracked_cases guard_owned.
  - unfold shadow_checks. tracked_cases guard_owned.
Qed.

Lemma streak_table_functional (t m : Z) (a : string) :
  In (t, a) streak_achievements -> In (m, a) streak_achievements -> m = t.
Proof.
  unfold streak_achievements. cbn [In]. intros H1 H2.
  repeat (destruct H1 as [H1|H1]; [injection H1 as <- <-|]);
    try contradiction;
    repeat (destruct H2 as [H2|H2];
            [first [discriminate H2 | injection H2 as <-; reflexivity]|]);
    contradiction.
Qed.

Lemma checks_pay_reached_streak (q : string) (user : User) (is_daily : bool)
    (new_level new_total_reps n : Z) (s : option string) :
  tracked (id user) (streak_reached user) []
    (check_achievements q user is_daily new_level new_total_reps n s).
Proof.
  apply tracked_checks; intros acc; try intros _.
  - unfold quest_checks. tracked_cases guard_streak.
  - apply tracked_thresholds. unfold level_achievements. cbn [In].
    intros t a Hin _ _.
    repeat (destruct Hin as [Hin|Hin];
            [injection Hin as <- <-; not_in_streak_table|]).
    contradiction.
  - apply tracked_thresholds. intros t a Hin Ht _ m Hm.
    rewrite (streak_table_functional _ _ _ Hin Hm). exact Ht.
  - apply tracked_thresholds. unfold reps_achievements. cbn [In].
    intros t a Hin _ _.
    repeat (destruct Hin as [Hin|Hin];
            [injection Hin as <- <-; not_in_streak_table|]).
    contradiction.
  - unfold dungeon_checks. tracked_cases guard_streak.
  - unfold boss_checks. tracked_cases guard_streak.
  - unfold shadow_checks. tracked_cases guard_streak.
Qed.

(** A completion pays exactly the achievements it reports, and reports
    only ids that pass both readings above. *)
Lemma complete_quest_rewards (today : Z) (q uid : string) (db db' : DB)
    (r : CompleteResponse) (user : User) :
  users_find_one uid db = Some user ->
  complete_quest today q uid db = Ok r db' ->
  exists d db1 u1,
    dispatch today q user (daily_find_by_id q uid db) db = Ok d db1
    /\ users_find_one uid db1 = Some u1
    /\ users_find_one uid db'
       = Some (apply_ops (reward_ops (cr_achievements_unlocked r))
                 (apply_ops
                    [Set_experience (cr_new_exp r); Set_level (cr_new_level r);
                     Set_rank (cr_new_rank r); Inc_gold (d_gold_reward d);
                     Inc_stat_points (cr_stat_points_gained r);
                     Inc_quests_completed 1;
                     Inc_total_reps (d_total_reps_gained d)] u1))
    /\ Forall (fun a => not_yet_owned user (ach_id a))
              (cr_achievements_unlocked r)
    /\ Forall (fun a => streak_reached user (ach_id a))
              (cr_achievements_unlocked r).
Proof.
  intros Hu H. pose proof (find_one_id _ _ _ Hu) as Hid.
  unfold complete_quest, get_current_user in H. rewrite Hu, Hid in H.
  destruct (dispatch today q user (daily_find_by_id q uid db) db)
    as [d db1|code detail] eqn:Hd; [|discriminate].
  assert (Hu' : users_find_one (id user) db = Some user)
    by (rewrite Hid; exact Hu).
  rewrite <- Hid in Hd at 1.
  assert (Hd' := Hd). rewrite Hid in Hd' at 1.
  destruct (dispatch_shadows _ _ _ _ _ _ _ Hu' Hd) as (u1 & Hu1 & _).
  rewrite Hid in Hu1.
  destruct (level_up_loop (experience user + d_exp_reward d) (level user) 0)
    as [[e l] p].
  match type of H with
  | context [check_achievements ?a ?b ?c ?d ?e ?f ?g ?h] =>
      destruct (checks_pay_unowned a b c d e f g h) as (n1 & E1 & D1 & F1);
      destruct (checks_pay_reached_streak a b c d e f g h)
        as (n2 & E2 & _ & F2);
      destruct (check_achievements a b c d e f g h) as [achs db3]
  end.
  cbn [fst snd app] in E1, E2, D1. subst n1 n2 db3. rewrite Hid in H.
  injection H as <- <-.
  cbn [cr_achievements_unlocked cr_new_exp cr_new_level cr_new_rank
       cr_stat_points_gained].
  exists d, db1, u1. repeat split; try assumption.
  rewrite !find_one_update_one, Hu1. reflexivity.
Qed.

(** ** What a completion adds up to *)

Lemma ops_field {T : Type} (f : User -> T) (Q : UpdateOp -> Prop)
    (ops : list UpdateOp) :
  (forall op x, Q op -> f (apply_op op x) = f x) ->
  Forall Q ops -> forall u, f (apply_ops ops u) = f u.
Proof.
  intros Hf. unfold apply_ops.
  induction 1 as [|op ops Hop _ IH]; intros u; [reflexivity|].
  cbn [fold_left]. rewrite IH. apply Hf. exact Hop.
Qed.

Ltac dispatch_field :=
  apply (ops_field _ is_dispatch_op);
  [ let op := fresh "op" in
    let x := fresh "x" in
    let H := fresh "H" in
    intros op x H; destruct op; cbn [is_dispatch_op] in H;
    try contradiction; reflexivity
  | assumption ].

Lemma dispatch_ops (today : Z) (q : string) (user : User)
    (daily : option DailyQuest) (db db1 : DB) (d : Dispatched) :
  users_find_one (id user) db = Some user ->
  dispatch today q user daily db = Ok d db1 ->
  exists dops,
    Forall is_dispatch_op dops
    /\ users_find_one (id user) db1 = Some (apply_ops dops user).
Proof.
  intros Hu H. unfold dispatch in H. break_hyp H; try discriminate;
    injection H as _ <-;
    match goal with
    | |- context [users_update_one _ ?ops ?db0] =>
        exists ops;
        rewrite find_one_update_one;
        change (users_find_one (id user) db0) with (users_find_one (id user) db);
        rewrite Hu
    end;
    (split; [repeat constructor | reflexivity]).
Qed.

Lemma reward_ops_gold (unlocked : list Achievement) :
  forall u, gold (apply_ops (reward_ops unlocked) u)
            = gold u + total_reward unlocked.
Proof.
  induction unlocked as [|a rest IH]; intros u.
  - cbn [reward_ops flat_map total_reward fold_right]. doc_simpl.
    symmetry. apply Z.add_0_r.
  - change (reward_ops (a :: rest))
      with ([AddToSet_achievements (ach_id a); Inc_gold (reward_gold a)]
            ++ reward_ops rest).
    rewrite apply_ops_app, IH. cbn [total_reward fold_right]. doc_simpl.
    symmetry. apply Z.add_assoc.
Qed.

(** The counters after a successful completion. *)
Lemma complete_quest_totals (today : Z) (q uid : string) (db db' : DB)
    (r : CompleteResponse) (user : User) :
  users_find_one uid db = Some user ->
  complete_quest today q uid db = Ok r db' ->
  exists user',
    users_find_one uid db' = Some user'
    /\ gold user'
       = gold user + cr_gold_gained r
         + total_reward (cr_achievements_unlocked r)
    /\ stat_points user' = stat_points user + cr_stat_points_gained r
    /\ quests_completed user' = quests_completed user + 1
    /\ total_reps user' = total_reps user + cr_reps_gained r.
Proof.
  intros Hu H.
  destruct (complete_quest_rewards _ _ _ _ _ _ _ Hu H)
    as (d & db1 & u1 & Hd & Hu1 & Hfin & _ & _).
  pose proof (find_one_id _ _ _ Hu) as Hid.
  assert (Hu' : users_find_one (id user) db = Some user)
    by (rewrite Hid; exact Hu).
  assert (Hd' := Hd). rewrite <- Hid in Hd' at 1.
  destruct (dispatch_ops _ _ _ _ _ _ _ Hu' Hd') as (dops & Fd & Hu1').
  rewrite Hid, Hu1 in Hu1'. injection Hu1' as ->.
  assert (Hg : cr_gold_gained r = d_gold_reward d
               /\ cr_reps_gained r = d_total_reps_gained d).
  { unfold complete_quest, get_current_user in H. rewrite Hu, Hid, Hd in H.
    destruct (level_up_loop _ _ _) as [[e l] p].
    destruct (check_achievements _ _ _ _ _ _ _ _) as [achs db3].
    injection H as <- _. split; reflexivity. }
  destruct Hg as [Hg Hr].
  eexists. split; [exact Hfin|].
  rewrite reward_ops_gold.
  rewrite (ops_field stat_points is_ach_op),
    (ops_field quests_completed is_ach_op),
    (ops_field total_reps is_ach_op).
  2-7: try (intros op x Ho; destruct op; cbn [is_ach_op] in Ho;
            try contradiction; reflexivity).
  2-4: (unfold reward_ops; apply Forall_flat_map, Forall_forall;
        intros a _; repeat constructor).
  doc_simpl. rewrite Hg, Hr.
  assert (gold (apply_ops dops user) = gold user) by dispatch_field.
  assert (stat_points (apply_ops dops user) = stat_points user)
    by dispatch_field.
  assert (quests_completed (apply_ops dops user) = quests_completed user)
    by dispatch_field.
  assert (total_reps (apply_ops dops user) = total_reps user)
    by dispatch_field.
  repeat split; lia.
Qed.

(** ** Shadows *)

Lemma boss_lookup (b : Boss) :
  In b WEEKLY_BOSSES ->
  find (fun x => str_eqb (bs_id x) (bs_id b)) WEEKLY_BOSSES = Some b
  /\ find (fun m => str_eqb (ms_id m) (bs_id b)) SPECIAL_MISSIONS = None
  /\ prefix "dungeon_" (bs_id b) = false
  /\ prefix "boss_" (bs_id b) = true.
Proof.
  unfold WEEKLY_BOSSES. cbn [In]. intros H.
  repeat (destruct H as [<-|H]; [repeat split; reflexivity|]).
  contradiction.
Qed.

Lemma mission_lookup (m : Mission) :
  In m SPECIAL_MISSIONS ->
  find (fun x => str_eqb (ms_id x) (ms_id m)) SPECIAL_MISSIONS = Some m
  /\ find (fun b => str_eqb (bs_id b) (ms_id m)) WEEKLY_BOSSES = None.
Proof.
  unfold SPECIAL_MISSIONS. cbn [In]. intros H.
  repeat (destruct H as [<-|H]; [split; reflexivity|]).
  contradiction.
Qed.

Lemma grants_shadow_functional (q s s' : string) :
  grants_shadow q s ->
  (exists b, find (fun b => str_eqb (bs_id b) q) WEEKLY_BOSSES = Some b
             /\ bs_shadow b = Some s')
  \/ (exists m, find (fun m => str_eqb (ms_id m) q) SPECIAL_MISSIONS = Some m
                /\ ms_shadow m = Some s') ->
  s' = s.
Proof.
  intros [(b & Hb & <- & Hs)|(m & Hm & <- & Hs)] [(x & Hx & Hs')|(x & Hx & Hs')].
  - destruct (boss_lookup b Hb) as (E & _). congruence.
  - destruct (boss_lookup b Hb) as (_ & E & _). congruence.
  - destruct (mission_lookup m Hm) as (_ & E). congruence.
  - destruct (mission_lookup m Hm) as (E & _). congruence.
Qed.

Lemma find_update_first_other {A : Type} (p p' : A -> bool) (f : A -> A)
    (l : list A) :
  (forall x, p' (f x) = p' x) ->
  find p' l <> None -> find p' (update_first p f l) <> None.
Proof.
  intros Hp. induction l as [|x rest IH]; [intros H; exact H|].
  cbn [update_first find]. destruct (p x).
  - cbn [find]. rewrite Hp. destruct (p' x); [discriminate|exact (fun H => H)].
  - cbn [find]. destruct (p' x); [discriminate|exact IH].
Qed.

(** A quest id that names a stored daily quest of the user still does so
    after the completion. *)
Lemma complete_quest_keeps_daily (today : Z) (q uid : string) (db db' : DB)
    (r : CompleteResponse) :
  complete_quest today q uid db = Ok r db' ->
  daily_find_by_id q uid db <> None -> daily_find_by_id q uid db' <> None.
Proof.
  intros H Hd.
  destruct (complete_quest_stages _ _ _ _ _ _ H)
    as (user & d & db1 & aops & Hu & Hdis & _ & _ & _ & _ & ->).
  unfold daily_find_by_id in *. cbn [daily_quests users_update_one].
  unfold dispatch in Hdis.
  destruct (find _ (daily_quests db)) as [dq|] eqn:E; [|contradiction].
  destruct (dq_is_completed dq); [discriminate|].
  injection Hdis as _ <-. cbn [daily_quests users_update_one daily_set_completed].
  apply find_update_first_other; [reflexivity|]. rewrite E. discriminate.
Qed.

(** After a boss fight dispatched as such, the boss's shadow is owned. *)
Lemma boss_dispatch_owns (today : Z) (b : Boss) (s : string) (user : User)
    (db db1 : DB) (d : Dispatched) :
  In b WEEKLY_BOSSES -> bs_shadow b = Some s ->
  users_find_one (id user) db = Some user ->
  dispatch today (bs_id b) user None db = Ok d db1 ->
  exists u1, users_find_one (id user) db1 = Some u1
             /\ mem s (shadows u1) = true.
Proof.
  intros Hb Hs Hu H.
  destruct (boss_lookup b Hb) as (Ef & _ & Ed & Eb).
  unfold dispatch in H. rewrite Ed, Eb, Ef, Hs in H.
  break_hyp H; try discriminate; injection H as _ <-;
    rewrite find_one_update_one, Hu; cbn [option_map];
    eexists; (split; [reflexivity|]); cbn.
  - apply mem_add_to_set.
  - match goal with
    | Hc : (truthy _ && negb (mem _ _))%bool = false |- _ =>
        apply andb_false_iff in Hc; destruct Hc as [Ht|Hm]
    end.
    + unfold truthy in Ht. apply negb_false_iff, str_eqb_eq in Ht. subst s.
      exfalso. revert Hb Hs. clear. unfold WEEKLY_BOSSES. cbn [In].
      intros Hb Hs.
      repeat (destruct Hb as [<-|Hb]; [cbn in Hs; discriminate|]).
      contradiction.
    + apply negb_false_iff in Hm. exact Hm.
Qed.

(** C5.  A completion of a boss or special mission whose reward shadow the
    user already owns leaves the owned-shadow list as it was; and when the
    same boss is defeated twice in a row, the second fight adds no shadow
    and reports none. *)
Theorem shadow_granted_at_most_once :
  (forall (today : Z) (q s uid : string) (db db' : DB) (r : CompleteResponse)
          (user : User),
      users_find_one uid db = Some user ->
      grants_shadow q s ->
      mem s (shadows user) = true ->
      complete_quest today q uid db = Ok r db' ->
      exists user',
        users_find_one uid db' = Some user'
        /\ shadows user' = shadows user
        /\ List.length (shadows user') = List.length (shadows user))
  /\ (forall (t1 t2 : Z) (b : Boss) (uid : string) (db db1 db2 : DB)
             (r1 r2 : CompleteResponse),
         In b WEEKLY_BOSSES ->
         complete_quest t1 (bs_id b) uid db = Ok r1 db1 ->
         complete_quest t2 (bs_id b) uid db1 = Ok r2 db2 ->
         exists u1 u2,
           users_find_one uid db1 = Some u1
           /\ users_find_one uid db2 = Some u2
           /\ shadows u2 = shadows u1
           /\ List.length (shadows u2) = List.length (shadows u1)).
Proof.
  split.
  - intros today q s uid db db' r user Hu Hg Hown H.
    destruct (complete_quest_shadows _ _ _ _ _ _ _ Hu H)
      as (user' & Hu' & [Hsame|(s' & _ & _ & Hnew & Hcat)]).
    + exists user'. rewrite Hsame. repeat split; assumption.
    + rewrite (grants_shadow_functional _ _ _ Hg Hcat) in Hnew. congruence.
  - intros t1 t2 b uid db db1 db2 r1 r2 Hb H1 H2.
    destruct (complete_quest_stages _ _ _ _ _ _ H1)
      as (user & d & dbd & aops & Hu & Hd & _).
    destruct (complete_quest_user _ _ _ _ _ _ _ Hu H1)
      as (d' & dbd' & ud & aops' & Hd' & Hud & Ha & _ & Hu1).
    rewrite Hd in Hd'. injection Hd' as <- <-.
    destruct (complete_quest_shadows _ _ _ _ _ _ _ Hu1 H2)
      as (u2 & Hu2 & [Hsame|(s' & _ & Hnod & Hnew & Hcat)]).
    + eexists. exists u2. rewrite Hsame. repeat split; assumption.
    + exfalso.
      assert (Hnod0 : daily_find_by_id (bs_id b) uid db = None).
      { destruct (daily_find_by_id (bs_id b) uid db) eqn:E; [|reflexivity].
        exfalso. apply (complete_quest_keeps_daily _ _ _ _ _ _ H1); [|exact Hnod].
        rewrite E. discriminate. }
      rewrite Hnod0 in Hd.
      assert (Hs : bs_shadow b = Some s').
      { destruct (boss_lookup b Hb) as (Ef & Em & _).
        destruct Hcat as [(x & Hx & Hs)|(x & Hx & Hs)]; congruence. }
      pose proof (find_one_id _ _ _ Hu) as Hid.
      rewrite <- Hid in Hu, Hud.
      destruct (boss_dispatch_owns _ _ _ _ _ _ _ Hb Hs Hu Hd) as (ud' & Hud' & Hown).
      rewrite Hud in Hud'. injection Hud' as <-.
      rewrite (ach_ops_field shadows) in Hnew by (reflexivity || assumption).
      change (shadows (apply_ops _ ud)) with (shadows ud) in Hnew.
      congruence.
Qed.

(** ** Streak *)

Lemma dispatch_daily (today : Z) (q : string) (user : User) (dq : DailyQuest)
    (db db1 : DB) (d : Dispatched) :
  users_find_one (id user) db = Some user ->
  dispatch today q user (Some dq) db = Ok d db1 ->
  users_find_one (id user) db1
  = Some (apply_ops
            [Set_streak (new_streak_of user today);
             Set_best_streak (Z.max (new_streak_of user today)
                                    (best_streak user));
             Set_last_quest_date (Some today);
             Set_training_start_time None] user).
Proof.
  intros Hu H. unfold dispatch in H.
  destruct (dq_is_completed dq); [discriminate|]. injection H as _ <-.
  rewrite find_one_update_one.
  change (users_find_one (id user) (daily_set_completed q db))
    with (users_find_one (id user) db).
  rewrite Hu. reflexivity.
Qed.

(** A request whose second clock reading falls on the same UTC date as
    the first is the [complete_quest] of the rest of this development. *)
Lemma complete_quest_at_same_day (today : Z) (q uid : string) (db : DB) :
  complete_quest_at today (today - 1) q uid db = complete_quest today q uid db.
Proof.
  unfold complete_quest_at, complete_quest_body, complete_quest.
  destruct (get_current_user uid db) as [user|]; [|reflexivity].
  destruct (daily_find_by_id q (id user) db); reflexivity.
Qed.

(** The user document a daily completion stores, on the two readings. *)
Lemma complete_quest_at_daily (today yesterday : Z) (q uid : string)
    (db db' : DB) (r : CompleteResponse) (user : User) (dq : DailyQuest) :
  users_find_one uid db = Some user ->
  daily_find_by_id q uid db = Some dq ->
  complete_quest_at today yesterday q uid db = Ok r db' ->
  exists aops,
    Forall is_ach_op aops
    /\ users_find_one uid db'
       = Some (apply_ops aops
                 (apply_ops
                    [Set_experience (cr_new_exp r); Set_level (cr_new_level r);
                     Set_rank (cr_new_rank r);
                     Inc_gold (dq_gold_reward dq);
                     Inc_stat_points (cr_stat_points_gained r);
                     Inc_quests_completed 1;
                     Inc_total_reps (daily_reps (dq_exercises dq))]
                    (apply_ops
                       [Set_streak (new_streak_at user today yesterday);
                        Set_best_streak
                          (Z.max (new_streak_at user today yesterday)
                                 (best_streak user));
                        Set_last_quest_date (Some today);
                        Set_training_start_time None] user))).
Proof.
  intros Hu Hdq H. unfold complete_quest_at, get_current_user in H.
  rewrite Hu in H. pose proof (find_one_id _ _ _ Hu) as Hid.
  unfold complete_quest_body in H. rewrite Hid, Hdq in H.
  destruct (dispatch_at today yesterday q user (Some dq) db)
    as [d db1|code detail] eqn:Hd; [|discriminate].
  unfold dispatch_at in Hd.
  destruct (dq_is_completed dq); [discriminate|]. injection Hd as <- <-.
  cbn [d_exp_reward d_gold_reward d_total_reps_gained d_shadow_earned] in H.
  destruct (level_up_loop (experience user + dq_exp_reward dq) (level user) 0)
    as [[e l] p].
  match type of H with
  | context [check_achievements ?a ?b ?c ?d ?e ?f ?g ?h] =>
      destruct (ach_only_check_achievements a b c d e f g h) as [aops [Fa Ea]];
      destruct (check_achievements a b c d e f g h) as [achs db3]
  end.
  cbn [snd] in Ea. rewrite Hid in Ea. injection H as <- <-.
  exists aops. split; [exact Fa|].
  rewrite Ea, !find_one_update_one.
  change (users_find_one uid (daily_set_completed q db))
    with (users_find_one uid db).
  rewrite Hu. reflexivity.
Qed.


(** When the second reading falls after midnight UTC ([yesterday] is the
    date of the first reading), a streak whose last date is the day
    before the request is reset to 1. *)
Lemma streak_reset_across_midnight (today : Z) (q uid : string)
    (db db' : DB) (r : CompleteResponse) (user : User) (dq : DailyQuest) :
  users_find_one uid db = Some user ->
  daily_find_by_id q uid db = Some dq ->
  last_quest_date user = Some (today - 1) ->
  complete_quest_at today today q uid db = Ok r db' ->
  exists user',
    users_find_one uid db' = Some user' /\ streak user' = 1.
Proof.
  intros Hu Hdq Hlast H.
  destruct (complete_quest_at_daily _ _ _ _ _ _ _ _ _ Hu Hdq H)
    as (aops & Fa & Hfin).
  eexists. split; [exact Hfin|].
  rewrite (ach_ops_field streak) by (reflexivity || assumption).
  cbn. unfold new_streak_at, date_is. rewrite Hlast.
  destruct (Z.eqb_spec (today - 1) today); [lia|]. reflexivity.
Qed.

(** The general form of the late streak milestone.  When a daily
    completion raises the streak from [m - 1] to a milestone [m], the
    stored streak is [m] but the payload of that completion does not hold
    the milestone's achievement. *)
Lemma streak_milestone_not_in_payload (today : Z) (q uid : string)
    (db db' : DB) (r : CompleteResponse) (user : User) (dq : DailyQuest)
    (m : Z) (aid : string) :
  users_find_one uid db = Some user ->
  daily_find_by_id q uid db = Some dq ->
  last_quest_date user = Some (today - 1) ->
  In (m, aid) streak_achievements ->
  streak user = m - 1 ->
  complete_quest today q uid db = Ok r db' ->
  (exists user', users_find_one uid db' = Some user' /\ streak user' = m)
  /\ ~ In aid (map ach_id (cr_achievements_unlocked r)).
Proof.
  intros Hu Hdq Hlast Hm Hs H. split.
  - destruct (complete_quest_user _ _ _ _ _ _ _ Hu H)
      as (d & db1 & u1 & aops & Hd & Hu1 & Ha & _ & Hfin).
    pose proof (find_one_id _ _ _ Hu) as Hid.
    rewrite Hdq in Hd. rewrite <- Hid in Hu, Hu1.
    rewrite (dispatch_daily _ _ _ _ _ _ _ Hu Hd) in Hu1. injection Hu1 as <-.
    eexists. split; [exact Hfin|].
    rewrite (ach_ops_field streak) by (reflexivity || assumption).
    doc_simpl. unfold new_streak_of, date_is. rewrite Hlast, Z.eqb_refl.
    cbn [orb]. destruct (Z.eqb_spec (today - 1) today); lia.
  - destruct (complete_quest_rewards _ _ _ _ _ _ _ Hu H)
      as (_ & _ & _ & _ & _ & _ & _ & Hreach).
    intros Hin. apply in_map_iff in Hin. destruct Hin as (a & Ea & Hina).
    rewrite Forall_forall in Hreach. specialize (Hreach a Hina).
    rewrite Ea in Hreach. specialize (Hreach m Hm). lia.
Qed.

(** ** Quest failure *)

Lemma random_choice_In {A : Type} (r : nat) (seq : list A) (default : A) :
  seq <> [] -> In (random_choice r seq default) seq.
Proof.
  intros Hne. unfold random_choice. apply nth_In.
  apply Nat.mod_upper_bound. destruct seq; [contradiction|discriminate].
Qed.


(** ** Daily quest fetch *)

Lemma find_none_filter {A : Type} (p : A -> bool) (l : list A) :
  find p l = None -> filter p l = [].
Proof.
  induction l as [|x rest IH]; [reflexivity|].
  cbn [find filter]. destruct (p x); [discriminate|exact IH].
Qed.

Lemma find_app_none {A : Type} (p : A -> bool) (l : list A) (x : A) :
  find p l = None -> p x = true -> find p (l ++ [x]) = Some x.
Proof.
  induction l as [|y rest IH]; cbn [find app]; intros Hn Hx.
  - rewrite Hx. reflexivity.
  - destruct (p y); [discriminate|]. apply IH; assumption.
Qed.

Lemma find_filter_head {A : Type} (p : A -> bool) (l : list A) :
  find p l = hd_error (filter p l).
Proof.
  induction l as [|x rest IH]; [reflexivity|].
  cbn [find filter]. destruct (p x); [reflexivity | exact IH].
Qed.

(** C8.  When the user has no stored instance on a date, a fetch stores
    exactly one, with the drawn id, the exercises of the user's level and
    the rewards [25 + 2 * level] and [10 + level], and returns it without
    its [user_id]; from then on every fetch of that date returns the same
    response and leaves the database as it is.  When instances of that
    date are stored, a fetch returns the first of them, key by key, and
    stores nothing. *)
Theorem daily_fetch_idempotent (today : Z) (uid : string) (db : DB)
    (user : User) :
  users_find_one uid db = Some user ->
  (instances_on uid today db = [] ->
   forall fresh_id,
     let quest :=
       mkDaily fresh_id uid today (daily_exercises (level user))
         (25 + 2 * level user) (10 + level user)
         (calculate_rank (level user)) false in
     let response :=
       mkView fresh_id today (daily_exercises (level user))
         (25 + 2 * level user) (10 + level user)
         (calculate_rank (level user)) false in
     exists db',
       get_daily_quests today fresh_id uid db = Ok response db'
       /\ daily_quests db' = daily_quests db ++ [quest]
       /\ users db' = users db
       /\ instances_on uid today db' = [quest]
       /\ forall later_id,
            get_daily_quests today later_id uid db' = Ok response db')
  /\ (forall stored others,
        instances_on uid today db = stored :: others ->
        forall fresh_id,
          get_daily_quests today fresh_id uid db
          = Ok (mkView (dq_id stored) (dq_date stored) (dq_exercises stored)
                  (dq_exp_reward stored) (dq_gold_reward stored)
                  (dq_difficulty stored) (dq_is_completed stored)) db).
Proof.
  intros Hu. pose proof (find_one_id _ _ _ Hu) as Hid.
  assert (Hfind : daily_find_by_date uid today db
                  = hd_error (instances_on uid today db))
    by apply find_filter_head.
  split.
  - intros Hnone fresh_id quest response.
    rewrite Hnone in Hfind. cbn [hd_error] in Hfind.
    assert (E1 : 25 + level user * 2 = 25 + 2 * level user) by lia.
    unfold get_daily_quests, get_current_user. rewrite Hu, Hid, Hfind, E1.
    eexists. split; [reflexivity|].
    cbn [daily_quests users].
    split; [reflexivity|]. split; [reflexivity|].
    unfold instances_on, daily_find_by_date in *. cbn [daily_quests].
    set (p := fun q0 => str_eqb (dq_user_id q0) uid && (dq_date q0 =? today))
      in *.
    assert (Hmatch : p quest = true).
    { unfold p, quest. cbn [dq_user_id dq_date].
      rewrite str_eqb_refl, Z.eqb_refl. reflexivity. }
    split.
    + rewrite filter_app, Hnone. cbn [filter app].
      fold quest. rewrite Hmatch. reflexivity.
    + intros later_id. unfold get_current_user, users_find_one.
      cbn [users]. fold (users_find_one uid db). rewrite Hu, Hid.
      pose proof (find_app_none _ _ _ Hfind Hmatch) as Hlast.
      unfold p, quest in Hlast. cbn [daily_quests id] in *.
      rewrite Hlast. reflexivity.
  - intros stored others Hs fresh_id.
    rewrite Hs in Hfind. cbn [hd_error] in Hfind.
    unfold get_daily_quests, get_current_user. rewrite Hu, Hid, Hfind.
    reflexivity.
Qed.

(** ** Stat upgrade *)

Lemma stat_name_cases (name : string) :
  mem name ["strength"; "endurance"; "agility"; "vitality"] = true ->
  name = "strength" \/ name = "endurance" \/ name = "agility"
  \/ name = "vitality".
Proof.
  intros H. apply mem_In in H. cbn [In] in H.
  destruct H as [H|[H|[H|[H|[]]]]]; subst; auto.
Qed.

Lemma get_inc_stat (name : string) (d : Z) (s : Stats) :
  mem name ["strength"; "endurance"; "agility"; "vitality"] = true ->
  get_stat name (inc_stat name d s) = get_stat name s + d.
Proof.
  intros H. destruct (stat_name_cases name H) as [-> | [-> | [-> | ->]]];
    reflexivity.
Qed.

(** C10.  A negative [points] passes the insufficient-points check of
    [upgrade_stat] whenever the balance is not negative: the named stat
    drops by [|points|] and the unallocated pool grows by [|points|]. *)
Theorem upgrade_stat_negative_points (stat_name : string) (points : Z)
    (uid : string) (db : DB) (user : User) :
  users_find_one uid db = Some user ->
  mem stat_name ["strength"; "endurance"; "agility"; "vitality"] = true ->
  points < 0 ->
  0 <= stat_points user ->
  exists unlocked db' user',
    upgrade_stat stat_name points uid db = Ok unlocked db'
    /\ users_find_one uid db' = Some user'
    /\ get_stat stat_name (stats user')
       = get_stat stat_name (stats user) - Z.abs points
    /\ stat_points user' = stat_points user + Z.abs points.
Proof.
  intros Hu Hname Hneg Hbal. pose proof (find_one_id _ _ _ Hu) as Hid.
  unfold upgrade_stat, get_current_user. rewrite Hu, Hname, Hid.
  destruct (Z.ltb_spec (stat_points user) points) as [Hlt|_]; [lia|].
  cbn [negb].
  match goal with
  | |- context [let (_, _) := ?m ?d in _] =>
      assert (Hach : ach_only uid m)
        by (rewrite <- Hid; ach_only_cases);
      destruct (Hach d) as (aops & Ha & Ea);
      destruct (m d) as [unlocked db2]
  end.
  cbn [snd] in Ea. subst db2.
  exists unlocked. eexists. eexists. split; [reflexivity|].
  rewrite update_one_twice, find_one_update_one, Hu. cbn [option_map].
  split; [reflexivity|].
  rewrite apply_ops_app.
  rewrite (ach_ops_field stats), (ach_ops_field stat_points)
    by (reflexivity || assumption).
  doc_simpl. rewrite get_inc_stat by assumption. lia.
Qed.

(** ** Achievement unlocking *)


(** ** Cascading level-ups *)

Lemma level_up_steps_points (fuel : nat) :
  forall e l p e' l' p',
    level_up_steps fuel e l p = (e', l', p') ->
    l <= l' /\ p' = p + 3 * (l' - l).
Proof.
  induction fuel as [|fuel IH]; intros e l p e' l' p' H; cbn [level_up_steps] in H.
  - injection H as <- <- <-. lia.
  - destruct (calculate_exp_needed l <=? e).
    + apply IH in H. lia.
    + injection H as <- <- <-. lia.
Qed.

Lemma level_up_loop_exit (e l p e' l' p' : Z) :
  level_up_loop e l p = (e', l', p') ->
  e' < calculate_exp_needed l' /\ l <= l' /\ p' = p + 3 * (l' - l).
Proof.
  intros H. split.
  - unfold level_up_loop in H. eapply level_up_steps_exit; [|exact H]. lia.
  - eapply level_up_steps_points. exact H.
Qed.

(** Every successful completion stores and reports what the loop
    produced. *)
Lemma complete_quest_progress (today : Z) (q uid : string) (db db' : DB)
    (r : CompleteResponse) (user : User) :
  users_find_one uid db = Some user ->
  complete_quest today q uid db = Ok r db' ->
  cr_new_exp r < calculate_exp_needed (cr_new_level r)
  /\ level user <= cr_new_level r
  /\ cr_stat_points_gained r = 3 * (cr_new_level r - level user)
  /\ exists user',
       users_find_one uid db' = Some user'
       /\ experience user' = cr_new_exp r
       /\ level user' = cr_new_level r
       /\ rank user' = calculate_rank (cr_new_level r)
       /\ stat_points user' = stat_points user + cr_stat_points_gained r.
Proof.
  intros Hu H.
  destruct (complete_quest_user _ _ _ _ _ _ _ Hu H)
    as (d & db1 & u1 & aops & _ & _ & Ha & Hloop & Hfin).
  destruct (complete_quest_totals _ _ _ _ _ _ _ Hu H)
    as (user' & Hu' & _ & Hpts & _).
  apply level_up_loop_exit in Hloop. destruct Hloop as (He & Hl & Hp).
  repeat split; try assumption; try lia.
  exists user'. split; [exact Hu'|].
  rewrite Hfin in Hu'. apply some_inj in Hu'. subst user'.
  rewrite (ach_ops_field experience), (ach_ops_field level),
    (ach_ops_field rank) by (reflexivity || assumption).
  repeat split; try reflexivity.
  rewrite <- Hpts. reflexivity.
Qed.



(** ** The progression invariant *)

Lemma register_invariant (user_id password_hash : string) (now : Z)
    (email_ hunter : string) :
  progression_invariant (new_user user_id password_hash now email_ hunter).
Proof. split; reflexivity. Qed.

Lemma complete_quest_invariant (today : Z) (q uid : string) (db db' : DB)
    (r : CompleteResponse) (user : User) :
  users_find_one uid db = Some user ->
  complete_quest today q uid db = Ok r db' ->
  exists user', users_find_one uid db' = Some user'
                /\ progression_invariant user'.
Proof.
  intros Hu H.
  destruct (complete_quest_progress _ _ _ _ _ _ _ Hu H)
    as (He & _ & _ & user' & Hu' & Hexp & Hlvl & Hrank & _).
  exists user'. split; [assumption|]. unfold progression_invariant.
  rewrite Hexp, Hlvl, Hrank. split; [reflexivity|assumption].
Qed.

Lemma fail_quest_invariant (r : nat) (uuid : string) (now : Z)
    (q uid : string) (db db' : DB) (resp : FailResponse) (user : User) :
  users_find_one uid db = Some user ->
  0 <= experience user ->
  progression_invariant user ->
  fail_quest r uuid now q uid db = Ok resp db' ->
  exists user', users_find_one uid db' = Some user'
                /\ progression_invariant user'.
Proof.
  intros Hu Hpos [Hrank Hexp] H. pose proof (find_one_id _ _ _ Hu) as Hid.
  unfold fail_quest, get_current_user in H. rewrite Hu, Hid in H.
  injection H as _ <-.
  assert (Hq : 0 <= exp_penalty_of (experience user))
    by (unfold exp_penalty_of; apply Z.quot_pos; lia).
  destruct (0 <? streak_shields user);
    rewrite update_one_twice, find_one_update_one, Hu; cbn [option_map];
    eexists; (split; [reflexivity|]); unfold progression_invariant;
    doc_simpl; (split; [assumption|lia]).
Qed.

Lemma upgrade_stat_invariant (stat_name : string) (points : Z) (uid : string)
    (db db' : DB) (unlocked : list Achievement) (user : User) :
  users_find_one uid db = Some user ->
  progression_invariant user ->
  upgrade_stat stat_name points uid db = Ok unlocked db' ->
  exists user', users_find_one uid db' = Some user'
                /\ progression_invariant user'.
Proof.
  intros Hu Hinv H. pose proof (find_one_id _ _ _ Hu) as Hid.
  unfold upgrade_stat, get_current_user in H. rewrite Hu, Hid in H.
  destruct (stat_points user <? points); [discriminate|].
  destruct (negb _); [discriminate|].
  match type of H with
  | context [let (_, _) := ?m ?d in _] =>
      assert (Hach : ach_only uid m)
        by (rewrite <- Hid; ach_only_cases);
      destruct (Hach d) as (aops & Ha & Ea);
      destruct (m d) as [unlocked' db2]
  end.
  cbn [snd] in Ea. subst db2. injection H as _ <-.
  rewrite update_one_twice, find_one_update_one, Hu. cbn [option_map].
  eexists. split; [reflexivity|].
  unfold progression_invariant. rewrite apply_ops_app.
  rewrite (ach_ops_field rank), (ach_ops_field level),
    (ach_ops_field experience) by (reflexivity || assumption).
  exact Hinv.
Qed.

(** ** Sample runs *)

(** C1, at a reachable state.  A registered hunter clears the first
    dungeon four times (120 experience at level 1) and buys the small
    experience potion: the purchase succeeds and stores 170 experience at
    level 1, whose threshold is 150, so the progression invariant that
    held before the purchase is broken by it. *)
Theorem potion_breaks_experience_bound :
  exists db0 r1 db1 r2 db2 r3 db3 r4 db4 user4 db5 user5,
    register "u1" "hash" 0 "hunter@example.org" "Jinwoo" (mkDB [] [])
    = Ok ("u1", "Jinwoo") db0
    /\ complete_quest 1 "dungeon_prueba_novato" "u1" db0 = Ok r1 db1
    /\ complete_quest 1 "dungeon_prueba_novato" "u1" db1 = Ok r2 db2
    /\ complete_quest 1 "dungeon_prueba_novato" "u1" db2 = Ok r3 db3
    /\ complete_quest 1 "dungeon_prueba_novato" "u1" db3 = Ok r4 db4
    /\ users_find_one "u1" db4 = Some user4
    /\ progression_invariant user4
    /\ buy_item "potion_exp_1" "u1" db4 = Ok "potion_exp_1" db5
    /\ users_find_one "u1" db5 = Some user5
    /\ level user5 = 1
    /\ rank user5 = calculate_rank (level user5)
    /\ experience user5 = 170
    /\ calculate_exp_needed (level user5) = 150
    /\ ~ progression_invariant user5.
Proof.
  pose (db0 := db_of (register "u1" "hash" 0 "hunter@example.org" "Jinwoo"
                        (mkDB [] []))).
  pose (s1 := complete_quest 1 "dungeon_prueba_novato" "u1" db0).
  pose (s2 := complete_quest 1 "dungeon_prueba_novato" "u1" (db_of s1)).
  pose (s3 := complete_quest 1 "dungeon_prueba_novato" "u1" (db_of s2)).
  pose (s4 := complete_quest 1 "dungeon_prueba_novato" "u1" (db_of s3)).
  pose (db5 := db_of (buy_item "potion_exp_1" "u1" (db_of s4))).
  exists db0, (response_of s1), (db_of s1), (response_of s2), (db_of s2),
    (response_of s3), (db_of s3), (response_of s4), (db_of s4).
  exists (nth 0 (users (db_of s4)) hunter), db5, (nth 0 (users db5) hunter).
  vm_compute.
  repeat match goal with |- _ /\ _ => split end; try reflexivity.
  intros [_ H]. discriminate.
Qed.

(** C3, at a reachable state.  A registered hunter completes the daily
    quest on three consecutive days.  The third completion stores streak 3
    but its payload unlocks nothing and the document does not hold
    [streak_3]; the milestone is only paid on the fourth day, because the
    check reads the streak of the request's snapshot. *)
Theorem streak_milestone_reported_late :
  exists db0 v1 db1 r1 db2 v2 db3 r2 db4 v3 db5 r3 db6 user6 v4 db7 r4 db8,
    register "u1" "hash" 0 "hunter@example.org" "Jinwoo" (mkDB [] [])
    = Ok ("u1", "Jinwoo") db0
    /\ get_daily_quests 1 "q1" "u1" db0 = Ok v1 db1
    /\ complete_quest 1 "q1" "u1" db1 = Ok r1 db2
    /\ get_daily_quests 2 "q2" "u1" db2 = Ok v2 db3
    /\ complete_quest 2 "q2" "u1" db3 = Ok r2 db4
    /\ get_daily_quests 3 "q3" "u1" db4 = Ok v3 db5
    /\ complete_quest 3 "q3" "u1" db5 = Ok r3 db6
    /\ users_find_one "u1" db6 = Some user6
    /\ streak user6 = 3
    /\ cr_achievements_unlocked r3 = []
    /\ mem "streak_3" (achievements user6) = false
    /\ get_daily_quests 4 "q4" "u1" db6 = Ok v4 db7
    /\ complete_quest 4 "q4" "u1" db7 = Ok r4 db8
    /\ map ach_id (cr_achievements_unlocked r4) = ["streak_3"].
Proof.
  pose (db0 := db_of (register "u1" "hash" 0 "hunter@example.org" "Jinwoo"
                        (mkDB [] []))).
  pose (f1 := get_daily_quests 1 "q1" "u1" db0).
  pose (c1 := complete_quest 1 "q1" "u1" (db_of f1)).
  pose (f2 := get_daily_quests 2 "q2" "u1" (db_of c1)).
  pose (c2 := complete_quest 2 "q2" "u1" (db_of f2)).
  pose (f3 := get_daily_quests 3 "q3" "u1" (db_of c2)).
  pose (c3 := complete_quest 3 "q3" "u1" (db_of f3)).
  pose (f4 := get_daily_quests 4 "q4" "u1" (db_of c3)).
  pose (c4 := complete_quest 4 "q4" "u1" (db_of f4)).
  exists db0, (view_of f1), (db_of f1), (response_of c1), (db_of c1),
    (view_of f2), (db_of f2), (response_of c2), (db_of c2).
  exists (view_of f3), (db_of f3), (response_of c3), (db_of c3),
    (nth 0 (users (db_of c3)) hunter), (view_of f4), (db_of f4),
    (response_of c4), (db_of c4).
  vm_compute.
  repeat match goal with |- _ /\ _ => split end; reflexivity.
Qed.


(** ** The theorems at concrete inputs *)



Lemma shadow_granted_at_most_once_witness :
  (users_find_one "u1" db_veteran = Some veteran
   /\ grants_shadow "boss_igris" "shadow_igris"
   /\ mem "shadow_igris" (shadows veteran) = true
   /\ veteran_fight = Ok (response_of veteran_fight) (db_of veteran_fight)
   /\ exists user',
        users_find_one "u1" (db_of veteran_fight) = Some user'
        /\ shadows user' = shadows veteran
        /\ List.length (shadows user') = List.length (shadows veteran))
  /\ (In (mkBoss "boss_igris" 20 40 2000 1200 (Some "shadow_igris"))
        WEEKLY_BOSSES
      /\ recruit_fight1 = Ok (response_of recruit_fight1) (db_of recruit_fight1)
      /\ recruit_fight2 = Ok (response_of recruit_fight2) (db_of recruit_fight2)
      /\ exists u1 u2,
           users_find_one "u1" (db_of recruit_fight1) = Some u1
           /\ users_find_one "u1" (db_of recruit_fight2) = Some u2
           /\ shadows u2 = shadows u1
           /\ List.length (shadows u2) = List.length (shadows u1)).
Proof.
  assert (Hin : In (mkBoss "boss_igris" 20 40 2000 1200 (Some "shadow_igris"))
                  WEEKLY_BOSSES) by (left; reflexivity).
  assert (Hg : grants_shadow "boss_igris" "shadow_igris").
  { left. exists (mkBoss "boss_igris" 20 40 2000 1200 (Some "shadow_igris")).
    split; [exact Hin|]. split; reflexivity. }
  split.
  - split; [reflexivity|]. split; [exact Hg|]. split; [reflexivity|].
    split; [vm_compute; reflexivity|].
    apply (proj1 shadow_granted_at_most_once 7 "boss_igris" "shadow_igris"
             "u1" db_veteran (db_of veteran_fight) (response_of veteran_fight)
             veteran);
      [reflexivity | exact Hg | reflexivity | vm_compute; reflexivity].
  - split; [exact Hin|].
    split; [vm_compute; reflexivity|]. split; [vm_compute; reflexivity|].
    apply (proj2 shadow_granted_at_most_once 7 8
             (mkBoss "boss_igris" 20 40 2000 1200 (Some "shadow_igris")) "u1"
             db_recruit (db_of recruit_fight1) (db_of recruit_fight2)
             (response_of recruit_fight1) (response_of recruit_fight2));
      [exact Hin | vm_compute; reflexivity | vm_compute; reflexivity].
Defined.



Lemma daily_fetch_idempotent_witness :
  users_find_one "u1" db_registered = Some hunter
  /\ instances_on "u1" 1 db_registered = []
  /\ exists db',
       get_daily_quests 1 "q1" "u1" db_registered
       = Ok (mkView "q1" 1 (daily_exercises 1) 27 11 "E" false) db'
       /\ instances_on "u1" 1 db'
          = [mkDaily "q1" "u1" 1 (daily_exercises 1) 27 11 "E" false]
       /\ get_daily_quests 1 "q2" "u1" db'
          = Ok (mkView "q1" 1 (daily_exercises 1) 27 11 "E" false) db'.
Proof.
  split; [reflexivity|]. split; [reflexivity|].
  destruct (proj1 (daily_fetch_idempotent 1 "u1" db_registered hunter
                     eq_refl) eq_refl "q1")
    as (db' & Hget & _ & _ & Hinst & Hlater).
  exists db'. split; [exact Hget|]. split; [exact Hinst|].
  exact (Hlater "q2").
Defined.


Lemma upgrade_stat_negative_points_witness :
  users_find_one "u1" db_registered = Some hunter
  /\ mem "strength" ["strength"; "endurance"; "agility"; "vitality"] = true
  /\ -5 < 0
  /\ 0 <= stat_points hunter
  /\ exists unlocked db' user',
       upgrade_stat "strength" (-5) "u1" db_registered = Ok unlocked db'
       /\ users_find_one "u1" db' = Some user'
       /\ get_stat "strength" (stats user')
          = get_stat "strength" (stats hunter) - Z.abs (-5)
       /\ stat_points user' = stat_points hunter + Z.abs (-5).
Proof.
  split; [reflexivity|]. split; [reflexivity|]. split; [lia|].
  split; [vm_compute; discriminate|].
  apply (upgrade_stat_negative_points "strength" (-5) "u1" db_registered hunter);
    [reflexivity | reflexivity | lia | vm_compute; discriminate].
Defined.

(** * Further properties of the code *)

(** ** Rank and training targets *)

(** X1.  The rank never goes down when the level goes up, and it is always
    one of the six letters the mission listing orders. *)
Theorem rank_monotone (a b : Z) :
  a <= b ->
  rank_order (calculate_rank a) <= rank_order (calculate_rank b)
  /\ 1 <= rank_order (calculate_rank a) <= 6.
Proof.
  intros Hab. unfold calculate_rank.
  destruct (Z.leb_spec 80 a), (Z.leb_spec 60 a), (Z.leb_spec 40 a),
    (Z.leb_spec 25 a), (Z.leb_spec 10 a); try lia;
  destruct (Z.leb_spec 80 b), (Z.leb_spec 60 b), (Z.leb_spec 40 b),
    (Z.leb_spec 25 b), (Z.leb_spec 10 b); try lia;
  cbn; lia.
Qed.

Lemma rank_monotone_witness :
  9 <= 10
  /\ rank_order (calculate_rank 9) <= rank_order (calculate_rank 10)
  /\ 1 <= rank_order (calculate_rank 9) <= 6.
Proof. split; [lia|]. apply (rank_monotone 9 10). lia. Defined.





(** ** Experience is conserved by the level-up loop *)

Lemma level_up_steps_conserves (fuel : nat) :
  forall e l p e' l' p',
    level_up_steps fuel e l p = (e', l', p') ->
    l <= l'
    /\ e = e' + thresholds_sum l (Z.to_nat (l' - l))
    /\ (0 <= e -> 0 <= e').
Proof.
  induction fuel as [|fuel IH]; intros e l p e' l' p' H;
    cbn [level_up_steps] in H.
  - injection H as <- <- <-. rewrite Z.sub_diag. cbn. lia.
  - destruct (Z.leb_spec (calculate_exp_needed l) e) as [Hle|Hgt].
    + apply IH in H. destruct H as (Hl & He & Hpos).
      replace (Z.to_nat (l' - l)) with (S (Z.to_nat (l' - (l + 1)))) by lia.
      cbn [thresholds_sum]. repeat split; lia.
    + injection H as <- <- <-. rewrite Z.sub_diag. cbn. lia.
Qed.

(** X3.  A completion neither creates nor loses experience: the stored
    experience plus the thresholds of the levels gained equals the old
    experience plus the reward, and experience that was not negative
    stays so. *)
Theorem completion_conserves_experience (today : Z) (q uid : string)
    (db db' : DB) (r : CompleteResponse) (user : User) :
  users_find_one uid db = Some user ->
  complete_quest today q uid db = Ok r db' ->
  exists user',
    users_find_one uid db' = Some user'
    /\ experience user + cr_exp_gained r
       = experience user'
         + thresholds_sum (level user) (Z.to_nat (level user' - level user))
    /\ (0 <= experience user + cr_exp_gained r -> 0 <= experience user').
Proof.
  intros Hu H.
  destruct (complete_quest_progress _ _ _ _ _ _ _ Hu H)
    as (_ & _ & _ & user' & Hu' & Hexp & Hlvl & _).
  destruct (complete_quest_user _ _ _ _ _ _ _ Hu H)
    as (d & db1 & u1 & aops & Hd & _ & _ & Hloop & _).
  assert (Hg : cr_exp_gained r = d_exp_reward d).
  { pose proof (find_one_id _ _ _ Hu) as Hid.
    unfold complete_quest, get_current_user in H. rewrite Hu, Hid, Hd in H.
    destruct (level_up_loop _ _ _) as [[e l] p].
    destruct (check_achievements _ _ _ _ _ _ _ _) as [achs db3].
    injection H as <- _. reflexivity. }
  unfold level_up_loop in Hloop. apply level_up_steps_conserves in Hloop.
  destruct Hloop as (_ & He & Hpos).
  exists user'. split; [exact Hu'|]. rewrite Hexp, Hlvl, Hg.
  split; assumption.
Qed.

Lemma completion_conserves_experience_witness :
  users_find_one "u1" db_registered = Some hunter
  /\ first_dungeon = Ok (response_of first_dungeon) (db_of first_dungeon)
  /\ exists user',
       users_find_one "u1" (db_of first_dungeon) = Some user'
       /\ experience hunter + cr_exp_gained (response_of first_dungeon)
          = experience user'
            + thresholds_sum (level hunter)
                (Z.to_nat (level user' - level hunter))
       /\ (0 <= experience hunter + cr_exp_gained (response_of first_dungeon)
           -> 0 <= experience user').
Proof.
  split; [reflexivity|]. split; [vm_compute; reflexivity|].
  apply (completion_conserves_experience 1 "dungeon_prueba_novato" "u1"
           db_registered (db_of first_dungeon) (response_of first_dungeon)
           hunter); [reflexivity | vm_compute; reflexivity].
Defined.

(** ** Listings against completion *)

Lemma ok_inj {A : Type} (a b : A) (d d' : DB) :
  Ok a d = Ok b d' -> a = b /\ d = d'.
Proof. intros H. injection H as H1 H2. split; assumption. Qed.

Lemma reward_ops_are_ach (unlocked : list Achievement) :
  Forall is_ach_op (reward_ops unlocked).
Proof.
  unfold reward_ops. apply Forall_flat_map, Forall_forall.
  intros a _. repeat constructor.
Qed.

Lemma reward_ops_field {T : Type} (f : User -> T)
    (unlocked : list Achievement) (u : User) :
  (forall x, f (without_rewards x) = f x) ->
  f (apply_ops (reward_ops unlocked) u) = f u.
Proof.
  intros Hf. apply ach_ops_field; [exact Hf | apply reward_ops_are_ach].
Qed.

(** A completion succeeds exactly when its dispatch does, and reports the
    rewards the dispatch found. *)
Lemma complete_quest_of_dispatch (today : Z) (q uid : string) (db db1 : DB)
    (user : User) (d : Dispatched) :
  users_find_one uid db = Some user ->
  dispatch today q user (daily_find_by_id q uid db) db = Ok d db1 ->
  exists r db',
    complete_quest today q uid db = Ok r db'
    /\ cr_exp_gained r = d_exp_reward d
    /\ cr_gold_gained r = d_gold_reward d
    /\ cr_reps_gained r = d_total_reps_gained d.
Proof.
  intros Hu Hd. pose proof (find_one_id _ _ _ Hu) as Hid.
  unfold complete_quest, get_current_user. rewrite Hu, Hid, Hd.
  destruct (level_up_loop _ _ _) as [[e l] p].
  destruct (check_achievements _ _ _ _ _ _ _ _) as [achs db3].
  eexists. eexists. split; [reflexivity|]. repeat split.
Qed.

Lemma complete_quest_of_dispatch_err (today : Z) (q uid : string) (db : DB)
    (user : User) (code : Z) (detail : Detail) :
  users_find_one uid db = Some user ->
  dispatch today q user (daily_find_by_id q uid db) db = Err code detail ->
  complete_quest today q uid db = Err code detail.
Proof.
  intros Hu Hd. pose proof (find_one_id _ _ _ Hu) as Hid.
  unfold complete_quest, get_current_user. rewrite Hu, Hid, Hd. reflexivity.
Qed.

Lemma dungeon_lookup (dungeon : Dungeon) :
  In dungeon SPECIAL_DUNGEONS ->
  find (fun x => str_eqb (dg_id x) (dg_id dungeon)) SPECIAL_DUNGEONS
  = Some dungeon
  /\ prefix "dungeon_" (dg_id dungeon) = true.
Proof.
  unfold SPECIAL_DUNGEONS. cbn [In]. intros H.
  repeat (destruct H as [<-|H]; [split; reflexivity|]).
  contradiction.
Qed.

Lemma dungeon_difficulty_cases (dungeon : Dungeon) :
  In dungeon SPECIAL_DUNGEONS ->
  dg_difficulty dungeon = "E" \/ dg_difficulty dungeon = "D"
  \/ dg_difficulty dungeon = "C" \/ dg_difficulty dungeon = "B"
  \/ dg_difficulty dungeon = "A" \/ dg_difficulty dungeon = "S".
Proof.
  unfold SPECIAL_DUNGEONS. cbn [In]. intros H.
  repeat (destruct H as [<-|H]; [cbn; tauto|]).
  contradiction.
Qed.

(** The repetitions a completion counts are those of the exercises the
    listing shows. *)
Lemma scaled_reps_of_exercises (level_ multiplier10 : Z) :
  scaled_reps level_ multiplier10
  = daily_reps (scaled_exercises level_ multiplier10).
Proof. reflexivity. Qed.

(** The document a successful completion stores, in terms of the
    snapshot. *)
Lemma complete_quest_document (today : Z) (q uid : string) (db db' : DB)
    (r : CompleteResponse) (user : User) :
  users_find_one uid db = Some user ->
  complete_quest today q uid db = Ok r db' ->
  exists d db1 dops,
    dispatch today q user (daily_find_by_id q uid db) db = Ok d db1
    /\ Forall is_dispatch_op dops
    /\ users_find_one uid db1 = Some (apply_ops dops user)
    /\ users_find_one uid db'
       = Some (apply_ops (reward_ops (cr_achievements_unlocked r))
                 (apply_ops
                    [Set_experience (cr_new_exp r); Set_level (cr_new_level r);
                     Set_rank (cr_new_rank r); Inc_gold (d_gold_reward d);
                     Inc_stat_points (cr_stat_points_gained r);
                     Inc_quests_completed 1;
                     Inc_total_reps (d_total_reps_gained d)]
                    (apply_ops dops user))).
Proof.
  intros Hu H.
  destruct (complete_quest_rewards _ _ _ _ _ _ _ Hu H)
    as (d & db1 & u1 & Hd & Hu1 & Hfin & _ & _).
  pose proof (find_one_id _ _ _ Hu) as Hid.
  assert (Hu' : users_find_one (id user) db = Some user)
    by (rewrite Hid; exact Hu).
  assert (Hd' := Hd). rewrite <- Hid in Hd' at 1.
  destruct (dispatch_ops _ _ _ _ _ _ _ Hu' Hd') as (dops & Fd & Hu1').
  rewrite Hid in Hu1'. rewrite Hu1 in Hu1'. apply some_inj in Hu1'.
  subst u1. exists d, db1, dops. repeat split; assumption.
Qed.

(** X4.  Every dungeon that [GET /quests/special] lists can be completed:
    the completion succeeds, pays the experience and gold the listing
    shows, counts the repetitions of the listed exercises and adds one to
    the counter of the listed difficulty. *)
Theorem listed_dungeon_completes (today : Z) (uid : string) (db : DB)
    (user : User) (listing : list SpecialQuest) (sq : SpecialQuest) :
  users_find_one uid db = Some user ->
  get_special_quests uid db = Ok listing db ->
  In sq listing ->
  daily_find_by_id (sq_id sq) uid db = None ->
  exists r db' user',
    complete_quest today (sq_id sq) uid db = Ok r db'
    /\ cr_exp_gained r = sq_exp_reward sq
    /\ cr_gold_gained r = sq_gold_reward sq
    /\ cr_reps_gained r = daily_reps (sq_exercises sq)
    /\ users_find_one uid db' = Some user'
    /\ get_count (sq_difficulty sq) (dungeons_completed user')
       = get_count (sq_difficulty sq) (dungeons_completed user) + 1.
Proof.
  intros Hu Hlist Hin Hnod.
  unfold get_special_quests, get_current_user in Hlist. rewrite Hu in Hlist.
  apply ok_inj in Hlist. destruct Hlist as [<- _]. apply in_flat_map in Hin.
  destruct Hin as (dungeon & Hcat & Hin).
  destruct (Z.leb_spec (dg_min_level dungeon) (level user)) as [Hlvl|Hlvl];
    [|contradiction].
  destruct Hin as [<-|[]]. cbn [sq_id sq_exp_reward sq_gold_reward
                                sq_exercises sq_difficulty] in *.
  destruct (dungeon_lookup dungeon Hcat) as (Ef & Ep).
  assert (Hd : dispatch today (dg_id dungeon) user
                 (daily_find_by_id (dg_id dungeon) uid db) db
               = Ok (mkDispatched (dg_exp dungeon) (dg_gold dungeon)
                       (scaled_reps (level user) (dg_multiplier10 dungeon))
                       None)
                    (users_update_one (id user)
                       [Inc_dungeons_completed (dg_difficulty dungeon) 1] db)).
  { rewrite Hnod. unfold dispatch. rewrite Ep, Ef.
    destruct (Z.ltb_spec (level user) (dg_min_level dungeon)); [lia|].
    reflexivity. }
  destruct (complete_quest_of_dispatch _ _ _ _ _ _ _ Hu Hd)
    as (r & db' & Hc & He & Hg & Hr).
  destruct (complete_quest_document _ _ _ _ _ _ _ Hu Hc)
    as (d' & db1' & dops & Hd' & _ & Hu1 & Hfin).
  rewrite Hd in Hd'. injection Hd' as <- <-.
  pose proof (find_one_id _ _ _ Hu) as Hid.
  rewrite Hid, find_one_update_one, Hu in Hu1. cbn [option_map] in Hu1.
  apply some_inj in Hu1.
  exists r, db'. eexists. split; [exact Hc|].
  split; [exact He|]. split; [exact Hg|].
  split; [rewrite Hr; apply scaled_reps_of_exercises|].
  split; [exact Hfin|].
  rewrite (reward_ops_field dungeons_completed) by reflexivity.
  rewrite <- Hu1. doc_simpl.
  generalize (dungeons_completed user). intros c.
  destruct (dungeon_difficulty_cases dungeon Hcat) as [E|[E|[E|[E|[E|E]]]]];
    rewrite E; reflexivity.
Qed.

Lemma listed_dungeon_completes_witness :
  users_find_one "u1" db_registered = Some hunter
  /\ get_special_quests "u1" db_registered
     = Ok [mkSpecial "dungeon_prueba_novato" (scaled_exercises 1 10)
             30 20 "E" 1 false] db_registered
  /\ daily_find_by_id "dungeon_prueba_novato" "u1" db_registered = None
  /\ exists r db' user',
       complete_quest 1 "dungeon_prueba_novato" "u1" db_registered = Ok r db'
       /\ cr_exp_gained r = 30
       /\ cr_gold_gained r = 20
       /\ cr_reps_gained r = daily_reps (scaled_exercises 1 10)
       /\ users_find_one "u1" db' = Some user'
       /\ get_count "E" (dungeons_completed user')
          = get_count "E" (dungeons_completed hunter) + 1.
Proof.
  split; [reflexivity|]. split; [reflexivity|]. split; [reflexivity|].
  apply (listed_dungeon_completes 1 "u1" db_registered hunter
           [mkSpecial "dungeon_prueba_novato" (scaled_exercises 1 10)
              30 20 "E" 1 false]
           (mkSpecial "dungeon_prueba_novato" (scaled_exercises 1 10)
              30 20 "E" 1 false));
    [reflexivity | reflexivity | left; reflexivity | reflexivity].
Defined.

(** X5.  A catalog dungeon above the user's level is not listed, and an
    attempt to complete it is refused with status 400 and the level it
    requires. *)
Theorem locked_dungeon_rejected (today : Z) (uid : string) (db : DB)
    (user : User) (dungeon : Dungeon) :
  users_find_one uid db = Some user ->
  In dungeon SPECIAL_DUNGEONS ->
  level user < dg_min_level dungeon ->
  daily_find_by_id (dg_id dungeon) uid db = None ->
  complete_quest today (dg_id dungeon) uid db
  = Err 400 (Level_required (dg_min_level dungeon))
  /\ forall listing,
       get_special_quests uid db = Ok listing db ->
       ~ In (dg_id dungeon) (map sq_id listing).
Proof.
  intros Hu Hcat Hlvl Hnod.
  destruct (dungeon_lookup dungeon Hcat) as (Ef & Ep). split.
  - apply (complete_quest_of_dispatch_err _ _ _ _ user); [exact Hu|].
    rewrite Hnod. unfold dispatch. rewrite Ep, Ef.
    destruct (Z.ltb_spec (level user) (dg_min_level dungeon)); [|lia].
    reflexivity.
  - intros listing Hlist Hin.
    unfold get_special_quests, get_current_user in Hlist. rewrite Hu in Hlist.
    apply ok_inj in Hlist. destruct Hlist as [<- _].
    apply in_map_iff in Hin. destruct Hin as (sq & Eid & Hin).
    apply in_flat_map in Hin. destruct Hin as (other & Hcat' & Hin).
    destruct (Z.leb_spec (dg_min_level other) (level user)) as [Hl|Hl];
      [|contradiction].
    destruct Hin as [<-|[]]. cbn [sq_id] in Eid.
    destruct (dungeon_lookup other Hcat') as (Ef' & _).
    rewrite Eid, Ef in Ef'. apply some_inj in Ef'. subst other. lia.
Qed.

Lemma locked_dungeon_rejected_witness :
  users_find_one "u1" db_registered = Some hunter
  /\ In (mkDungeon "dungeon_cueva_goblins" 3 12 "E" 50 30) SPECIAL_DUNGEONS
  /\ level hunter < 3
  /\ daily_find_by_id "dungeon_cueva_goblins" "u1" db_registered = None
  /\ complete_quest 1 "dungeon_cueva_goblins" "u1" db_registered
     = Err 400 (Level_required 3).
Proof.
  split; [reflexivity|]. split; [right; left; reflexivity|].
  split; [reflexivity|]. split; [reflexivity|].
  apply (locked_dungeon_rejected 1 "u1" db_registered hunter
           (mkDungeon "dungeon_cueva_goblins" 3 12 "E" 50 30));
    [reflexivity | right; left; reflexivity | reflexivity | reflexivity].
Defined.

Lemma boss_dispatch_defeated (today : Z) (b : Boss) (user : User)
    (db db1 : DB) (d : Dispatched) :
  In b WEEKLY_BOSSES ->
  users_find_one (id user) db = Some user ->
  dispatch today (bs_id b) user None db = Ok d db1 ->
  bs_min_level b <= level user
  /\ exists u1, users_find_one (id user) db1 = Some u1
                /\ mem (bs_id b) (bosses_defeated u1) = true.
Proof.
  intros Hb Hu H.
  destruct (boss_lookup b Hb) as (Ef & _ & Ed & Eb).
  unfold dispatch in H. rewrite Ed, Eb, Ef in H.
  destruct (Z.ltb_spec (level user) (bs_min_level b)); [discriminate|].
  split; [assumption|].
  break_hyp H; injection H as _ <-;
    rewrite find_one_update_one, Hu; cbn [option_map];
    eexists; (split; [reflexivity|]); doc_simpl; apply mem_add_to_set.
Qed.

(** X6.  After a boss fight that succeeds, the next
    [GET /quests/weekly-boss] still lists the boss and flags it as already
    defeated. *)
Theorem defeated_boss_is_flagged (today : Z) (uid : string) (db db' : DB)
    (user : User) (b : Boss) (r : CompleteResponse) :
  users_find_one uid db = Some user ->
  In b WEEKLY_BOSSES ->
  daily_find_by_id (bs_id b) uid db = None ->
  complete_quest today (bs_id b) uid db = Ok r db' ->
  exists listing bq,
    get_weekly_boss uid db' = Ok listing db'
    /\ In bq listing
    /\ bq_id bq = bs_id b
    /\ bq_already_defeated bq = true.
Proof.
  intros Hu Hb Hnod H.
  destruct (complete_quest_user _ _ _ _ _ _ _ Hu H)
    as (d & db1 & u1 & aops & Hd & Hu1 & Ha & Hloop & Hfin).
  pose proof (find_one_id _ _ _ Hu) as Hid.
  assert (Hu' : users_find_one (id user) db = Some user)
    by (rewrite Hid; exact Hu).
  rewrite Hnod in Hd.
  destruct (boss_dispatch_defeated _ _ _ _ _ _ Hb Hu' Hd)
    as (Hlvl & u1' & Hu1' & Hmem).
  rewrite Hid, Hu1 in Hu1'. apply some_inj in Hu1'. subst u1'.
  apply level_up_loop_exit in Hloop. destruct Hloop as (_ & Hup & _).
  unfold get_weekly_boss, get_current_user. rewrite Hfin.
  eexists. eexists. split; [reflexivity|].
  split.
  - apply in_flat_map. exists b. split; [exact Hb|].
    rewrite (ach_ops_field level) by (reflexivity || assumption).
    doc_simpl.
    destruct (Z.leb_spec (bs_min_level b) (cr_new_level r)); [|lia].
    left. reflexivity.
  - cbn [bq_id bq_already_defeated].
    rewrite (ach_ops_field bosses_defeated) by (reflexivity || assumption).
    split; [reflexivity|]. exact Hmem.
Qed.

Lemma defeated_boss_is_flagged_witness :
  users_find_one "u1" db_recruit = Some recruit
  /\ In (mkBoss "boss_igris" 20 40 2000 1200 (Some "shadow_igris"))
        WEEKLY_BOSSES
  /\ daily_find_by_id "boss_igris" "u1" db_recruit = None
  /\ recruit_fight1 = Ok (response_of recruit_fight1) (db_of recruit_fight1)
  /\ exists listing bq,
       get_weekly_boss "u1" (db_of recruit_fight1)
       = Ok listing (db_of recruit_fight1)
       /\ In bq listing
       /\ bq_id bq = "boss_igris"
       /\ bq_already_defeated bq = true.
Proof.
  split; [reflexivity|]. split; [left; reflexivity|]. split; [reflexivity|].
  split; [vm_compute; reflexivity|].
  apply (defeated_boss_is_flagged 7 "u1" db_recruit (db_of recruit_fight1)
           recruit (mkBoss "boss_igris" 20 40 2000 1200 (Some "shadow_igris"))
           (response_of recruit_fight1));
    [reflexivity | left; reflexivity | reflexivity | vm_compute; reflexivity].
Defined.

(** ** Quests that can be completed only once *)

Lemma dispatch_none_daily_quests (today : Z) (q : string) (user : User)
    (db db1 : DB) (d : Dispatched) :
  dispatch today q user None db = Ok d db1 ->
  daily_quests db1 = daily_quests db.
Proof.
  intros H. unfold dispatch in H.
  break_hyp H; try discriminate; injection H as _ <-; reflexivity.
Qed.

(** A completion that is not one of a daily quest leaves the daily quests
    as they are. *)
Lemma complete_quest_other_keeps_daily (today : Z) (q uid : string)
    (db db' : DB) (r : CompleteResponse) :
  daily_find_by_id q uid db = None ->
  complete_quest today q uid db = Ok r db' ->
  daily_quests db' = daily_quests db.
Proof.
  intros Hnod H.
  destruct (complete_quest_stages _ _ _ _ _ _ H)
    as (user & d & db1 & aops & _ & Hd & _ & _ & _ & _ & ->).
  rewrite Hnod in Hd. apply dispatch_none_daily_quests in Hd.
  cbn [daily_quests users_update_one]. exact Hd.
Qed.

Lemma mission_prefixes (m : Mission) :
  In m SPECIAL_MISSIONS ->
  prefix "dungeon_" (ms_id m) = false
  /\ prefix "boss_" (ms_id m) = false
  /\ prefix "punishment_" (ms_id m) = false
  /\ prefix "mission_" (ms_id m) = true.
Proof.
  unfold SPECIAL_MISSIONS. cbn [In]. intros H.
  repeat (destruct H as [<-|H]; [repeat split; reflexivity|]).
  contradiction.
Qed.

Lemma mission_dispatch (today : Z) (m : Mission) (user : User) (db : DB) :
  In m SPECIAL_MISSIONS ->
  dispatch today (ms_id m) user None db
  = if mem (ms_id m) (special_missions_completed user)
    then Err 400 Quest_already_completed
    else
      match ms_shadow m with
      | Some shadow =>
          if truthy (ms_shadow m) && negb (mem shadow (shadows user))
          then Ok (mkDispatched (ms_exp m) (ms_gold m) 0 (Some shadow))
                  (users_update_one (id user)
                     [AddToSet_shadows shadow;
                      AddToSet_special_missions_completed (ms_id m)] db)
          else Ok (mkDispatched (ms_exp m) (ms_gold m) 0 None)
                  (users_update_one (id user)
                     [AddToSet_special_missions_completed (ms_id m)] db)
      | None =>
          Ok (mkDispatched (ms_exp m) (ms_gold m) 0 None)
             (users_update_one (id user)
                [AddToSet_special_missions_completed (ms_id m)] db)
      end.
Proof.
  intros Hm. destruct (mission_lookup m Hm) as (Ef & _).
  destruct (mission_prefixes m Hm) as (E1 & E2 & E3 & E4).
  unfold dispatch. rewrite E1, E2, E3, E4, Ef. reflexivity.
Qed.

(** X7.  A special mission of the catalog that the user has not completed
    can be completed whatever the user's level and whatever the mission
    requires: the completion pays the mission's experience and gold; any
    later attempt is refused with status 400. *)
Theorem mission_completes_once (today : Z) (uid : string) (db : DB)
    (user : User) (m : Mission) :
  users_find_one uid db = Some user ->
  In m SPECIAL_MISSIONS ->
  daily_find_by_id (ms_id m) uid db = None ->
  mem (ms_id m) (special_missions_completed user) = false ->
  exists r db',
    complete_quest today (ms_id m) uid db = Ok r db'
    /\ cr_exp_gained r = ms_exp m
    /\ cr_gold_gained r = ms_gold m
    /\ forall later,
         complete_quest later (ms_id m) uid db'
         = Err 400 Quest_already_completed.
Proof.
  intros Hu Hm Hnod Hnew. pose proof (find_one_id _ _ _ Hu) as Hid.
  assert (Hu' : users_find_one (id user) db = Some user)
    by (rewrite Hid; exact Hu).
  pose proof (mission_dispatch today m user db Hm) as Hd. rewrite Hnew in Hd.
  assert (Hok : exists d db1 u1,
             dispatch today (ms_id m) user None db = Ok d db1
             /\ d_exp_reward d = ms_exp m /\ d_gold_reward d = ms_gold m
             /\ users_find_one uid db1 = Some u1
             /\ mem (ms_id m) (special_missions_completed u1) = true).
  { destruct (ms_shadow m) as [s|];
      [destruct (truthy (Some s) && negb (mem s (shadows user)))|];
      eexists; eexists; eexists; (split; [exact Hd|]);
      (split; [reflexivity|]); (split; [reflexivity|]);
      rewrite <- Hid, find_one_update_one, Hu'; cbn [option_map];
      (split; [reflexivity|]); doc_simpl; apply mem_add_to_set. }
  destruct Hok as (d & db1 & u1 & Hdis & He & Hg & Hu1 & Hdone).
  rewrite <- Hnod in Hdis.
  destruct (complete_quest_of_dispatch _ _ _ _ _ _ _ Hu Hdis)
    as (r & db' & Hc & He' & Hg' & _).
  exists r, db'. split; [exact Hc|].
  split; [congruence|]. split; [congruence|].
  intros later.
  destruct (complete_quest_user _ _ _ _ _ _ _ Hu Hc)
    as (d2 & db2 & u2 & aops & Hd2 & Hu2 & Ha & _ & Hfin).
  rewrite Hdis in Hd2. apply ok_inj in Hd2. destruct Hd2 as [<- <-].
  rewrite Hu1 in Hu2. apply some_inj in Hu2. subst u2.
  apply (complete_quest_of_dispatch_err _ _ _ _ _ _ _ Hfin).
  assert (Hnod' : daily_find_by_id (ms_id m) uid db' = None).
  { unfold daily_find_by_id in *.
    rewrite (complete_quest_other_keeps_daily _ _ _ _ _ _ Hnod Hc).
    exact Hnod. }
  rewrite Hnod', mission_dispatch by exact Hm.
  rewrite (ach_ops_field special_missions_completed)
    by (reflexivity || assumption).
  change (special_missions_completed (apply_ops _ u1))
    with (special_missions_completed u1).
  rewrite Hdone. reflexivity.
Qed.

Lemma mission_completes_once_witness :
  users_find_one "u1" db_registered = Some hunter
  /\ In (mkMission "mission_ano_acero" 80 50000 30000 (Some "shadow_ashborn"))
        SPECIAL_MISSIONS
  /\ daily_find_by_id "mission_ano_acero" "u1" db_registered = None
  /\ mem "mission_ano_acero" (special_missions_completed hunter) = false
  /\ level hunter = 1
  /\ exists r db',
       complete_quest 1 "mission_ano_acero" "u1" db_registered = Ok r db'
       /\ cr_exp_gained r = 50000
       /\ cr_gold_gained r = 30000
       /\ forall later,
            complete_quest later "mission_ano_acero" "u1" db'
            = Err 400 Quest_already_completed.
Proof.
  assert (Hin : In (mkMission "mission_ano_acero" 80 50000 30000
                      (Some "shadow_ashborn")) SPECIAL_MISSIONS).
  { unfold SPECIAL_MISSIONS. apply in_rev. left. reflexivity. }
  split; [reflexivity|]. split; [exact Hin|]. split; [reflexivity|].
  split; [reflexivity|]. split; [reflexivity|].
  apply (mission_completes_once 1 "u1" db_registered hunter
           (mkMission "mission_ano_acero" 80 50000 30000
              (Some "shadow_ashborn")));
    [reflexivity | exact Hin | reflexivity | reflexivity].
Defined.

Lemma find_both {A : Type} (p1 p2 : A -> bool) (l : list A) (x : A) :
  find p1 l = Some x -> p2 x = true ->
  find (fun y => p1 y && p2 y) l = Some x.
Proof.
  induction l as [|y rest IH]; [discriminate|].
  cbn [find]. destruct (p1 y) eqn:E1; intros H H2.
  - apply some_inj in H. subst y. rewrite H2. reflexivity.
  - cbn [andb]. apply IH; assumption.
Qed.

Lemma find_update_first_same {A : Type} (p : A -> bool) (f : A -> A)
    (l : list A) (x : A) :
  (forall y, p (f y) = p y) ->
  find p l = Some x -> find p (update_first p f l) = Some (f x).
Proof.
  intros Hp H. rewrite find_update_first by exact Hp. rewrite H. reflexivity.
Qed.

(** X8.  A daily quest is completed at most once: when the stored quest
    with the given id is the user's, a completion that succeeds makes
    every later completion of that id fail with status 400. *)
Theorem daily_completes_once (today : Z) (qid uid : string) (db db' : DB)
    (user : User) (dq : DailyQuest) (r : CompleteResponse) :
  users_find_one uid db = Some user ->
  find (fun q => str_eqb (dq_id q) qid) (daily_quests db) = Some dq ->
  dq_user_id dq = uid ->
  complete_quest today qid uid db = Ok r db' ->
  forall later,
    complete_quest later qid uid db' = Err 400 Quest_already_completed.
Proof.
  intros Hu Hfind Hown H later.
  assert (Hdaily : daily_find_by_id qid uid db = Some dq).
  { unfold daily_find_by_id. apply find_both; [exact Hfind|].
    rewrite Hown. apply str_eqb_refl. }
  destruct (complete_quest_user _ _ _ _ _ _ _ Hu H)
    as (d & db1 & u1 & aops & Hd & Hu1 & Ha & _ & Hfin).
  destruct (complete_quest_stages _ _ _ _ _ _ H)
    as (user0 & d0 & db0 & aops0 & Hu0 & Hd0 & _ & _ & _ & _ & Edb).
  rewrite Hu in Hu0. apply some_inj in Hu0. subst user0.
  rewrite Hd in Hd0. apply ok_inj in Hd0. destruct Hd0 as [<- <-].
  apply (complete_quest_of_dispatch_err _ _ _ _ _ _ _ Hfin).
  assert (Hdq : daily_quests db'
                = update_first (fun q => str_eqb (dq_id q) qid)
                    set_is_completed (daily_quests db)).
  { rewrite Edb. cbn [daily_quests users_update_one].
    rewrite Hdaily in Hd. unfold dispatch in Hd.
    destruct (dq_is_completed dq); [discriminate|].
    apply ok_inj in Hd. destruct Hd as [_ <-]. reflexivity. }
  assert (Hdaily' : daily_find_by_id qid uid db' = Some (set_is_completed dq)).
  { unfold daily_find_by_id. rewrite Hdq. apply find_both.
    - apply find_update_first_same; [reflexivity | exact Hfind].
    - cbn [set_is_completed dq_user_id]. rewrite Hown. apply str_eqb_refl. }
  rewrite Hdaily'. reflexivity.
Qed.

Lemma daily_completes_once_witness :
  users_find_one "u1" db_daily = Some hunter
  /\ find (fun q => str_eqb (dq_id q) "q1") (daily_quests db_daily)
     = Some (nth 0 (daily_quests db_daily) (mkDaily "" "" 0 [] 0 0 "" false))
  /\ dq_user_id (nth 0 (daily_quests db_daily)
                   (mkDaily "" "" 0 [] 0 0 "" false)) = "u1"
  /\ daily_done = Ok (response_of daily_done) (db_of daily_done)
  /\ forall later,
       complete_quest later "q1" "u1" (db_of daily_done)
       = Err 400 Quest_already_completed.
Proof.
  split; [reflexivity|]. split; [reflexivity|]. split; [reflexivity|].
  split; [vm_compute; reflexivity|].
  apply (daily_completes_once 1 "q1" "u1" db_daily (db_of daily_done) hunter
           (nth 0 (daily_quests db_daily) (mkDaily "" "" 0 [] 0 0 "" false))
           (response_of daily_done));
    [reflexivity | reflexivity | reflexivity | vm_compute; reflexivity].
Defined.

(** ** The training timestamp *)

Lemma dispatch_none_training (today : Z) (q : string) (user : User)
    (db db1 : DB) (d : Dispatched) :
  users_find_one (id user) db = Some user ->
  dispatch today q user None db = Ok d db1 ->
  exists u1, users_find_one (id user) db1 = Some u1
             /\ training_start_time u1 = training_start_time user.
Proof.
  intros Hu H. unfold dispatch in H.
  break_hyp H; try discriminate; injection H as _ <-;
    rewrite find_one_update_one, Hu; cbn [option_map];
    eexists; (split; [reflexivity|]); reflexivity.
Qed.

(** X9.  [start_training] stores the clock reading; a completion of a
    daily quest clears it, a completion of any other kind of quest leaves
    it as it is. *)
Theorem training_timestamp_lifecycle (uid : string) (db : DB) (user : User) :
  users_find_one uid db = Some user ->
  (forall now q0, exists db1 u1,
      start_training now q0 uid db = Ok now db1
      /\ users_find_one uid db1 = Some u1
      /\ training_start_time u1 = Some now)
  /\ (forall today q db' r,
         complete_quest today q uid db = Ok r db' ->
         exists user',
           users_find_one uid db' = Some user'
           /\ (daily_find_by_id q uid db <> None ->
               training_start_time user' = None)
           /\ (daily_find_by_id q uid db = None ->
               training_start_time user' = training_start_time user)).
Proof.
  intros Hu. pose proof (find_one_id _ _ _ Hu) as Hid. split.
  - intros now q0. unfold start_training, get_current_user. rewrite Hu, Hid.
    eexists. eexists. split; [reflexivity|].
    rewrite find_one_update_one, Hu. split; reflexivity.
  - intros today q db' r H.
    destruct (complete_quest_user _ _ _ _ _ _ _ Hu H)
      as (d & db1 & u1 & aops & Hd & Hu1 & Ha & _ & Hfin).
    eexists. split; [exact Hfin|].
    rewrite (ach_ops_field training_start_time) by (reflexivity || assumption).
    change (training_start_time (apply_ops _ u1))
      with (training_start_time u1).
    assert (Hu' : users_find_one (id user) db = Some user)
      by (rewrite Hid; exact Hu).
    rewrite <- Hid in Hu1.
    destruct (daily_find_by_id q uid db) as [dq|] eqn:E.
    + split; [|discriminate]. intros _.
      rewrite (dispatch_daily _ _ _ _ _ _ _ Hu' Hd) in Hu1.
      apply some_inj in Hu1. subst u1. reflexivity.
    + split; [intros Hc; contradiction|]. intros _.
      destruct (dispatch_none_training _ _ _ _ _ _ Hu' Hd) as (u1' & Hu1' & Ht).
      rewrite Hu1 in Hu1'. apply some_inj in Hu1'. subst u1'. exact Ht.
Qed.

Lemma training_timestamp_lifecycle_witness :
  users_find_one "u1" db_registered = Some hunter
  /\ exists db1 u1,
       start_training 42 "q1" "u1" db_registered = Ok 42 db1
       /\ users_find_one "u1" db1 = Some u1
       /\ training_start_time u1 = Some 42.
Proof.
  split; [reflexivity|].
  apply (proj1 (training_timestamp_lifecycle "u1" db_registered hunter
                  eq_refl) 42 "q1").
Defined.

(** ** Punishments *)

Lemma find_app_last {A : Type} (p : A -> bool) (l : list A) (x : A) :
  forallb (fun y => negb (p y)) l = true -> p x = true ->
  find p (l ++ [x]) = Some x.
Proof.
  induction l as [|y rest IH]; cbn [forallb find app]; intros Hn Hx.
  - rewrite Hx. reflexivity.
  - apply andb_prop in Hn. destruct Hn as [Hy Hrest].
    apply negb_true_iff in Hy. rewrite Hy. apply IH; assumption.
Qed.

Lemma filter_app_last {A : Type} (p : A -> bool) (l : list A) (x : A) :
  forallb p l = true -> p x = false -> filter p (l ++ [x]) = l.
Proof.
  induction l as [|y rest IH]; cbn [forallb filter app]; intros Hn Hx.
  - rewrite Hx. reflexivity.
  - apply andb_prop in Hn. destruct Hn as [Hy Hrest].
    rewrite Hy, IH by assumption. reflexivity.
Qed.

(** X10.  The punishment a failure assigns can be worked off: when no
    pending punishment already has the drawn id, completing the assigned
    punishment pays the experience of its template and no gold, and leaves
    the pending list as it was before the failure. *)
Theorem punishment_round_trip (n : nat) (uuid : string) (now today : Z)
    (q uid : string) (db : DB) (user : User) :
  users_find_one uid db = Some user ->
  forallb (fun p => negb (str_eqb (pq_id p)
                            (String.append "punishment_" (substring 0 8 uuid))))
          (punishment_quests user) = true ->
  daily_find_by_id (String.append "punishment_" (substring 0 8 uuid)) uid db
  = None ->
  exists resp db1 r db2 user2 tpl,
    fail_quest n uuid now q uid db = Ok resp db1
    /\ In tpl PUNISHMENT_QUESTS
    /\ fr_punishment_assigned resp = pt_name tpl
    /\ complete_quest today (String.append "punishment_" (substring 0 8 uuid))
         uid db1 = Ok r db2
    /\ cr_exp_gained r = pt_exp tpl
    /\ cr_gold_gained r = 0
    /\ users_find_one uid db2 = Some user2
    /\ punishment_quests user2 = punishment_quests user.
Proof.
  intros Hu Hfresh Hnod. pose proof (find_one_id _ _ _ Hu) as Hid.
  set (pid := String.append "punishment_" (substring 0 8 uuid)) in *.
  set (tpl := random_choice n PUNISHMENT_QUESTS (mkPunishment "" [] 0)).
  assert (Hin : In tpl PUNISHMENT_QUESTS)
    by (apply random_choice_In; discriminate).
  set (pq := mkPQ pid (pt_name tpl) (pt_exercises tpl) (pt_exp tpl)
               "punishment" now).
  assert (Hfail : exists resp db1 u1,
             fail_quest n uuid now q uid db = Ok resp db1
             /\ fr_punishment_assigned resp = pt_name tpl
             /\ users_find_one uid db1 = Some u1
             /\ punishment_quests u1 = punishment_quests user ++ [pq]
             /\ daily_quests db1 = daily_quests db).
  { unfold fail_quest, get_current_user. rewrite Hu, Hid.
    destruct (0 <? streak_shields user);
      eexists; eexists; eexists; (split; [reflexivity|]);
      (split; [reflexivity|]);
      rewrite update_one_twice, find_one_update_one, Hu; cbn [option_map];
      (split; [reflexivity|]); split; reflexivity. }
  destruct Hfail as (resp & db1 & u1 & Hf & Hname & Hu1 & Hpq & Hdq).
  pose proof (find_one_id _ _ _ Hu1) as Hid1.
  assert (Hnod1 : daily_find_by_id pid uid db1 = None).
  { unfold daily_find_by_id in *. rewrite Hdq. exact Hnod. }
  assert (Hpre : prefix "dungeon_" pid = false /\ prefix "boss_" pid = false
                 /\ prefix "punishment_" pid = true).
  { subst pid. repeat split; try reflexivity.
    cbn. destruct (substring 0 8 uuid); reflexivity. }
  destruct Hpre as (E1 & E2 & E3).
  assert (Hd : dispatch today pid u1 (daily_find_by_id pid uid db1) db1
               = Ok (mkDispatched (pt_exp tpl) 0
                       (punishment_reps (pt_exercises tpl)) None)
                    (users_update_one (id u1) [Pull_punishment_quests pid] db1)).
  { rewrite Hnod1. unfold dispatch. rewrite E1, E2, E3, Hpq.
    rewrite find_app_last; [reflexivity| |apply str_eqb_refl].
    exact Hfresh. }
  destruct (complete_quest_of_dispatch _ _ _ _ _ _ _ Hu1 Hd)
    as (r & db2 & Hc & He & Hg & _).
  destruct (complete_quest_user _ _ _ _ _ _ _ Hu1 Hc)
    as (d2 & dbd & ud & aops & Hd2 & Hud & Ha & _ & Hfin).
  rewrite Hd in Hd2. apply ok_inj in Hd2. destruct Hd2 as [<- <-].
  rewrite Hid1, find_one_update_one, Hu1 in Hud. cbn [option_map] in Hud.
  apply some_inj in Hud.
  exists resp, db1, r, db2. eexists. exists tpl.
  split; [exact Hf|]. split; [exact Hin|]. split; [exact Hname|].
  split; [exact Hc|]. split; [exact He|]. split; [exact Hg|].
  split; [exact Hfin|].
  rewrite (ach_ops_field punishment_quests) by (reflexivity || assumption).
  change (punishment_quests (apply_ops _ ud)) with (punishment_quests ud).
  rewrite <- Hud. doc_simpl. rewrite Hpq.
  apply filter_app_last; [exact Hfresh|].
  cbn [pq pq_id]. rewrite str_eqb_refl. reflexivity.
Qed.

Lemma punishment_round_trip_witness :
  users_find_one "u1" db_registered = Some hunter
  /\ forallb (fun p => negb (str_eqb (pq_id p)
                (String.append "punishment_"
                   (substring 0 8 "0f8fad5b-d9cb-469f-a165-70867728950e"))))
       (punishment_quests hunter) = true
  /\ daily_find_by_id
       (String.append "punishment_"
          (substring 0 8 "0f8fad5b-d9cb-469f-a165-70867728950e"))
       "u1" db_registered = None
  /\ exists resp db1 r db2 user2 tpl,
       fail_quest 7 "0f8fad5b-d9cb-469f-a165-70867728950e" 99 "q1" "u1"
         db_registered = Ok resp db1
       /\ In tpl PUNISHMENT_QUESTS
       /\ fr_punishment_assigned resp = pt_name tpl
       /\ complete_quest 2
            (String.append "punishment_"
               (substring 0 8 "0f8fad5b-d9cb-469f-a165-70867728950e"))
            "u1" db1 = Ok r db2
       /\ cr_exp_gained r = pt_exp tpl
       /\ cr_gold_gained r = 0
       /\ users_find_one "u1" db2 = Some user2
       /\ punishment_quests user2 = punishment_quests hunter.
Proof.
  split; [reflexivity|]. split; [reflexivity|]. split; [reflexivity|].
  apply (punishment_round_trip 7 "0f8fad5b-d9cb-469f-a165-70867728950e" 99 2
           "q1" "u1" db_registered hunter); reflexivity.
Defined.

(** ** The shop *)

(** One purchase, as an update of the buyer's document. *)
Lemma buy_item_document (item_id uid : string) (db db' : DB) (user : User)
    (msg : string) :
  users_find_one uid db = Some user ->
  buy_item item_id uid db = Ok msg db' ->
  exists item,
    find (fun i => str_eqb (it_id i) item_id) SHOP_ITEMS = Some item
    /\ it_price item <= gold user
    /\ users_find_one uid db' = Some (apply_ops (purchase_ops item) user).
Proof.
  intros Hu H. pose proof (find_one_id _ _ _ Hu) as Hid.
  unfold buy_item, get_current_user in H. rewrite Hu, Hid in H.
  destruct (find _ SHOP_ITEMS) as [item|]; [|discriminate].
  destruct (Z.ltb_spec (gold user) (it_price item)); [discriminate|].
  apply ok_inj in H. destruct H as [_ <-].
  exists item. split; [reflexivity|]. split; [assumption|].
  rewrite find_one_update_one, Hu. reflexivity.
Qed.

Lemma shop_item_cases (item_id : string) (item : ShopItem) :
  find (fun i => str_eqb (it_id i) item_id) SHOP_ITEMS = Some item ->
  In item SHOP_ITEMS.
Proof. intros H. apply find_some in H. tauto. Qed.

(** X11.  A purchase that succeeds takes exactly the price from the gold,
    which stays non-negative, and leaves level, rank, streak and
    achievements as they are; a purchase is refused with 404 for an
    unknown item and with 400 when the gold is short. *)
Theorem purchase_accounting (item_id uid : string) (db : DB) (user : User) :
  users_find_one uid db = Some user ->
  match find (fun i => str_eqb (it_id i) item_id) SHOP_ITEMS with
  | None => buy_item item_id uid db = Err 404 Item_not_found
  | Some item =>
      if gold user <? it_price item
      then buy_item item_id uid db = Err 400 Insufficient_gold
      else exists db' user',
          buy_item item_id uid db = Ok (it_id item) db'
          /\ users_find_one uid db' = Some user'
          /\ gold user' = gold user - it_price item
          /\ 0 <= gold user'
          /\ level user' = level user
          /\ rank user' = rank user
          /\ streak user' = streak user
          /\ achievements user' = achievements user
  end.
Proof.
  intros Hu. pose proof (find_one_id _ _ _ Hu) as Hid.
  unfold buy_item, get_current_user. rewrite Hu, Hid.
  destruct (find _ SHOP_ITEMS) as [item|] eqn:Ef; [|reflexivity].
  destruct (Z.ltb_spec (gold user) (it_price item)) as [Hlt|Hge];
    [reflexivity|].
  eexists. eexists. split; [reflexivity|].
  rewrite find_one_update_one, Hu. cbn [option_map].
  split; [reflexivity|].
  apply shop_item_cases in Ef. revert Hge. unfold SHOP_ITEMS in Ef.
  cbn [In] in Ef.
  repeat (destruct Ef as [<-|Ef];
          [cbn; intros Hge; repeat split; lia|]).
  contradiction.
Qed.

Lemma purchase_accounting_witness :
  users_find_one "u1" db_registered = Some hunter
  /\ buy_item "potion_exp_1" "u1" db_registered = Err 400 Insufficient_gold.
Proof.
  split; [reflexivity|].
  apply (purchase_accounting "potion_exp_1" "u1" db_registered hunter).
  reflexivity.
Defined.

(** X12.  A streak shield bought in the shop protects the streak of the
    next failure: after buying [streak_protect] and then failing a quest,
    the streak and the number of shields are what they were before the
    purchase. *)
Theorem shield_protects_next_failure (n : nat) (uuid : string) (now : Z)
    (q uid : string) (db : DB) (user : User) :
  users_find_one uid db = Some user ->
  1500 <= gold user ->
  0 <= streak_shields user ->
  exists db1 resp db2 user2,
    buy_item "streak_protect" uid db = Ok "streak_protect" db1
    /\ fail_quest n uuid now q uid db1 = Ok resp db2
    /\ fr_streak_protected resp = true
    /\ users_find_one uid db2 = Some user2
    /\ streak user2 = streak user
    /\ streak_shields user2 = streak_shields user
    /\ gold user2 = gold user - 1500.
Proof.
  intros Hu Hgold Hsh. pose proof (find_one_id _ _ _ Hu) as Hid.
  assert (Hbuy : buy_item "streak_protect" uid db
                 = Ok "streak_protect"
                      (users_update_one uid
                         [Inc_gold (-1500); Inc_streak_shields 1] db)).
  { assert (Ef : find (fun i => str_eqb (it_id i) "streak_protect") SHOP_ITEMS
                 = Some (mkItem "streak_protect" 1500 "consumable"
                           (effect_shield 1))) by reflexivity.
    unfold buy_item, get_current_user. rewrite Hu, Hid, Ef.
    cbn [it_price it_id].
    destruct (Z.ltb_spec (gold user) 1500); [lia|]. reflexivity. }
  exists (users_update_one uid [Inc_gold (-1500); Inc_streak_shields 1] db).
  assert (Hu1 : users_find_one uid
                  (users_update_one uid
                     [Inc_gold (-1500); Inc_streak_shields 1] db)
                = Some (apply_ops [Inc_gold (-1500); Inc_streak_shields 1] user))
    by (rewrite find_one_update_one, Hu; reflexivity).
  unfold fail_quest, get_current_user. rewrite Hu1.
  cbn [id apply_ops fold_left apply_op with_gold with_streak_shields
       streak_shields experience].
  rewrite Hid.
  destruct (Z.ltb_spec 0 (streak_shields user + 1)); [|lia].
  eexists. eexists. eexists. split; [exact Hbuy|]. split; [reflexivity|].
  split; [reflexivity|].
  rewrite !update_one_twice, find_one_update_one, Hu. cbn [option_map].
  split; [reflexivity|]. doc_simpl. repeat split; lia.
Qed.

Lemma shield_protects_next_failure_witness :
  users_find_one "u1" db_rich = Some rich_hunter
  /\ 1500 <= gold rich_hunter
  /\ 0 <= streak_shields rich_hunter
  /\ exists db1 resp db2 user2,
       buy_item "streak_protect" "u1" db_rich = Ok "streak_protect" db1
       /\ fail_quest 3 "0f8fad5b-d9cb-469f-a165-70867728950e" 5 "q1" "u1" db1
          = Ok resp db2
       /\ fr_streak_protected resp = true
       /\ users_find_one "u1" db2 = Some user2
       /\ streak user2 = streak rich_hunter
       /\ streak_shields user2 = streak_shields rich_hunter
       /\ gold user2 = gold rich_hunter - 1500.
Proof.
  split; [reflexivity|]. split; [vm_compute; discriminate|].
  split; [vm_compute; discriminate|].
  apply (shield_protects_next_failure 3 "0f8fad5b-d9cb-469f-a165-70867728950e"
           5 "q1" "u1" db_rich rich_hunter);
    [reflexivity | vm_compute; discriminate | vm_compute; discriminate].
Defined.

(** ** Stat points *)

Lemma inc_stat_total (name : string) (d : Z) (s : Stats) :
  mem name ["strength"; "endurance"; "agility"; "vitality"] = true ->
  strength (inc_stat name d s) + endurance (inc_stat name d s)
  + agility (inc_stat name d s) + vitality (inc_stat name d s)
  = strength s + endurance s + agility s + vitality s + d.
Proof.
  intros H. destruct (stat_name_cases name H) as [-> | [-> | [-> | ->]]];
    cbn; lia.
Qed.

(** X13.  [upgrade_stat] moves points between the pool and one stat and
    creates none: whenever it succeeds, the sum of the four stats and the
    unallocated points is what it was; it is refused with status 400 when
    the pool is short and, after that test, when the stat name is not one
    of the four. *)
Theorem upgrade_stat_conserves_points (stat_name : string) (points : Z)
    (uid : string) (db : DB) (user : User) :
  users_find_one uid db = Some user ->
  (stat_points user < points ->
   upgrade_stat stat_name points uid db = Err 400 Insufficient_stat_points)
  /\ (points <= stat_points user ->
      mem stat_name ["strength"; "endurance"; "agility"; "vitality"] = false ->
      upgrade_stat stat_name points uid db = Err 400 Invalid_stat)
  /\ (forall unlocked db',
         upgrade_stat stat_name points uid db = Ok unlocked db' ->
         exists user',
           users_find_one uid db' = Some user'
           /\ stat_total user' = stat_total user
           /\ get_stat stat_name (stats user')
              = get_stat stat_name (stats user) + points).
Proof.
  intros Hu. pose proof (find_one_id _ _ _ Hu) as Hid.
  unfold upgrade_stat, get_current_user. rewrite Hu, Hid.
  split; [|split].
  - intros H. destruct (Z.ltb_spec (stat_points user) points); [|lia].
    reflexivity.
  - intros H Hname. destruct (Z.ltb_spec (stat_points user) points); [lia|].
    rewrite Hname. reflexivity.
  - intros unlocked db' H.
    destruct (stat_points user <? points); [discriminate|].
    destruct (mem stat_name _) eqn:Hname; [|discriminate]. cbn [negb] in H.
    match type of H with
    | context [let (_, _) := ?m ?d in _] =>
        assert (Hach : ach_only uid m)
          by (rewrite <- Hid; ach_only_cases);
        destruct (Hach d) as (aops & Ha & Ea);
        destruct (m d) as [unlocked' db2]
    end.
    cbn [snd] in Ea. subst db2. apply ok_inj in H. destruct H as [_ <-].
    rewrite update_one_twice, find_one_update_one, Hu. cbn [option_map].
    eexists. split; [reflexivity|].
    rewrite apply_ops_app. unfold stat_total.
    rewrite (ach_ops_field stats), (ach_ops_field stat_points)
      by (reflexivity || assumption).
    doc_simpl. rewrite inc_stat_total, get_inc_stat by assumption. lia.
Qed.

Lemma upgrade_stat_conserves_points_witness :
  users_find_one "u1" db_registered = Some hunter
  /\ stat_points hunter < 1
  /\ upgrade_stat "strength" 1 "u1" db_registered
     = Err 400 Insufficient_stat_points.
Proof.
  split; [reflexivity|]. split; [reflexivity|].
  apply (proj1 (upgrade_stat_conserves_points "strength" 1 "u1"
                  db_registered hunter eq_refl)).
  reflexivity.
Defined.

(** ** Registration *)

Lemma existsb_app_last {A : Type} (p : A -> bool) (l : list A) (x : A) :
  p x = true -> existsb p (l ++ [x]) = true.
Proof.
  intros H. rewrite existsb_app. cbn. rewrite H.
  rewrite orb_true_r. reflexivity.
Qed.

Lemma find_app_fresh {A : Type} (p : A -> bool) (l : list A) (x : A) :
  find p l = None -> p x = true -> find p (l ++ [x]) = Some x.
Proof.
  induction l as [|y rest IH]; cbn [find app]; intros Hn Hx.
  - rewrite Hx. reflexivity.
  - destruct (p y); [discriminate|]. apply IH; assumption.
Qed.

(** X14.  A registration that succeeds appends one document and keeps the
    others; the new hunter can be looked up when the drawn id is not in
    use; and from then on the same email, or the same hunter name under
    another email, is refused with status 400. *)
Theorem register_once (user_id password_hash : string) (now : Z)
    (email_ hunter_ : string) (db db' : DB) (payload : string * string) :
  register user_id password_hash now email_ hunter_ db = Ok payload db' ->
  users db'
  = users db ++ [new_user user_id password_hash now email_ hunter_]
  /\ daily_quests db' = daily_quests db
  /\ (users_find_one user_id db = None ->
      users_find_one user_id db'
      = Some (new_user user_id password_hash now email_ hunter_))
  /\ (forall id2 hash2 now2 name2,
         register id2 hash2 now2 email_ name2 db' = Err 400 Email_registered)
  /\ (forall id2 hash2 now2 email2,
         existsb (fun u => str_eqb (email u) email2) (users db') = false ->
         register id2 hash2 now2 email2 hunter_ db'
         = Err 400 Hunter_name_exists).
Proof.
  unfold register. intros H.
  destruct (existsb _ (users db)) eqn:E1; [discriminate|].
  destruct (existsb (fun u => str_eqb (hunter_name u) hunter_) (users db))
    eqn:E2; [discriminate|].
  apply ok_inj in H. destruct H as [_ <-]. cbn [users daily_quests].
  split; [reflexivity|]. split; [reflexivity|]. split; [|split].
  - intros Hnone. unfold users_find_one in *. cbn [users].
    apply find_app_fresh; [exact Hnone|]. apply str_eqb_refl.
  - intros id2 hash2 now2 name2.
    rewrite existsb_app_last; [reflexivity|]. apply str_eqb_refl.
  - intros id2 hash2 now2 email2 Hnew. rewrite Hnew.
    rewrite existsb_app_last; [reflexivity|]. apply str_eqb_refl.
Qed.

Lemma register_once_witness :
  register "u1" "hash" 0 "hunter@example.org" "Jinwoo" (mkDB [] [])
  = Ok ("u1", "Jinwoo") db_registered
  /\ users db_registered = [] ++ [hunter]
  /\ forall id2 hash2 now2 name2,
       register id2 hash2 now2 "hunter@example.org" name2 db_registered
       = Err 400 Email_registered.
Proof.
  split; [reflexivity|].
  destruct (register_once "u1" "hash" 0 "hunter@example.org" "Jinwoo"
              (mkDB [] []) db_registered ("u1", "Jinwoo") eq_refl)
    as (H1 & _ & _ & H2 & _).
  split; [exact H1 | exact H2].
Defined.

(** ** The collections of a hunter *)

Lemma add_to_set_NoDup (x : string) (l : list string) :
  NoDup l -> NoDup (add_to_set x l).
Proof.
  intros H. unfold add_to_set. destruct (mem x l) eqn:E; [exact H|].
  apply NoDup_app; [exact H | repeat constructor; intros [] |].
  intros y Hy [<-|[]]. apply mem_In in Hy. congruence.
Qed.

Lemma add_to_set_incl (x : string) (l : list string) :
  incl l (add_to_set x l).
Proof.
  unfold add_to_set. destruct (mem x l); [apply incl_refl|].
  apply incl_appl, incl_refl.
Qed.

Lemma apply_op_NoDup (op : UpdateOp) (u : User) :
  collections_ok u -> collections_ok (apply_op op u).
Proof.
  intros (H1 & H2 & H3 & H4).
  destruct op; cbn [apply_op]; unfold collections_ok; doc_simpl;
    repeat split;
    first [ assumption | apply add_to_set_NoDup; assumption ].
Qed.

Lemma apply_op_grow (op : UpdateOp) (u : User) :
  collections_grow u (apply_op op u).
Proof.
  destruct op; cbn [apply_op]; unfold collections_grow; doc_simpl;
    repeat split;
    first [ apply incl_refl | apply add_to_set_incl ].
Qed.

Lemma apply_ops_NoDup (ops : list UpdateOp) :
  forall u, collections_ok u -> collections_ok (apply_ops ops u).
Proof.
  unfold apply_ops.
  induction ops as [|op ops IH]; intros u Hu; cbn [fold_left];
    [exact Hu|].
  apply IH, apply_op_NoDup, Hu.
Qed.

Lemma apply_ops_grow (ops : list UpdateOp) :
  forall u, collections_grow u (apply_ops ops u).
Proof.
  unfold apply_ops.
  induction ops as [|op ops IH]; intros u; cbn [fold_left].
  - repeat split; apply incl_refl.
  - destruct (apply_op_grow op u) as (g1 & g2 & g3 & g4).
    destruct (IH (apply_op op u)) as (k1 & k2 & k3 & k4).
    repeat split; eapply incl_tran; eassumption.
Qed.

(** X15.  A completion never removes an achievement, a shadow, a defeated
    boss or a completed mission, and never stores one of them twice: lists
    without repetition stay so, and each old entry is kept. *)
Theorem completion_keeps_collections (today : Z) (q uid : string)
    (db db' : DB) (r : CompleteResponse) (user : User) :
  users_find_one uid db = Some user ->
  collections_ok user ->
  complete_quest today q uid db = Ok r db' ->
  exists user',
    users_find_one uid db' = Some user'
    /\ collections_ok user'
    /\ collections_grow user user'.
Proof.
  intros Hu Hok H.
  destruct (complete_quest_document _ _ _ _ _ _ _ Hu H)
    as (d & db1 & dops & _ & _ & _ & Hfin).
  eexists. split; [exact Hfin|].
  rewrite <- !apply_ops_app.
  split; [apply apply_ops_NoDup; exact Hok | apply apply_ops_grow].
Qed.

Lemma completion_keeps_collections_witness :
  users_find_one "u1" db_veteran = Some veteran
  /\ collections_ok veteran
  /\ veteran_fight = Ok (response_of veteran_fight) (db_of veteran_fight)
  /\ exists user',
       users_find_one "u1" (db_of veteran_fight) = Some user'
       /\ collections_ok user'
       /\ collections_grow veteran user'.
Proof.
  assert (Hok : collections_ok veteran).
  { unfold collections_ok. cbn.
    repeat split; repeat constructor; intros []. }
  split; [reflexivity|]. split; [exact Hok|].
  split; [vm_compute; reflexivity|].
  apply (completion_keeps_collections 7 "boss_igris" "u1" db_veteran
           (db_of veteran_fight) (response_of veteran_fight) veteran);
    [reflexivity | exact Hok | vm_compute; reflexivity].
Defined.

(** ** Reported achievements are stored *)

Lemma cat_ret (acc : list Achievement) (db : DB) :
  Forall in_catalog acc -> Forall in_catalog (fst (ret acc db)).
Proof. intros H. exact H. Qed.

Lemma cat_bind (m : M (list Achievement))
    (k : list Achievement -> M (list Achievement)) (db : DB) :
  Forall in_catalog (fst (m db)) ->
  (forall acc db', Forall in_catalog acc -> Forall in_catalog (fst (k acc db'))) ->
  Forall in_catalog (fst (bind m k db)).
Proof.
  intros Hm Hk. unfold bind. destruct (m db) as [a1 db1]. apply Hk. exact Hm.
Qed.

Lemma cat_unlock_when (c : bool) (uid aid : string)
    (acc : list Achievement) (db : DB) :
  Forall in_catalog acc ->
  Forall in_catalog (fst (unlock_when c uid aid acc db)).
Proof.
  intros Hacc. unfold unlock_when. destruct c; [|exact Hacc].
  unfold bind, unlock_achievement, ret.
  destruct (find _ ACHIEVEMENTS) as [a|] eqn:E; cbn [fst]; [|exact Hacc].
  apply Forall_app. split; [exact Hacc|].
  constructor; [|constructor]. apply find_some in E. exact (proj1 E).
Qed.

Lemma cat_thresholds (value : Z) (table : list (Z * string)) (user : User) :
  forall acc db,
    Forall in_catalog acc ->
    Forall in_catalog (fst (unlock_thresholds value table user acc db)).
Proof.
  induction table as [|[t a] rest IH]; intros acc db Hacc;
    cbn [unlock_thresholds].
  - exact Hacc.
  - apply cat_bind; [apply cat_unlock_when; exact Hacc|].
    intros acc' db' Hacc'. apply IH. exact Hacc'.
Qed.

Ltac cat_cases :=
  repeat first
    [ assumption
    | apply Forall_nil
    | apply cat_unlock_when
    | apply cat_thresholds
    | apply cat_ret
    | apply cat_bind; [|intros ? ? ?]
    | match goal with
      | |- Forall _ (fst ((if ?c then _ else _) _)) => destruct c
      | |- Forall _ (fst (match ?o with Some _ => _ | None => _ end _)) =>
          destruct o
      | |- Forall _ (fst ((let (_, _) := ?x in _) _)) => destruct x
      end ].

Lemma cat_check_achievements (q : string) (user : User) (is_daily : bool)
    (new_level new_total_reps quests_completed_ : Z)
    (shadow_earned : option string) (db : DB) :
  Forall in_catalog
    (fst (check_achievements q user is_daily new_level new_total_reps
            quests_completed_ shadow_earned db)).
Proof.
  unfold check_achievements, quest_checks, dungeon_checks, boss_checks,
    shadow_checks.
  cbv zeta. cat_cases.
Qed.

Lemma complete_quest_reports_catalog (today : Z) (q uid : string)
    (db db' : DB) (r : CompleteResponse) :
  complete_quest today q uid db = Ok r db' ->
  Forall in_catalog (cr_achievements_unlocked r).
Proof.
  intros H. unfold complete_quest in H.
  destruct (get_current_user uid db) as [user|]; [|discriminate].
  destruct (dispatch _ _ _ _ _) as [d db1|]; [|discriminate].
  destruct (level_up_loop _ _ _) as [[e l] p].
  match type of H with
  | context [check_achievements ?a ?b ?c ?d ?e ?f ?g ?h] =>
      pose proof (cat_check_achievements a b c d e f g h) as Hc;
      destruct (check_achievements a b c d e f g h) as [achs db3]
  end.
  apply ok_inj in H. destruct H as [<- _]. exact Hc.
Qed.

Lemma reward_ops_stored (unlocked : list Achievement) (a : Achievement) :
  forall u,
    In a unlocked ->
    In (ach_id a) (achievements (apply_ops (reward_ops unlocked) u)).
Proof.
  induction unlocked as [|x rest IH]; intros u Hin; [contradiction|].
  change (reward_ops (x :: rest))
    with ([AddToSet_achievements (ach_id x); Inc_gold (reward_gold x)]
            ++ reward_ops rest).
  rewrite apply_ops_app. destruct Hin as [->|Hin]; [|apply IH; exact Hin].
  apply (proj1 (apply_ops_grow (reward_ops rest) _)).
  cbn. doc_simpl. apply mem_In, mem_add_to_set.
Qed.

(** X16.  Every achievement a completion reports is an entry of the
    catalog, its id is in the stored achievement list afterwards, and the
    next [GET /achievements] shows that entry as unlocked.  Before the
    completion it was shown as locked, unless it is one of the two
    counter-guarded ids. *)
Theorem reported_achievement_is_shown (today : Z) (q uid : string)
    (db db' : DB) (r : CompleteResponse) (user : User) (a : Achievement) :
  users_find_one uid db = Some user ->
  complete_quest today q uid db = Ok r db' ->
  In a (cr_achievements_unlocked r) ->
  (exists user',
     users_find_one uid db' = Some user'
     /\ In (ach_id a) (achievements user'))
  /\ (exists listing,
        get_achievements uid db' = Ok listing db' /\ In (a, true) listing)
  /\ (exists listing,
        get_achievements uid db = Ok listing db
        /\ (In (a, false) listing
            \/ ach_id a = "first_quest" \/ ach_id a = "shadow_first")).
Proof.
  intros Hu H Hin.
  pose proof (complete_quest_reports_catalog _ _ _ _ _ _ H) as Hcat.
  rewrite Forall_forall in Hcat. specialize (Hcat a Hin).
  destruct (complete_quest_rewards _ _ _ _ _ _ _ Hu H)
    as (d & db1 & u1 & _ & _ & Hfin & Hown & _).
  rewrite Forall_forall in Hown. specialize (Hown a Hin).
  pose proof (reward_ops_stored _ a
                (apply_ops
                   [Set_experience (cr_new_exp r); Set_level (cr_new_level r);
                    Set_rank (cr_new_rank r); Inc_gold (d_gold_reward d);
                    Inc_stat_points (cr_stat_points_gained r);
                    Inc_quests_completed 1;
                    Inc_total_reps (d_total_reps_gained d)] u1) Hin)
    as Hst.
  split; [eexists; split; [exact Hfin | exact Hst]|].
  split.
  - unfold get_achievements, get_current_user. rewrite Hfin.
    eexists. split; [reflexivity|]. apply in_map_iff. exists a.
    split; [|exact Hcat]. apply mem_In in Hst. rewrite Hst. reflexivity.
  - unfold get_achievements, get_current_user. rewrite Hu.
    eexists. split; [reflexivity|].
    destruct Hown as [Hown|Hown]; [left|right; exact Hown].
    apply in_map_iff. exists a. split; [|exact Hcat].
    rewrite Hown. reflexivity.
Qed.

Lemma reported_achievement_is_shown_witness :
  users_find_one "u1" db_registered = Some hunter
  /\ first_dungeon = Ok (response_of first_dungeon) (db_of first_dungeon)
  /\ In (mkAch "dungeon_first" 100 "dungeon")
        (cr_achievements_unlocked (response_of first_dungeon))
  /\ exists listing,
       get_achievements "u1" (db_of first_dungeon)
       = Ok listing (db_of first_dungeon)
       /\ In (mkAch "dungeon_first" 100 "dungeon", true) listing.
Proof.
  split; [reflexivity|]. split; [vm_compute; reflexivity|].
  split; [vm_compute; auto|].
  refine (proj1 (proj2 (reported_achievement_is_shown 1
           "dungeon_prueba_novato" "u1" db_registered (db_of first_dungeon)
           (response_of first_dungeon) hunter
           (mkAch "dungeon_first" 100 "dungeon") _ _ _)));
    [reflexivity | vm_compute; reflexivity | vm_compute; auto].
Defined.

(** ** The profile after a completion *)

Lemma stats_le_refl (a : Stats) : stats_le a a.
Proof. unfold stats_le. lia. Qed.

Lemma add_shadow_bonus_le (acc : Stats) (s : string) :
  stats_le acc (add_shadow_bonus acc s).
Proof.
  unfold add_shadow_bonus.
  destruct (dict_get s SHADOW_STAT_BONUS) as [bonus|] eqn:E;
    [|apply stats_le_refl].
  apply dict_get_In in E. unfold SHADOW_STAT_BONUS in E. cbn [In] in E.
  repeat (destruct E as [E|E];
          [injection E as _ <-; unfold stats_le; cbn; lia|]).
  contradiction.
Qed.

Lemma shadow_bonuses_snoc (owned : list string) (s : string) :
  shadow_bonuses_of (owned ++ [s])
  = add_shadow_bonus (shadow_bonuses_of owned) s.
Proof. unfold shadow_bonuses_of. rewrite fold_left_app. reflexivity. Qed.

Lemma complete_quest_exp_to_next (today : Z) (q uid : string) (db db' : DB)
    (r : CompleteResponse) :
  complete_quest today q uid db = Ok r db' ->
  cr_exp_to_next r = calculate_exp_needed (cr_new_level r).
Proof.
  intros H. unfold complete_quest in H.
  destruct (get_current_user uid db) as [user|]; [|discriminate].
  destruct (dispatch _ _ _ _ _) as [d db1|]; [|discriminate].
  destruct (level_up_loop _ _ _) as [[e l] p].
  destruct (check_achievements _ _ _ _ _ _ _ _) as [achs db3].
  apply ok_inj in H. destruct H as [<- _]. reflexivity.
Qed.

(** X17.  The profile read after a successful completion agrees with the
    completion's response on level, experience and [exp_to_next], shows
    the experience below [exp_to_next], and its shadow bonuses are those
    of the profile before, plus the bonus of the one shadow the completion
    added if it added one; no bonus goes down. *)
Theorem profile_after_completion (today : Z) (q uid : string) (db db' : DB)
    (r : CompleteResponse) (user : User) :
  users_find_one uid db = Some user ->
  complete_quest today q uid db = Ok r db' ->
  exists p p',
    get_profile uid db = Ok p db
    /\ get_profile uid db' = Ok p' db'
    /\ level (pf_document p') = cr_new_level r
    /\ experience (pf_document p') = cr_new_exp r
    /\ pf_exp_to_next p' = cr_exp_to_next r
    /\ experience (pf_document p') < pf_exp_to_next p'
    /\ (pf_shadow_bonuses p' = pf_shadow_bonuses p
        \/ exists s,
             shadows (pf_document p') = shadows user ++ [s]
             /\ pf_shadow_bonuses p'
                = add_shadow_bonus (pf_shadow_bonuses p) s)
    /\ stats_le (pf_shadow_bonuses p) (pf_shadow_bonuses p').
Proof.
  intros Hu H.
  destruct (complete_quest_progress _ _ _ _ _ _ _ Hu H)
    as (Hlt & _ & _ & user' & Hu' & Hexp & Hlvl & _).
  destruct (complete_quest_shadows _ _ _ _ _ _ _ Hu H)
    as (user'' & Hu'' & Hsh).
  rewrite Hu' in Hu''. apply some_inj in Hu''. subst user''.
  pose proof (complete_quest_exp_to_next _ _ _ _ _ _ H) as Hnext.
  unfold get_profile, get_current_user. rewrite Hu, Hu'.
  eexists. eexists. split; [reflexivity|]. split; [reflexivity|].
  cbn [pf_document pf_exp_to_next pf_shadow_bonuses].
  split; [exact Hlvl|]. split; [exact Hexp|].
  split; [rewrite Hlvl, Hnext; reflexivity|].
  split; [rewrite Hexp, Hlvl; exact Hlt|].
  destruct Hsh as [E|(s & E & _)]; rewrite E.
  - split; [left; reflexivity | apply stats_le_refl].
  - rewrite shadow_bonuses_snoc. split; [|apply add_shadow_bonus_le].
    right. exists s. split; reflexivity.
Qed.

Lemma profile_after_completion_witness :
  users_find_one "u1" db_recruit = Some recruit
  /\ recruit_fight1 = Ok (response_of recruit_fight1) (db_of recruit_fight1)
  /\ exists p p',
       get_profile "u1" db_recruit = Ok p db_recruit
       /\ get_profile "u1" (db_of recruit_fight1)
          = Ok p' (db_of recruit_fight1)
       /\ level (pf_document p') = cr_new_level (response_of recruit_fight1)
       /\ experience (pf_document p')
          = cr_new_exp (response_of recruit_fight1)
       /\ pf_exp_to_next p' = cr_exp_to_next (response_of recruit_fight1)
       /\ experience (pf_document p') < pf_exp_to_next p'
       /\ (pf_shadow_bonuses p' = pf_shadow_bonuses p
           \/ exists s,
                shadows (pf_document p') = shadows recruit ++ [s]
                /\ pf_shadow_bonuses p'
                   = add_shadow_bonus (pf_shadow_bonuses p) s)
       /\ stats_le (pf_shadow_bonuses p) (pf_shadow_bonuses p').
Proof.
  split; [reflexivity|]. split; [vm_compute; reflexivity|].
  apply (profile_after_completion 7 "boss_igris" "u1" db_recruit
           (db_of recruit_fight1) (response_of recruit_fight1) recruit);
    [reflexivity | vm_compute; reflexivity].
Defined.

(** ** Guilds *)

Lemma find_one_set_guild_id (uid : string) (v : option string) (db : DB) :
  users_find_one uid (users_set_guild_id uid v db)
  = option_map (with_guild_id v) (users_find_one uid db).
Proof.
  unfold users_find_one, users_set_guild_id. cbn [users].
  apply find_update_first. reflexivity.
Qed.

Lemma unlock_when_db (c : bool) (uid aid : string) (db : DB) :
  exists unlocked,
    snd (unlock_when c uid aid [] db)
    = users_update_one uid (reward_ops unlocked) db.
Proof.
  destruct (tracked_unlock_when uid (fun _ => True) c aid []
              (fun _ => I) db) as (unlocked & _ & H & _).
  exists unlocked. exact H.
Qed.

Lemma filter_not_in (uid : string) (l : list string) :
  ~ In uid l -> filter (fun m => negb (str_eqb m uid)) l = l.
Proof.
  induction l as [|x rest IH]; intros H; [reflexivity|].
  cbn [filter]. destruct (str_eqb x uid) eqn:E.
  - apply str_eqb_eq in E. subst x. exfalso. apply H. left. reflexivity.
  - cbn [negb]. rewrite IH; [reflexivity|].
    intros Hin. apply H. right. exact Hin.
Qed.

Lemma filter_members_snoc (uid : string) (l : list string) :
  ~ In uid l -> filter (fun m => negb (str_eqb m uid)) (l ++ [uid]) = l.
Proof.
  intros H. rewrite filter_app, filter_not_in by exact H.
  cbn [filter]. rewrite str_eqb_refl. cbn [negb]. apply app_nil_r.
Qed.

Lemma truthy_some (gid : string) (v : option string) :
  v = Some gid -> truthy (Some gid) = true -> truthy v = true.
Proof. intros -> H. exact H. Qed.

(** X18.  Joining a guild and leaving it again is a round trip for the
    member list and the member count; the total level is lowered by the
    level the user has when leaving, not by the level that was added when
    joining, so it is off by exactly the levels gained in between. *)
Theorem guild_join_leave_round_trip (gid uid : string) (w : World)
    (user : User) (g : Guild) :
  users_find_one uid (w_db w) = Some user ->
  truthy (guild_id user) = false ->
  guilds_find_one gid w = Some g ->
  truthy (Some gid) = true ->
  g_leader_id g <> uid ->
  ~ In uid (g_members g) ->
  exists w1 u1 g1,
    join_guild gid uid w = GOk (g_name g) w1
    /\ users_find_one uid (w_db w1) = Some u1
    /\ guild_id u1 = Some gid
    /\ level u1 = level user
    /\ guilds_find_one gid w1 = Some g1
    /\ g_members g1 = g_members g ++ [uid]
    /\ g_member_count g1 = g_member_count g + 1
    /\ g_total_level g1 = g_total_level g + level user
    /\ forall db2 u2,
         users_find_one uid db2 = Some u2 ->
         guild_id u2 = Some gid ->
         exists w2 g2,
           leave_guild uid (mkWorld db2 (w_guilds w1)) = GOk tt w2
           /\ guilds_find_one gid w2 = Some g2
           /\ g_members g2 = g_members g
           /\ g_member_count g2 = g_member_count g
           /\ g_total_level g2 = g_total_level g + level user - level u2
           /\ users_find_one uid (w_db w2) = Some (with_guild_id None u2).
Proof.
  intros Hu Hfree Hg Hgid Hlead Hnew.
  pose proof (find_one_id _ _ _ Hu) as Hid.
  unfold join_guild, get_current_user. rewrite Hu, Hfree, Hg, Hid.
  destruct (unlock_when_db (negb (mem "guild_join" (achievements user)))
              uid "guild_join" (users_set_guild_id uid (Some gid) (w_db w)))
    as (unlocked & Hdb).
  rewrite Hdb.
  eexists. eexists. eexists. split; [reflexivity|]. cbn [w_db w_guilds].
  split.
  { rewrite find_one_update_one, find_one_set_guild_id, Hu. reflexivity. }
  split; [rewrite (reward_ops_field guild_id) by reflexivity; reflexivity|].
  split; [rewrite (reward_ops_field level) by reflexivity; reflexivity|].
  split.
  { unfold guilds_find_one. cbn [w_guilds].
    rewrite find_update_first by reflexivity.
    fold (guilds_find_one gid w). rewrite Hg. reflexivity. }
  cbn [guild_add_member g_members g_member_count g_total_level].
  split; [reflexivity|]. split; [reflexivity|]. split; [reflexivity|].
  intros db2 u2 Hu2 Hg2.
  pose proof (find_one_id _ _ _ Hu2) as Hid2.
  unfold leave_guild, get_current_user. cbn [w_db]. rewrite Hu2, Hg2.
  rewrite Hgid. cbn [negb].
  unfold guilds_find_one at 1. cbn [w_guilds].
  rewrite find_update_first by reflexivity.
  fold (guilds_find_one gid w). rewrite Hg. cbn [option_map].
  cbn [guild_add_member g_leader_id]. rewrite Hid2.
  destruct (str_eqb (g_leader_id g) uid) eqn:El;
    [apply str_eqb_eq in El; contradiction|].
  eexists. eexists. split; [reflexivity|]. cbn [w_db w_guilds].
  split.
  { unfold guilds_find_one. cbn [w_guilds].
    rewrite update_first_twice by reflexivity.
    rewrite find_update_first by reflexivity.
    fold (guilds_find_one gid w). rewrite Hg. reflexivity. }
  cbn [guild_add_member guild_remove_member g_members g_member_count
       g_total_level].
  split; [apply filter_members_snoc; exact Hnew|].
  split; [lia|]. split; [lia|].
  rewrite find_one_set_guild_id, Hu2. reflexivity.
Qed.

Lemma guild_join_leave_round_trip_witness :
  users_find_one "u1" (w_db world_one_guild) = Some hunter
  /\ truthy (guild_id hunter) = false
  /\ guilds_find_one "g1" world_one_guild = Some guild_one
  /\ truthy (Some "g1") = true
  /\ g_leader_id guild_one <> "u1"
  /\ ~ In "u1" (g_members guild_one)
  /\ exists w1 u1 g1,
       join_guild "g1" "u1" world_one_guild = GOk (g_name guild_one) w1
       /\ users_find_one "u1" (w_db w1) = Some u1
       /\ guild_id u1 = Some "g1"
       /\ level u1 = level hunter
       /\ guilds_find_one "g1" w1 = Some g1
       /\ g_members g1 = g_members guild_one ++ ["u1"]
       /\ g_member_count g1 = g_member_count guild_one + 1
       /\ g_total_level g1 = g_total_level guild_one + level hunter
       /\ forall db2 u2,
            users_find_one "u1" db2 = Some u2 ->
            guild_id u2 = Some "g1" ->
            exists w2 g2,
              leave_guild "u1" (mkWorld db2 (w_guilds w1)) = GOk tt w2
              /\ guilds_find_one "g1" w2 = Some g2
              /\ g_members g2 = g_members guild_one
              /\ g_member_count g2 = g_member_count guild_one
              /\ g_total_level g2
                 = g_total_level guild_one + level hunter - level u2
              /\ users_find_one "u1" (w_db w2)
                 = Some (with_guild_id None u2).
Proof.
  assert (Hl : g_leader_id guild_one <> "u1") by (cbn; discriminate).
  assert (Hm : ~ In "u1" (g_members guild_one)).
  { cbn. intros [H|[]]. discriminate H. }
  split; [reflexivity|]. split; [reflexivity|]. split; [reflexivity|].
  split; [reflexivity|]. split; [exact Hl|]. split; [exact Hm|].
  apply (guild_join_leave_round_trip "g1" "u1" world_one_guild hunter
           guild_one);
    [reflexivity | reflexivity | reflexivity | reflexivity | exact Hl
    | exact Hm].
Defined.

Lemma find_map_same {A : Type} (p : A -> bool) (f : A -> A) (l : list A) :
  (forall x, p (f x) = p x) ->
  find p (map f l) = option_map f (find p l).
Proof.
  intros Hp. induction l as [|x rest IH]; [reflexivity|].
  cbn [map find]. rewrite Hp. destruct (p x); [reflexivity | exact IH].
Qed.

Lemma length_delete_first {A : Type} (p : A -> bool) (l : list A) (x : A) :
  find p l = Some x ->
  S (List.length (delete_first p l)) = List.length l.
Proof.
  induction l as [|y rest IH]; [discriminate|].
  cbn [find delete_first]. destruct (p y); intros H; [reflexivity|].
  cbn [List.length]. rewrite IH by exact H. reflexivity.
Qed.

Lemma find_delete_first_unique (gid : string) (l : list Guild) :
  NoDup (map g_id l) ->
  find (has_guild_id gid) (delete_first (has_guild_id gid) l) = None.
Proof.
  induction l as [|y rest IH]; intros Hnd; [reflexivity|].
  cbn [map] in Hnd. inversion Hnd as [|? ? Hnotin Hrest]; subst.
  cbn [delete_first]. destruct (has_guild_id gid y) eqn:E.
  - unfold has_guild_id in E. apply str_eqb_eq in E.
    destruct (find (has_guild_id gid) rest) as [z|] eqn:F; [|reflexivity].
    apply find_some in F. destruct F as [Hin Hz].
    unfold has_guild_id in Hz. apply str_eqb_eq in Hz.
    exfalso. apply Hnotin. rewrite E, <- Hz. apply in_map. exact Hin.
  - cbn [find]. rewrite E. apply IH. exact Hrest.
Qed.

(** X19.  When the leader leaves, the guild is dissolved: one guild
    document is deleted (the guild can no longer be found when guild ids
    are unique), no user document refers to the guild any more, and the
    other keys of every user document are untouched. *)
Theorem leader_leave_dissolves_guild (uid gid : string) (w : World)
    (user : User) (g : Guild) :
  users_find_one uid (w_db w) = Some user ->
  guild_id user = Some gid ->
  truthy (Some gid) = true ->
  guilds_find_one gid w = Some g ->
  g_leader_id g = uid ->
  exists w',
    leave_guild uid w = GOk tt w'
    /\ S (List.length (w_guilds w')) = List.length (w_guilds w)
    /\ (NoDup (map g_id (w_guilds w)) -> guilds_find_one gid w' = None)
    /\ (forall u, In u (users (w_db w')) -> guild_id u <> Some gid)
    /\ (forall other u,
          users_find_one other (w_db w) = Some u ->
          users_find_one other (w_db w')
          = Some (if guild_id_is gid u then with_guild_id None u else u)).
Proof.
  intros Hu Hgu Hgid Hg Hlead.
  pose proof (find_one_id _ _ _ Hu) as Hid.
  unfold leave_guild, get_current_user. rewrite Hu, Hgu, Hgid, Hg, Hid, Hlead.
  rewrite str_eqb_refl. cbn [negb].
  eexists. split; [reflexivity|]. cbn [w_db w_guilds].
  split; [apply (length_delete_first _ _ g); exact Hg|].
  split; [intros Hnd; apply find_delete_first_unique; exact Hnd|].
  split.
  - intros u Hin. unfold users_clear_guild in Hin. cbn [users] in Hin.
    apply in_map_iff in Hin. destruct Hin as (u0 & <- & _).
    unfold guild_id_is. destruct (guild_id u0) as [g0|] eqn:E.
    + destruct (str_eqb g0 gid) eqn:Eg.
      * cbn. discriminate.
      * rewrite E. intros H. apply some_inj in H. subst g0.
        rewrite str_eqb_refl in Eg. discriminate.
    + rewrite E. discriminate.
  - intros other u Hother. unfold users_find_one, users_clear_guild.
    cbn [users]. rewrite find_map_same.
    + fold (users_find_one other (w_db w)). rewrite Hother. reflexivity.
    + intros x. destruct (guild_id_is gid x); reflexivity.
Qed.

Lemma leader_leave_dissolves_guild_witness :
  users_find_one "u1" (w_db world_led)
  = Some (with_guild_id (Some "g1") hunter)
  /\ guild_id (with_guild_id (Some "g1") hunter) = Some "g1"
  /\ truthy (Some "g1") = true
  /\ guilds_find_one "g1" world_led = Some guild_led
  /\ g_leader_id guild_led = "u1"
  /\ exists w',
       leave_guild "u1" world_led = GOk tt w'
       /\ S (List.length (w_guilds w')) = List.length (w_guilds world_led)
       /\ (NoDup (map g_id (w_guilds world_led)) ->
           guilds_find_one "g1" w' = None)
       /\ (forall u, In u (users (w_db w')) -> guild_id u <> Some "g1")
       /\ (forall other u,
             users_find_one other (w_db world_led) = Some u ->
             users_find_one other (w_db w')
             = Some (if guild_id_is "g1" u then with_guild_id None u
                     else u)).
Proof.
  split; [reflexivity|]. split; [reflexivity|]. split; [reflexivity|].
  split; [reflexivity|]. split; [reflexivity|].
  apply (leader_leave_dissolves_guild "u1" "g1" world_led
           (with_guild_id (Some "g1") hunter) guild_led); reflexivity.
Defined.

Lemma guild_create_entry :
  find (fun a => str_eqb (ach_id a) "guild_create") ACHIEVEMENTS
  = Some (mkAch "guild_create" 300 "guild").
Proof. reflexivity. Qed.

Lemma existsb_find_none {A : Type} (p : A -> bool) (l : list A) :
  existsb p l = false -> find p l = None.
Proof.
  induction l as [|x rest IH]; [reflexivity|].
  cbn [existsb find]. destruct (p x); [discriminate|exact IH].
Qed.

(** X20.  A guild creation that passes the two checks stores one guild
    with the creator as leader and only member, member count 1 and the
    creator's level as total level, and sets the creator's guild; the
    [guild_create] reward of 300 gold is paid only if the creator did not
    hold the achievement.  From then on the creator can neither create
    nor join a guild, and nobody can create a guild of the same name. *)
Theorem create_guild_once (fresh_id : string) (now : Z)
    (name description uid : string) (w : World) (user : User) :
  users_find_one uid (w_db w) = Some user ->
  truthy (guild_id user) = false ->
  existsb (fun g => str_eqb (g_name g) name) (w_guilds w) = false ->
  guilds_find_one fresh_id w = None ->
  truthy (Some fresh_id) = true ->
  exists w' user',
    create_guild fresh_id now name description uid w = GOk fresh_id w'
    /\ w_guilds w'
       = w_guilds w
         ++ [mkGuild fresh_id name description uid (hunter_name user)
               [uid] 1 (level user) now]
    /\ guilds_find_one fresh_id w'
       = Some (mkGuild fresh_id name description uid (hunter_name user)
                 [uid] 1 (level user) now)
    /\ users_find_one uid (w_db w') = Some user'
    /\ guild_id user' = Some fresh_id
    /\ mem "guild_create" (achievements user') = true
    /\ gold user'
       = gold user
         + (if mem "guild_create" (achievements user) then 0 else 300)
    /\ (forall fresh2 now2 name2 description2,
          create_guild fresh2 now2 name2 description2 uid w'
          = GErr 400 Already_in_guild)
    /\ (forall gid, join_guild gid uid w' = GErr 400 Already_in_guild)
    /\ (forall fresh2 now2 description2 other user2,
          users_find_one other (w_db w') = Some user2 ->
          truthy (guild_id user2) = false ->
          create_guild fresh2 now2 name description2 other w'
          = GErr 400 Guild_name_exists).
Proof.
  intros Hu Hfree Hname Hfresh Htruthy.
  pose proof (find_one_id _ _ _ Hu) as Hid.
  set (guild := mkGuild fresh_id name description uid (hunter_name user)
                  [uid] 1 (level user) now).
  set (user' :=
         if mem "guild_create" (achievements user)
         then with_guild_id (Some fresh_id) user
         else apply_ops [AddToSet_achievements "guild_create"; Inc_gold 300]
                (with_guild_id (Some fresh_id) user)).
  set (db' :=
         if mem "guild_create" (achievements user)
         then users_set_guild_id uid (Some fresh_id) (w_db w)
         else users_update_one uid
                [AddToSet_achievements "guild_create"; Inc_gold 300]
                (users_set_guild_id uid (Some fresh_id) (w_db w))).
  assert (Hc : create_guild fresh_id now name description uid w
               = GOk fresh_id (mkWorld db' (w_guilds w ++ [guild]))).
  { unfold create_guild, get_current_user. rewrite Hu, Hfree, Hname, Hid.
    unfold db', guild, unlock_when, bind, unlock_achievement.
    rewrite guild_create_entry.
    destruct (mem "guild_create" (achievements user)); reflexivity. }
  assert (Hu' : users_find_one uid db' = Some user').
  { unfold db', user'. destruct (mem "guild_create" (achievements user)).
    - rewrite find_one_set_guild_id, Hu. reflexivity.
    - rewrite find_one_update_one, find_one_set_guild_id, Hu. reflexivity. }
  assert (Hg' : guild_id user' = Some fresh_id).
  { unfold user'. destruct (mem "guild_create" (achievements user));
      reflexivity. }
  assert (Hbusy : truthy (guild_id user') = true)
    by (rewrite Hg'; exact Htruthy).
  exists (mkWorld db' (w_guilds w ++ [guild])), user'.
  split; [exact Hc|]. cbn [w_db w_guilds].
  split; [reflexivity|].
  split.
  { unfold guilds_find_one. cbn [w_guilds]. apply find_app_fresh.
    - exact Hfresh.
    - unfold has_guild_id, guild. cbn [g_id]. apply str_eqb_refl. }
  split; [exact Hu'|]. split; [exact Hg'|].
  split.
  { unfold user'. destruct (mem "guild_create" (achievements user)) eqn:E.
    - exact E.
    - cbn. doc_simpl. apply mem_add_to_set. }
  split.
  { unfold user'. destruct (mem "guild_create" (achievements user)).
    - cbn. lia.
    - cbn. doc_simpl. reflexivity. }
  split.
  { intros fresh2 now2 name2 description2.
    unfold create_guild, get_current_user. cbn [w_db].
    rewrite Hu', Hbusy. reflexivity. }
  split.
  { intros gid. unfold join_guild, get_current_user. cbn [w_db].
    rewrite Hu', Hbusy. reflexivity. }
  intros fresh2 now2 description2 other user2 Hother Hfree2.
  unfold create_guild, get_current_user. cbn [w_db w_guilds].
  rewrite Hother, Hfree2.
  rewrite existsb_app_last; [reflexivity|].
  unfold guild. cbn [g_name]. apply str_eqb_refl.
Qed.

Lemma create_guild_once_witness :
  users_find_one "u1" (w_db world_one_guild) = Some hunter
  /\ truthy (guild_id hunter) = false
  /\ existsb (fun g => str_eqb (g_name g) "Sombras")
       (w_guilds world_one_guild) = false
  /\ guilds_find_one "g2" world_one_guild = None
  /\ truthy (Some "g2") = true
  /\ exists w' user',
       create_guild "g2" 7 "Sombras" "" "u1" world_one_guild = GOk "g2" w'
       /\ users_find_one "u1" (w_db w') = Some user'
       /\ gold user' = 400
       /\ create_guild "g3" 8 "Otros" "" "u1" w'
          = GErr 400 Already_in_guild.
Proof.
  split; [reflexivity|]. split; [reflexivity|]. split; [reflexivity|].
  split; [reflexivity|]. split; [reflexivity|].
  destruct (create_guild_once "g2" 7 "Sombras" "" "u1" world_one_guild
              hunter eq_refl eq_refl eq_refl eq_refl eq_refl)
    as (w' & user' & Hc & _ & _ & Hu' & _ & _ & Hgold & Hagain & _).
  exists w', user'. split; [exact Hc|]. split; [exact Hu'|].
  split; [exact Hgold|]. apply Hagain.
Defined.

(** ** Cleaning a Mongo document *)

Lemma clean_items_map (items : list Json) :
  (fix clean_items (l' : list Json) : list Json :=
     match l' with
     | [] => []
     | item :: rest' =>
         match item with
         | JDict _ => clean_mongo_doc item
         | _ => item
         end :: clean_items rest'
     end) items
  = map (fun item => if is_dict item then clean_mongo_doc item else item)
        items.
Proof.
  induction items as [|item rest IH]; [reflexivity|].
  cbn [map]. rewrite <- IH. destruct item; reflexivity.
Qed.

(** The loop of [clean_mongo_doc], as a filter followed by a map. *)
Lemma clean_dict (fields : list (string * Json)) :
  clean_mongo_doc (JDict fields)
  = JDict (map (fun kv => (fst kv, clean_value (snd kv)))
               (filter kept_field fields)).
Proof.
  cbn [clean_mongo_doc]. f_equal.
  induction fields as [|[key value] rest IH]; [reflexivity|].
  cbn [filter].
  change (kept_field (key, value))
    with (negb (str_eqb key "_id" || is_object_id value)).
  destruct (str_eqb key "_id" || is_object_id value); cbn [negb].
  - exact IH.
  - cbn [map fst snd]. rewrite <- IH. f_equal. f_equal.
    destruct value; try reflexivity.
    unfold clean_value. f_equal. apply clean_items_map.
Qed.

Lemma items_free_forallb (items : list Json) :
  (fix items_free (l' : list Json) : bool :=
     match l' with
     | [] => true
     | item :: rest' =>
         match item with
         | JDict _ => id_free item
         | _ => true
         end && items_free rest'
     end) items
  = forallb (fun item => if is_dict item then id_free item else true) items.
Proof.
  induction items as [|item rest IH]; [reflexivity|].
  cbn [forallb]. rewrite <- IH. destruct item; reflexivity.
Qed.

Lemma id_free_dict (fields : list (string * Json)) :
  id_free (JDict fields)
  = forallb (fun kv => kept_field kv && value_free (snd kv)) fields.
Proof.
  cbn [id_free].
  induction fields as [|[key value] rest IH]; [reflexivity|].
  cbn [forallb fst snd]. rewrite <- IH. unfold kept_field. cbn [fst snd].
  rewrite negb_orb. f_equal. f_equal.
  destruct value; try reflexivity.
  unfold value_free. apply items_free_forallb.
Qed.

Lemma clean_dict_is_dict (fields : list (string * Json)) :
  is_dict (clean_mongo_doc (JDict fields)) = true.
Proof. rewrite clean_dict. reflexivity. Qed.

Lemma clean_value_not_object_id (value : Json) :
  is_object_id value = false -> is_object_id (clean_value value) = false.
Proof.
  destruct value; intros H; try exact H; reflexivity.
Qed.

Lemma clean_is_id_free (doc : Json) :
  id_free (clean_mongo_doc doc) = true
  /\ forall items,
       doc = JList items ->
       Forall (fun item => id_free (clean_mongo_doc item) = true) items.
Proof.
  induction doc as [| oid | text | fields IH | items IH]
    using Json_nested_ind;
    try (split; [reflexivity | intros items' H; discriminate H]).
  - split; [|intros items' H; discriminate H].
    rewrite clean_dict, id_free_dict. apply forallb_forall.
    intros [key value'] Hin. apply in_map_iff in Hin.
    destruct Hin as ([key0 value] & E & Hin). cbn [fst snd] in E.
    injection E as <- <-. apply filter_In in Hin.
    destruct Hin as [Hin Hkept].
    rewrite Forall_forall in IH. specialize (IH _ Hin). cbn [snd] in IH.
    destruct IH as [IHd IHl].
    unfold kept_field in *. cbn [fst snd] in *.
    apply negb_true_iff, orb_false_iff in Hkept.
    destruct Hkept as [Hkey Hoid].
    rewrite Hkey, (clean_value_not_object_id _ Hoid). cbn [orb negb andb].
    destruct value; try reflexivity.
    + exact IHd.
    + cbn [clean_value value_free]. apply forallb_forall.
      intros item' Hin'. apply in_map_iff in Hin'.
      destruct Hin' as (item & <- & Hin').
      specialize (IHl _ eq_refl). rewrite Forall_forall in IHl.
      specialize (IHl _ Hin').
      destruct (is_dict item) eqn:Ed.
      * destruct item; try discriminate Ed.
        rewrite clean_dict_is_dict. exact IHl.
      * rewrite Ed. reflexivity.
  - split; [reflexivity|]. intros items' H. injection H as <-.
    apply Forall_forall. intros item Hin.
    rewrite Forall_forall in IH. exact (proj1 (IH _ Hin)).
Qed.

Lemma map_id_on {A : Type} (f : A -> A) (l : list A) :
  (forall x, In x l -> f x = x) -> map f l = l.
Proof.
  induction l as [|x rest IH]; intros H; [reflexivity|].
  cbn [map]. rewrite H by (left; reflexivity).
  rewrite IH; [reflexivity|]. intros y Hy. apply H. right. exact Hy.
Qed.

Lemma filter_all {A : Type} (p : A -> bool) (l : list A) :
  forallb p l = true -> filter p l = l.
Proof.
  induction l as [|x rest IH]; [reflexivity|].
  cbn [forallb filter]. intros H. apply andb_prop in H.
  destruct H as [Hx Hrest]. rewrite Hx, IH by exact Hrest. reflexivity.
Qed.

Lemma clean_fixes_id_free (doc : Json) :
  (id_free doc = true -> clean_mongo_doc doc = doc)
  /\ forall items,
       doc = JList items ->
       Forall (fun item => id_free item = true ->
                           clean_mongo_doc item = item) items.
Proof.
  induction doc as [| oid | text | fields IH | items IH]
    using Json_nested_ind;
    try (split; [reflexivity | intros items' H; discriminate H]).
  - split; [|intros items' H; discriminate H].
    intros Hfree. rewrite id_free_dict in Hfree.
    rewrite clean_dict. f_equal.
    rewrite filter_all.
    + apply map_id_on. intros [key value] Hin. cbn [fst snd]. f_equal.
      rewrite forallb_forall in Hfree. specialize (Hfree _ Hin).
      apply andb_prop in Hfree. destruct Hfree as [_ Hv]. cbn [snd] in Hv.
      rewrite Forall_forall in IH. specialize (IH _ Hin). cbn [snd] in IH.
      destruct IH as [IHd IHl].
      destruct value; try reflexivity.
      * apply IHd. exact Hv.
      * cbn [clean_value]. f_equal. apply map_id_on. intros item Hin'.
        specialize (IHl _ eq_refl). rewrite Forall_forall in IHl.
        cbn [value_free] in Hv. rewrite forallb_forall in Hv.
        specialize (Hv _ Hin'). destruct (is_dict item); [|reflexivity].
        apply IHl; assumption.
    + apply forallb_forall. intros kv Hin.
      rewrite forallb_forall in Hfree. specialize (Hfree _ Hin).
      apply andb_prop in Hfree. exact (proj1 Hfree).
  - split; [reflexivity|]. intros items' H. injection H as <-.
    apply Forall_forall. intros item Hin.
    rewrite Forall_forall in IH. exact (proj1 (IH _ Hin)).
Qed.

(** X21.  In a cleaned document no dictionary that cleaning visits has an
    [_id] key or an [ObjectId] value; a document that is not a dictionary
    is returned as it is; and cleaning twice is cleaning once. *)
Theorem clean_mongo_doc_removes_ids (doc : Json) :
  id_free (clean_mongo_doc doc) = true
  /\ (is_dict doc = false -> clean_mongo_doc doc = doc)
  /\ clean_mongo_doc (clean_mongo_doc doc) = clean_mongo_doc doc.
Proof.
  split; [exact (proj1 (clean_is_id_free doc))|].
  split; [destruct doc; try reflexivity; discriminate|].
  apply (proj1 (clean_fixes_id_free _)).
  exact (proj1 (clean_is_id_free doc)).
Qed.

Lemma clean_mongo_doc_removes_ids_witness :
  is_dict (JList [JObjectId "5f1"]) = false
  /\ clean_mongo_doc (JList [JObjectId "5f1"]) = JList [JObjectId "5f1"].
Proof.
  split; [reflexivity|].
  apply (proj1 (proj2 (clean_mongo_doc_removes_ids
                         (JList [JObjectId "5f1"])))).
  reflexivity.
Defined.

(** X22.  What cleaning does not reach: an [ObjectId] that is an item of
    a list is not removed.  For every dictionary with a list under a key
    other than [_id], the cleaned dictionary has a list under that key
    with every item of the original list that is not a dictionary,
    [ObjectId]s included. *)
Theorem object_id_in_list_survives (fields : list (string * Json))
    (key : string) (items : list Json) :
  In (key, JList items) fields ->
  key <> "_id" ->
  exists fields' items',
    clean_mongo_doc (JDict fields) = JDict fields'
    /\ In (key, JList items') fields'
    /\ List.length items' = List.length items
    /\ forall item, In item items -> is_dict item = false -> In item items'.
Proof.
  intros Hin Hkey. rewrite clean_dict.
  eexists. eexists. split; [reflexivity|].
  split.
  - apply in_map_iff. exists (key, JList items). split; [reflexivity|].
    apply filter_In. split; [exact Hin|].
    unfold kept_field. cbn [fst snd is_object_id].
    destruct (str_eqb key "_id") eqn:E; [|reflexivity].
    apply str_eqb_eq in E. contradiction.
  - split; [apply length_map|].
    intros item Hitem Hd. apply in_map_iff. exists item.
    rewrite Hd. split; [reflexivity | exact Hitem].
Qed.

Lemma object_id_in_list_survives_witness :
  In ("refs", JList [JObjectId "5f1"; JScalar "a"])
     [("_id", JObjectId "5f0"); ("refs", JList [JObjectId "5f1"; JScalar "a"])]
  /\ "refs" <> "_id"
  /\ exists fields' items',
       clean_mongo_doc
         (JDict [("_id", JObjectId "5f0");
                 ("refs", JList [JObjectId "5f1"; JScalar "a"])])
       = JDict fields'
       /\ In ("refs", JList items') fields'
       /\ List.length items'
          = List.length [JObjectId "5f1"; JScalar "a"]
       /\ forall item,
            In item [JObjectId "5f1"; JScalar "a"] ->
            is_dict item = false -> In item items'.
Proof.
  assert (Hin : In ("refs", JList [JObjectId "5f1"; JScalar "a"])
                   [("_id", JObjectId "5f0");
                    ("refs", JList [JObjectId "5f1"; JScalar "a"])])
    by (right; left; reflexivity).
  assert (Hk : "refs" <> "_id") by discriminate.
  split; [exact Hin|]. split; [exact Hk|].
  apply (object_id_in_list_survives
           [("_id", JObjectId "5f0");
            ("refs", JList [JObjectId "5f1"; JScalar "a"])]
           "refs" [JObjectId "5f1"; JScalar "a"] Hin Hk).
Defined.

(** ** The mission listing against completion *)

Lemma mission_requirement (m : Mission) :
  In m SPECIAL_MISSIONS ->
  exists req, dict_get (ms_id m) MISSION_REQUIREMENTS = Some req.
Proof.
  unfold SPECIAL_MISSIONS. cbn [In]. intros H.
  repeat (destruct H as [<-|H]; [eexists; reflexivity|]).
  contradiction.
Qed.

Lemma listed_mission (user : User) (mq : MissionQuest) :
  In mq
    (flat_map
       (fun mission =>
          if ms_min_level mission <=? level user
          then
            match dict_get (ms_id mission) MISSION_REQUIREMENTS with
            | None => []
            | Some req =>
                let is_completed :=
                  mem (ms_id mission) (special_missions_completed user) in
                let '(progress, target, can_complete) :=
                  requirement_progress req user in
                [mkMissionQuest (ms_id mission) (ms_exp mission)
                   (ms_gold mission) (ms_shadow mission) is_completed
                   (can_complete && negb is_completed) progress target
                   (ms_min_level mission)]
            end
          else [])
       SPECIAL_MISSIONS)
  <-> exists m req,
        In m SPECIAL_MISSIONS
        /\ ms_min_level m <= level user
        /\ dict_get (ms_id m) MISSION_REQUIREMENTS = Some req
        /\ mq = mkMissionQuest (ms_id m) (ms_exp m) (ms_gold m)
                  (ms_shadow m)
                  (mem (ms_id m) (special_missions_completed user))
                  (snd (requirement_progress req user)
                   && negb (mem (ms_id m)
                              (special_missions_completed user)))
                  (fst (fst (requirement_progress req user)))
                  (snd (fst (requirement_progress req user)))
                  (ms_min_level m).
Proof.
  rewrite in_flat_map. split.
  - intros (m & Hm & Hin).
    destruct (Z.leb_spec (ms_min_level m) (level user)) as [Hl|Hl];
      [|contradiction].
    destruct (dict_get (ms_id m) MISSION_REQUIREMENTS) as [req|] eqn:E;
      [|contradiction].
    exists m, req. repeat split; try assumption.
    destruct (requirement_progress req user) as [[p t] c].
    destruct Hin as [<-|[]]. reflexivity.
  - intros (m & req & Hm & Hl & E & ->). exists m. split; [exact Hm|].
    destruct (Z.leb_spec (ms_min_level m) (level user)); [|lia].
    rewrite E. destruct (requirement_progress req user) as [[p t] c].
    left. reflexivity.
Qed.

(** A mission the user has not completed: the completion and the stored
    document. *)
Lemma mission_completion (today : Z) (uid : string) (db : DB)
    (user : User) (m : Mission) :
  users_find_one uid db = Some user ->
  In m SPECIAL_MISSIONS ->
  daily_find_by_id (ms_id m) uid db = None ->
  mem (ms_id m) (special_missions_completed user) = false ->
  exists r db' user',
    complete_quest today (ms_id m) uid db = Ok r db'
    /\ cr_exp_gained r = ms_exp m
    /\ cr_gold_gained r = ms_gold m
    /\ users_find_one uid db' = Some user'
    /\ mem (ms_id m) (special_missions_completed user') = true
    /\ level user <= level user'.
Proof.
  intros Hu Hm Hnod Hnew. pose proof (find_one_id _ _ _ Hu) as Hid.
  assert (Hu' : users_find_one (id user) db = Some user)
    by (rewrite Hid; exact Hu).
  pose proof (mission_dispatch today m user db Hm) as Hd. rewrite Hnew in Hd.
  assert (Hok : exists d db1 u1,
             dispatch today (ms_id m) user None db = Ok d db1
             /\ d_exp_reward d = ms_exp m /\ d_gold_reward d = ms_gold m
             /\ users_find_one uid db1 = Some u1
             /\ mem (ms_id m) (special_missions_completed u1) = true).
  { destruct (ms_shadow m) as [s|];
      [destruct (truthy (Some s) && negb (mem s (shadows user)))|];
      eexists; eexists; eexists; (split; [exact Hd|]);
      (split; [reflexivity|]); (split; [reflexivity|]);
      rewrite <- Hid, find_one_update_one, Hu'; cbn [option_map];
      (split; [reflexivity|]); doc_simpl; apply mem_add_to_set. }
  destruct Hok as (d & db1 & u1 & Hdis & He & Hg & Hu1 & Hdone).
  rewrite <- Hnod in Hdis.
  destruct (complete_quest_of_dispatch _ _ _ _ _ _ _ Hu Hdis)
    as (r & db' & Hc & He' & Hg' & _).
  destruct (complete_quest_user _ _ _ _ _ _ _ Hu Hc)
    as (d2 & db2 & u2 & aops & Hd2 & Hu2 & Ha & _ & Hfin).
  rewrite Hdis in Hd2. apply ok_inj in Hd2. destruct Hd2 as [<- <-].
  rewrite Hu1 in Hu2. apply some_inj in Hu2. subst u2.
  destruct (complete_quest_progress _ _ _ _ _ _ _ Hu Hc)
    as (_ & Hup & _ & user' & Hu2 & _ & Hlvl & _).
  exists r, db', user'. split; [exact Hc|].
  split; [congruence|]. split; [congruence|]. split; [exact Hu2|].
  split; [|lia].
  rewrite Hfin in Hu2. apply some_inj in Hu2. subst user'.
  rewrite (ach_ops_field special_missions_completed)
    by (reflexivity || assumption).
  exact Hdone.
Qed.

(** X23.  For every entry of [GET /quests/special-missions]: if it is
    shown as completed, a completion is refused with status 400; if not,
    a completion succeeds whether or not the entry says
    [can_complete], pays the experience and gold the entry shows, and
    the next listing shows the entry as completed and not completable. *)
Theorem listed_mission_completes (today : Z) (uid : string) (db : DB)
    (user : User) (listing : list MissionQuest) (mq : MissionQuest) :
  users_find_one uid db = Some user ->
  get_special_missions uid db = Ok listing db ->
  In mq listing ->
  daily_find_by_id (mq_id mq) uid db = None ->
  (mq_is_completed mq = true ->
   complete_quest today (mq_id mq) uid db = Err 400 Quest_already_completed)
  /\ (mq_is_completed mq = false ->
      exists r db' listing' mq',
        complete_quest today (mq_id mq) uid db = Ok r db'
        /\ cr_exp_gained r = mq_exp_reward mq
        /\ cr_gold_gained r = mq_gold_reward mq
        /\ get_special_missions uid db' = Ok listing' db'
        /\ In mq' listing'
        /\ mq_id mq' = mq_id mq
        /\ mq_is_completed mq' = true
        /\ mq_can_complete mq' = false).
Proof.
  intros Hu Hlist Hin Hnod.
  unfold get_special_missions, get_current_user in Hlist. rewrite Hu in Hlist.
  apply ok_inj in Hlist. destruct Hlist as [<- _].
  apply listed_mission in Hin.
  destruct Hin as (m & req & Hm & Hl & Ereq & ->).
  cbn [mq_id mq_is_completed mq_exp_reward mq_gold_reward] in *.
  split.
  - intros Hdone.
    apply (complete_quest_of_dispatch_err _ _ _ _ user); [exact Hu|].
    rewrite Hnod, mission_dispatch by exact Hm. rewrite Hdone. reflexivity.
  - intros Hnew.
    destruct (mission_completion today uid db user m Hu Hm Hnod Hnew)
      as (r & db' & user' & Hc & He & Hg & Hu' & Hdone & Hlvl).
    exists r, db'. eexists. eexists. split; [exact Hc|].
    split; [exact He|]. split; [exact Hg|].
    unfold get_special_missions, get_current_user. rewrite Hu'.
    split; [reflexivity|].
    split.
    + apply listed_mission. exists m, req. split; [exact Hm|].
      split; [lia|]. split; [exact Ereq | reflexivity].
    + cbn [mq_id mq_is_completed mq_can_complete]. rewrite Hdone.
      split; [reflexivity|]. split; [reflexivity|]. apply andb_false_r.
Qed.

Lemma listed_mission_completes_witness :
  users_find_one "u1" db_registered = Some hunter
  /\ get_special_missions "u1" db_registered
     = Ok [mkMissionQuest "mission_despertar" 200 100 None false false
             0 (inl 3) 1;
           mkMissionQuest "mission_primer_paso" 150 80 None false false
             1 (inl 5) 1] db_registered
  /\ daily_find_by_id "mission_despertar" "u1" db_registered = None
  /\ exists r db' listing' mq',
       complete_quest 1 "mission_despertar" "u1" db_registered = Ok r db'
       /\ cr_exp_gained r = 200
       /\ cr_gold_gained r = 100
       /\ get_special_missions "u1" db' = Ok listing' db'
       /\ In mq' listing'
       /\ mq_id mq' = "mission_despertar"
       /\ mq_is_completed mq' = true
       /\ mq_can_complete mq' = false.
Proof.
  split; [reflexivity|]. split; [reflexivity|]. split; [reflexivity|].
  refine (proj2 (listed_mission_completes 1 "u1" db_registered hunter
                   [mkMissionQuest "mission_despertar" 200 100 None false
                      false 0 (inl 3) 1;
                    mkMissionQuest "mission_primer_paso" 150 80 None false
                      false 1 (inl 5) 1]
                   (mkMissionQuest "mission_despertar" 200 100 None false
                      false 0 (inl 3) 1) _ _ _ _) _);
    [reflexivity | reflexivity | left; reflexivity | reflexivity
    | reflexivity].
Defined.

(** ** Requests of one user and the documents of the others *)

Lemma find_update_first_disjoint {A : Type} (p p' : A -> bool) (f : A -> A)
    (l : list A) :
  (forall x, p x = true -> p' x = false /\ p' (f x) = false) ->
  find p' (update_first p f l) = find p' l.
Proof.
  intros H. induction l as [|x rest IH]; [reflexivity|].
  cbn [update_first find]. destruct (p x) eqn:E.
  - destruct (H x E) as [H1 H2]. cbn [find]. rewrite H1, H2. reflexivity.
  - cbn [find]. rewrite IH. reflexivity.
Qed.

Lemma find_one_update_one_other (other uid : string) (ops : list UpdateOp)
    (db : DB) :
  other <> uid ->
  users_find_one other (users_update_one uid ops db)
  = users_find_one other db.
Proof.
  intros Hne. unfold users_find_one, users_update_one. cbn [users].
  apply find_update_first_disjoint. intros x Hx.
  unfold has_id in *. rewrite apply_ops_id. apply str_eqb_eq in Hx.
  assert (E : str_eqb (id x) other = false).
  { destruct (str_eqb (id x) other) eqn:E; [|reflexivity].
    apply str_eqb_eq in E. congruence. }
  split; exact E.
Qed.

Lemma dispatch_other_users (today : Z) (q : string) (user : User)
    (daily : option DailyQuest) (db db1 : DB) (d : Dispatched)
    (other : string) :
  other <> id user ->
  dispatch today q user daily db = Ok d db1 ->
  users_find_one other db1 = users_find_one other db.
Proof.
  intros Hne H. unfold dispatch in H.
  break_hyp H; try discriminate; injection H as _ <-;
    rewrite find_one_update_one_other by exact Hne; reflexivity.
Qed.

(** X24.  A request acts on the document of the authenticated user only:
    whatever [complete_quest], [fail_quest], [buy_item], [upgrade_stat],
    [start_training] or [get_daily_quests] does for one user, the
    document found under any other id is what it was. *)
Theorem requests_leave_other_users (other uid : string) :
  other <> uid ->
  (forall today q db r db',
     complete_quest today q uid db = Ok r db' ->
     users_find_one other db' = users_find_one other db)
  /\ (forall rnd uuid now q db resp db',
        fail_quest rnd uuid now q uid db = Ok resp db' ->
        users_find_one other db' = users_find_one other db)
  /\ (forall item_id db msg db',
        buy_item item_id uid db = Ok msg db' ->
        users_find_one other db' = users_find_one other db)
  /\ (forall stat_name points db achs db',
        upgrade_stat stat_name points uid db = Ok achs db' ->
        users_find_one other db' = users_find_one other db)
  /\ (forall now q db t db',
        start_training now q uid db = Ok t db' ->
        users_find_one other db' = users_find_one other db)
  /\ (forall today fresh_id db view db',
        get_daily_quests today fresh_id uid db = Ok view db' ->
        users_find_one other db' = users_find_one other db).
Proof.
  intros Hne. repeat split.
  - intros today q db r db' H.
    destruct (complete_quest_stages _ _ _ _ _ _ H)
      as (user & d & db1 & aops & Hu & Hd & _ & _ & _ & _ & ->).
    pose proof (find_one_id _ _ _ Hu) as Hid.
    rewrite find_one_update_one_other by exact Hne.
    apply (dispatch_other_users _ _ _ _ _ _ _ _ ltac:(rewrite Hid; exact Hne)
             Hd).
  - intros rnd uuid now q db resp db' H.
    unfold fail_quest, get_current_user in H.
    destruct (users_find_one uid db) as [user|] eqn:Hu; [|discriminate].
    pose proof (find_one_id _ _ _ Hu) as Hid. rewrite Hid in H.
    injection H as _ <-.
    destruct (0 <? streak_shields user);
      rewrite !find_one_update_one_other by exact Hne; reflexivity.
  - intros item_id db msg db' H.
    unfold buy_item, get_current_user in H.
    destruct (users_find_one uid db) as [user|] eqn:Hu; [|discriminate].
    pose proof (find_one_id _ _ _ Hu) as Hid. rewrite Hid in H.
    destruct (find _ SHOP_ITEMS) as [item|]; [|discriminate].
    destruct (gold user <? it_price item); [discriminate|].
    injection H as _ <-. apply find_one_update_one_other. exact Hne.
  - intros stat_name points db achs db' H.
    unfold upgrade_stat, get_current_user in H.
    destruct (users_find_one uid db) as [user|] eqn:Hu; [|discriminate].
    pose proof (find_one_id _ _ _ Hu) as Hid. rewrite Hid in H.
    destruct (stat_points user <? points); [discriminate|].
    destruct (negb _); [discriminate|].
    match type of H with
    | context [bind ?m ?k ?db0] =>
        assert (Ha : ach_only uid (bind m k))
          by (apply ach_only_bind;
              [apply ach_only_unlock_when
              | intros a; apply ach_only_unlock_when]);
        destruct (Ha db0) as (aops & _ & Ea);
        destruct (bind m k db0) as [achs' db2]
    end.
    cbn [snd] in Ea. injection H as _ <-. rewrite Ea.
    rewrite !find_one_update_one_other by exact Hne. reflexivity.
  - intros now q db t db' H.
    unfold start_training, get_current_user in H.
    destruct (users_find_one uid db) as [user|] eqn:Hu; [|discriminate].
    pose proof (find_one_id _ _ _ Hu) as Hid. rewrite Hid in H.
    injection H as _ <-. apply find_one_update_one_other. exact Hne.
  - intros today fresh_id db view db' H.
    unfold get_daily_quests, get_current_user in H.
    destruct (users_find_one uid db) as [user|]; [|discriminate].
    destruct (daily_find_by_date _ _ _); injection H as _ <-; reflexivity.
Qed.

Lemma requests_leave_other_users_witness :
  "u2" <> "u1"
  /\ (let run := complete_quest 1 "dungeon_prueba_novato" "u1" db_two in
      run = Ok (response_of run) (db_of run)
      /\ users_find_one "u2" (db_of run) = users_find_one "u2" db_two).
Proof.
  assert (Hne : "u2" <> "u1") by discriminate.
  split; [exact Hne|]. cbv zeta. split; [vm_compute; reflexivity|].
  apply (proj1 (requests_leave_other_users "u2" "u1" Hne) 1
           "dungeon_prueba_novato" db_two
           (response_of (complete_quest 1 "dungeon_prueba_novato" "u1"
                           db_two))).
  vm_compute. reflexivity.
Defined.

(** ** The bookkeeping of guilds *)

Lemma update_first_map {A : Type} (key : A -> string) (k : string)
    (f : A -> A) (l : list A) :
  NoDup (map key l) ->
  update_first (fun x => str_eqb (key x) k) f l
  = map (fun x => if str_eqb (key x) k then f x else x) l.
Proof.
  induction l as [|x rest IH]; intros Hnd; [reflexivity|].
  cbn [map] in Hnd. inversion Hnd as [|? ? Hnotin Hrest]; subst.
  cbn [update_first map]. destruct (str_eqb (key x) k) eqn:E.
  - f_equal. symmetry. apply map_id_on. intros y Hy.
    destruct (str_eqb (key y) k) eqn:Ey; [|reflexivity].
    apply str_eqb_eq in E. apply str_eqb_eq in Ey.
    exfalso. apply Hnotin. rewrite E, <- Ey. apply in_map. exact Hy.
  - f_equal. apply IH. exact Hrest.
Qed.

Lemma delete_first_filter {A : Type} (key : A -> string) (k : string)
    (l : list A) :
  NoDup (map key l) ->
  delete_first (fun x => str_eqb (key x) k) l
  = filter (fun x => negb (str_eqb (key x) k)) l.
Proof.
  induction l as [|x rest IH]; intros Hnd; [reflexivity|].
  cbn [map] in Hnd. inversion Hnd as [|? ? Hnotin Hrest]; subst.
  cbn [delete_first filter]. destruct (str_eqb (key x) k) eqn:E.
  - cbn [negb]. symmetry. apply filter_all. apply forallb_forall.
    intros y Hy. destruct (str_eqb (key y) k) eqn:Ey; [|reflexivity].
    apply str_eqb_eq in E. apply str_eqb_eq in Ey.
    exfalso. apply Hnotin. rewrite E, <- Ey. apply in_map. exact Hy.
  - cbn [negb]. f_equal. apply IH. exact Hrest.
Qed.

Lemma map_key_map {A : Type} (key : A -> string) (f : A -> A) (l : list A) :
  (forall x, key (f x) = key x) -> map key (map f l) = map key l.
Proof.
  intros H. rewrite map_map. apply map_ext. exact H.
Qed.

Lemma find_unique {A : Type} (key : A -> string) (k : string) (l : list A)
    (x : A) :
  NoDup (map key l) -> In x l -> key x = k ->
  find (fun y => str_eqb (key y) k) l = Some x.
Proof.
  induction l as [|y rest IH]; intros Hnd Hin Hk; [contradiction|].
  cbn [map] in Hnd. inversion Hnd as [|? ? Hnotin Hrest]; subst.
  cbn [find]. destruct Hin as [->|Hin].
  - rewrite str_eqb_refl. reflexivity.
  - destruct (str_eqb (key y) (key x)) eqn:E.
    + apply str_eqb_eq in E. exfalso. apply Hnotin. rewrite E.
      apply in_map. exact Hin.
    + apply IH; [exact Hrest | exact Hin | reflexivity].
Qed.

Lemma key_unique {A : Type} (key : A -> string) (l : list A) (x y : A) :
  NoDup (map key l) -> In x l -> In y l -> key x = key y -> x = y.
Proof.
  intros Hnd Hx Hy E.
  pose proof (find_unique key (key y) l x Hnd Hx E) as H1.
  pose proof (find_unique key (key y) l y Hnd Hy eq_refl) as H2.
  rewrite H1 in H2. apply some_inj in H2. exact H2.
Qed.

Lemma length_filter_remove (uid : string) (l : list string) :
  NoDup l -> In uid l ->
  S (List.length (filter (fun m => negb (str_eqb m uid)) l)) = List.length l.
Proof.
  induction l as [|x rest IH]; intros Hnd Hin; [contradiction|].
  inversion Hnd as [|? ? Hnotin Hrest]; subst.
  cbn [filter]. destruct (str_eqb x uid) eqn:E.
  - apply str_eqb_eq in E. subst x. cbn [negb List.length].
    rewrite filter_not_in by exact Hnotin. reflexivity.
  - cbn [negb List.length]. f_equal. apply IH; [exact Hrest|].
    destruct Hin as [->|Hin]; [|exact Hin].
    rewrite str_eqb_refl in E. discriminate.
Qed.

Lemma NoDup_filter_members (uid : string) (l : list string) :
  NoDup l -> NoDup (filter (fun m => negb (str_eqb m uid)) l).
Proof. intros H. apply NoDup_filter. exact H. Qed.

Lemma NoDup_snoc (uid : string) (l : list string) :
  NoDup l -> ~ In uid l -> NoDup (l ++ [uid]).
Proof.
  intros Hnd Hnotin. apply NoDup_app; [exact Hnd | |].
  - repeat constructor. intros [].
  - intros y Hy [<-|[]]. contradiction.
Qed.

Lemma users_update_map (uid : string) (f : User -> User) (us : list User) :
  NoDup (map id us) ->
  update_first (has_id uid) f us
  = map (fun u => if has_id uid u then f u else u) us.
Proof. exact (update_first_map id uid f us). Qed.

Lemma guilds_update_map (gid : string) (f : Guild -> Guild)
    (gs : list Guild) :
  NoDup (map g_id gs) ->
  update_first (has_guild_id gid) f gs
  = map (fun g => if has_guild_id gid g then f g else g) gs.
Proof. exact (update_first_map g_id gid f gs). Qed.

Lemma guilds_delete_filter (gid : string) (gs : list Guild) :
  NoDup (map g_id gs) ->
  delete_first (has_guild_id gid) gs
  = filter (fun g => negb (has_guild_id gid g)) gs.
Proof. exact (delete_first_filter g_id gid gs). Qed.

Lemma find_one_In (uid : string) (db : DB) (u : User) :
  users_find_one uid db = Some u -> In u (users db) /\ id u = uid.
Proof.
  unfold users_find_one. intros H. apply find_some in H.
  destruct H as [Hin H]. apply str_eqb_eq in H. split; assumption.
Qed.

Lemma has_id_true (uid : string) (u : User) :
  has_id uid u = true <-> id u = uid.
Proof. apply str_eqb_eq. Qed.

Lemma has_id_false (uid : string) (u : User) :
  has_id uid u = false <-> id u <> uid.
Proof.
  unfold has_id. destruct (str_eqb (id u) uid) eqn:E.
  - apply str_eqb_eq in E. split; [discriminate|contradiction].
  - split; [|reflexivity]. intros _ H. apply str_eqb_eq in H. congruence.
Qed.

(** Writes to user documents that keep [id] and [guild_id] keep the
    bookkeeping. *)
Lemma users_map_consistent (G : User -> User) (us : list User)
    (dq dq' : list DailyQuest) (gs : list Guild) :
  (forall u, id (G u) = id u /\ guild_id (G u) = guild_id u) ->
  guilds_consistent (mkWorld (mkDB us dq) gs) ->
  guilds_consistent (mkWorld (mkDB (map G us) dq') gs).
Proof.
  intros HG (H1 & H2 & H3 & H4 & H5). unfold guilds_consistent in *.
  cbn [w_db w_guilds users] in *.
  split; [rewrite map_key_map by (intros x; apply HG); exact H1|].
  split; [exact H2|]. split; [exact H3|].
  split.
  - intros g u' Hg Hu' Hin. apply in_map_iff in Hu'.
    destruct Hu' as (u & <- & Hu). destruct (HG u) as [Ei Eg].
    rewrite Eg. rewrite Ei in Hin. apply H4; assumption.
  - intros u' Hu' Ht. apply in_map_iff in Hu'.
    destruct Hu' as (u & <- & Hu). destruct (HG u) as [Ei Eg].
    rewrite Eg in *. rewrite Ei. apply H5; assumption.
Qed.

Lemma update_one_consistent (uid : string) (ops : list UpdateOp)
    (db : DB) (gs : list Guild) :
  guilds_consistent (mkWorld db gs) ->
  guilds_consistent (mkWorld (users_update_one uid ops db) gs).
Proof.
  intros H. destruct db as [us dq]. unfold users_update_one.
  cbn [users daily_quests].
  rewrite users_update_map by exact (proj1 H).
  apply (users_map_consistent _ us dq dq gs); [|exact H].
  intros u. destruct (has_id uid u); [|split; reflexivity].
  split; [apply apply_ops_id|].
  unfold apply_ops. revert u. induction ops as [|op ops IH]; intros u;
    [reflexivity|].
  cbn [fold_left]. rewrite IH. destruct op; reflexivity.
Qed.

Lemma unlock_when_consistent (c : bool) (uid aid : string) (db : DB)
    (gs : list Guild) :
  guilds_consistent (mkWorld db gs) ->
  guilds_consistent (mkWorld (snd (unlock_when c uid aid [] db)) gs).
Proof.
  intros H. destruct (unlock_when_db c uid aid db) as (unlocked & ->).
  apply update_one_consistent. exact H.
Qed.

Lemma set_guild_id_users (uid : string) (v : option string) (db : DB) :
  NoDup (map id (users db)) ->
  users (users_set_guild_id uid v db)
  = map (fun u => if has_id uid u then with_guild_id v u else u) (users db).
Proof. intros H. unfold users_set_guild_id. apply users_update_map. exact H. Qed.

Lemma truthy_not_both (v : option string) (gid : string) :
  truthy v = false -> truthy (Some gid) = true -> v <> Some gid.
Proof. intros H1 H2 ->. congruence. Qed.

Lemma create_core_consistent (fresh_id name description : string) (now : Z)
    (w : World) (user : User) :
  guilds_consistent w ->
  In user (users (w_db w)) ->
  truthy (guild_id user) = false ->
  truthy (Some fresh_id) = true ->
  guilds_find_one fresh_id w = None ->
  guilds_consistent
    (mkWorld (users_set_guild_id (id user) (Some fresh_id) (w_db w))
       (w_guilds w
        ++ [mkGuild fresh_id name description (id user) (hunter_name user)
              [id user] 1 (level user) now])).
Proof.
  intros (H1 & H2 & H3 & H4 & H5) Hu Hfree Htruthy Hfresh.
  assert (Hnew : forall g, In g (w_guilds w) -> g_id g <> fresh_id).
  { intros g Hg E. unfold guilds_find_one in Hfresh.
    apply (find_none _ _ Hfresh) in Hg. unfold has_guild_id in Hg.
    rewrite E, str_eqb_refl in Hg. discriminate. }
  unfold guilds_consistent. cbn [w_db w_guilds].
  rewrite set_guild_id_users by exact H1.
  split; [rewrite map_key_map; [exact H1|];
          intros x; destruct (has_id (id user) x); reflexivity|].
  split.
  { rewrite map_app. apply NoDup_snoc; [exact H2|]. cbn [map g_id].
    intros Hin. apply in_map_iff in Hin. destruct Hin as (g & E & Hg).
    exact (Hnew g Hg E). }
  split.
  { intros g Hg. apply in_app_or in Hg. destruct Hg as [Hg|[<-|[]]];
      [apply H3; exact Hg|].
    cbn. split; [exact Htruthy|]. split; [|reflexivity].
    repeat constructor. intros []. }
  split.
  - intros g u' Hg Hu' Hin. apply in_map_iff in Hu'.
    destruct Hu' as (u & <- & Hu0).
    apply in_app_or in Hg. destruct (has_id (id user) u) eqn:E.
    + apply has_id_true in E.
      assert (u = user) by (apply (key_unique id _ _ _ H1 Hu0 Hu E)).
      subst u. destruct Hg as [Hg|[<-|[]]]; [|reflexivity].
      cbn in Hin. specialize (H4 g user Hg Hu Hin).
      rewrite H4 in Hfree. destruct (H3 g Hg) as [Ht _]. congruence.
    + destruct Hg as [Hg|[<-|[]]]; [apply H4; assumption|].
      cbn in Hin. destruct Hin as [Hin|[]]. apply has_id_false in E.
      congruence.
  - intros u' Hu' Ht. apply in_map_iff in Hu'.
    destruct Hu' as (u & <- & Hu0). destruct (has_id (id user) u) eqn:E.
    + apply has_id_true in E. eexists. split; [apply in_or_app; right;
                                                left; reflexivity|].
      cbn. split; [reflexivity|]. left. symmetry. exact E.
    + destruct (H5 u Hu0 Ht) as (g & Hg & Eg & Hin).
      exists g. split; [apply in_or_app; left; exact Hg|]. split; assumption.
Qed.

Lemma has_guild_id_true (gid : string) (g : Guild) :
  has_guild_id gid g = true <-> g_id g = gid.
Proof. apply str_eqb_eq. Qed.

Lemma has_guild_id_false (gid : string) (g : Guild) :
  has_guild_id gid g = false <-> g_id g <> gid.
Proof.
  unfold has_guild_id. destruct (str_eqb (g_id g) gid) eqn:E.
  - apply str_eqb_eq in E. split; [discriminate|contradiction].
  - split; [|reflexivity]. intros _ H. apply str_eqb_eq in H. congruence.
Qed.

Lemma join_core_consistent (gid : string) (w : World) (user : User)
    (g0 : Guild) :
  guilds_consistent w ->
  In user (users (w_db w)) ->
  truthy (guild_id user) = false ->
  In g0 (w_guilds w) ->
  g_id g0 = gid ->
  guilds_consistent
    (mkWorld (users_set_guild_id (id user) (Some gid) (w_db w))
       (update_first (has_guild_id gid)
          (guild_add_member (id user) (level user)) (w_guilds w))).
Proof.
  intros (H1 & H2 & H3 & H4 & H5) Hu Hfree Hg0 Eg0.
  assert (Hout : forall g, In g (w_guilds w) -> ~ In (id user) (g_members g)).
  { intros g Hg Hin. specialize (H4 g user Hg Hu Hin).
    rewrite H4 in Hfree. destruct (H3 g Hg) as [Ht _]. congruence. }
  unfold guilds_consistent. cbn [w_db w_guilds].
  rewrite set_guild_id_users by exact H1.
  rewrite guilds_update_map by exact H2.
  split; [rewrite map_key_map; [exact H1|];
          intros x; destruct (has_id (id user) x); reflexivity|].
  split; [rewrite map_key_map; [exact H2|];
          intros x; destruct (has_guild_id gid x); reflexivity|].
  split.
  { intros g' Hg'. apply in_map_iff in Hg'. destruct Hg' as (g & <- & Hg).
    destruct (H3 g Hg) as (Ht & Hnd & Hc).
    destruct (has_guild_id gid g); [|repeat split; assumption].
    cbn [guild_add_member g_id g_members g_member_count].
    split; [exact Ht|].
    split; [apply NoDup_snoc; [exact Hnd | apply Hout; exact Hg]|].
    rewrite length_app. cbn [List.length]. lia. }
  split.
  - intros g' u' Hg' Hu' Hin. apply in_map_iff in Hg'.
    destruct Hg' as (g & <- & Hg). apply in_map_iff in Hu'.
    destruct Hu' as (u & <- & Hu0).
    destruct (has_id (id user) u) eqn:E.
    + apply has_id_true in E.
      assert (u = user) by (apply (key_unique id _ _ _ H1 Hu0 Hu E)).
      subst u. destruct (has_guild_id gid g) eqn:Eg.
      * apply has_guild_id_true in Eg. cbn. rewrite Eg. reflexivity.
      * exfalso. exact (Hout g Hg Hin).
    + apply has_id_false in E. destruct (has_guild_id gid g) eqn:Eg.
      * cbn [guild_add_member g_id g_members] in *.
        apply in_app_or in Hin. destruct Hin as [Hin|[Hin|[]]];
          [apply H4; assumption | congruence].
      * apply H4; assumption.
  - intros u' Hu' Ht. apply in_map_iff in Hu'.
    destruct Hu' as (u & <- & Hu0). destruct (has_id (id user) u) eqn:E.
    + apply has_id_true in E.
      exists (guild_add_member (id user) (level user) g0).
      split.
      * apply in_map_iff. exists g0. split; [|exact Hg0].
        rewrite (proj2 (has_guild_id_true gid g0) Eg0). reflexivity.
      * cbn. rewrite Eg0. split; [reflexivity|].
        apply in_or_app. right. left. symmetry. exact E.
    + destruct (H5 u Hu0 Ht) as (g & Hg & Eg & Hin).
      exists (if has_guild_id gid g
              then guild_add_member (id user) (level user) g else g).
      split; [apply in_map_iff; exists g; split; [reflexivity|exact Hg]|].
      destruct (has_guild_id gid g); [|split; assumption].
      cbn. split; [exact Eg|]. apply in_or_app. left. exact Hin.
Qed.

Lemma leave_member_consistent (gid : string) (w : World) (user : User) :
  guilds_consistent w ->
  In user (users (w_db w)) ->
  guild_id user = Some gid ->
  truthy (Some gid) = true ->
  guilds_consistent
    (mkWorld (users_set_guild_id (id user) None (w_db w))
       (update_first (has_guild_id gid)
          (guild_remove_member (id user) (level user)) (w_guilds w))).
Proof.
  intros (H1 & H2 & H3 & H4 & H5) Hu Hgu Htruthy.
  assert (Hin1 : forall g, In g (w_guilds w) -> g_id g = gid ->
                           In (id user) (g_members g)).
  { intros g Hg Eg. destruct (H5 user Hu) as (g1 & Hg1 & E1 & Hin).
    - rewrite Hgu. exact Htruthy.
    - rewrite Hgu in E1. apply some_inj in E1.
      assert (g = g1)
        by (apply (key_unique g_id _ _ _ H2 Hg Hg1); congruence).
      subst g1. exact Hin. }
  unfold guilds_consistent. cbn [w_db w_guilds].
  rewrite set_guild_id_users by exact H1.
  rewrite guilds_update_map by exact H2.
  split; [rewrite map_key_map; [exact H1|];
          intros x; destruct (has_id (id user) x); reflexivity|].
  split; [rewrite map_key_map; [exact H2|];
          intros x; destruct (has_guild_id gid x); reflexivity|].
  split.
  { intros g' Hg'. apply in_map_iff in Hg'. destruct Hg' as (g & <- & Hg).
    destruct (H3 g Hg) as (Ht & Hnd & Hc).
    destruct (has_guild_id gid g) eqn:Eg; [|repeat split; assumption].
    apply has_guild_id_true in Eg.
    cbn [guild_remove_member g_id g_members g_member_count].
    split; [exact Ht|].
    split; [apply NoDup_filter_members; exact Hnd|].
    pose proof (length_filter_remove (id user) (g_members g) Hnd
                  (Hin1 g Hg Eg)) as Hlen.
    lia. }
  split.
  - intros g' u' Hg' Hu' Hin. apply in_map_iff in Hg'.
    destruct Hg' as (g & <- & Hg). apply in_map_iff in Hu'.
    destruct Hu' as (u & <- & Hu0).
    destruct (has_id (id user) u) eqn:E.
    + exfalso. apply has_id_true in E.
      assert (u = user) by (apply (key_unique id _ _ _ H1 Hu0 Hu E)).
      subst u. cbn in Hin. destruct (has_guild_id gid g) eqn:Eg.
      * cbn [guild_remove_member g_members] in Hin.
        apply filter_In in Hin. destruct Hin as [_ Hin].
        rewrite str_eqb_refl in Hin. discriminate.
      * apply has_guild_id_false in Eg. specialize (H4 g user Hg Hu Hin).
        congruence.
    + destruct (has_guild_id gid g) eqn:Eg.
      * cbn [guild_remove_member g_id g_members] in *.
        apply filter_In in Hin. apply H4; tauto.
      * apply H4; assumption.
  - intros u' Hu' Ht. apply in_map_iff in Hu'.
    destruct Hu' as (u & <- & Hu0). destruct (has_id (id user) u) eqn:E;
      [discriminate Ht|].
    apply has_id_false in E.
    destruct (H5 u Hu0 Ht) as (g & Hg & Eg & Hin).
    exists (if has_guild_id gid g
            then guild_remove_member (id user) (level user) g else g).
    split; [apply in_map_iff; exists g; split; [reflexivity|exact Hg]|].
    destruct (has_guild_id gid g); [|split; assumption].
    cbn. split; [exact Eg|]. apply filter_In. split; [exact Hin|].
    destruct (str_eqb (id u) (id user)) eqn:Es; [|reflexivity].
    apply str_eqb_eq in Es. contradiction.
Qed.

Lemma NoDup_map_filter {A : Type} (key : A -> string) (p : A -> bool)
    (l : list A) :
  NoDup (map key l) -> NoDup (map key (filter p l)).
Proof.
  induction l as [|x rest IH]; intros Hnd; [constructor|].
  cbn [map] in Hnd. inversion Hnd as [|? ? Hnotin Hrest]; subst.
  cbn [filter]. destruct (p x); [|apply IH; exact Hrest].
  cbn [map]. constructor; [|apply IH; exact Hrest].
  intros Hin. apply Hnotin. apply in_map_iff in Hin.
  destruct Hin as (y & E & Hy). apply filter_In in Hy.
  rewrite <- E. apply in_map. tauto.
Qed.

Lemma guild_id_is_true (gid : string) (u : User) :
  guild_id_is gid u = true <-> guild_id u = Some gid.
Proof.
  unfold guild_id_is. destruct (guild_id u) as [g|].
  - split.
    + intros H. apply str_eqb_eq in H. congruence.
    + intros H. apply some_inj in H. subst g. apply str_eqb_refl.
  - split; discriminate.
Qed.

Lemma leave_leader_consistent (gid : string) (w : World) :
  guilds_consistent w ->
  guilds_consistent
    (mkWorld (users_clear_guild gid (w_db w))
       (delete_first (has_guild_id gid) (w_guilds w))).
Proof.
  intros (H1 & H2 & H3 & H4 & H5).
  unfold guilds_consistent, users_clear_guild. cbn [w_db w_guilds users].
  rewrite guilds_delete_filter by exact H2.
  split; [rewrite map_key_map; [exact H1|];
          intros x; destruct (guild_id_is gid x); reflexivity|].
  split; [apply NoDup_map_filter; exact H2|].
  split; [intros g Hg; apply filter_In in Hg; apply H3; tauto|].
  split.
  - intros g u' Hg Hu' Hin. apply filter_In in Hg. destruct Hg as [Hg Ene].
    apply negb_true_iff, has_guild_id_false in Ene.
    apply in_map_iff in Hu'. destruct Hu' as (u & <- & Hu0).
    destruct (guild_id_is gid u) eqn:E; [|apply H4; assumption].
    exfalso. apply guild_id_is_true in E. cbn in Hin.
    specialize (H4 g u Hg Hu0 Hin). congruence.
  - intros u' Hu' Ht. apply in_map_iff in Hu'.
    destruct Hu' as (u & <- & Hu0).
    destruct (guild_id_is gid u) eqn:E; [discriminate Ht|].
    destruct (H5 u Hu0 Ht) as (g & Hg & Eg & Hin).
    exists g. split; [|split; assumption].
    apply filter_In. split; [exact Hg|].
    apply negb_true_iff, has_guild_id_false. intros Egid.
    assert (guild_id_is gid u = true)
      by (apply guild_id_is_true; congruence).
    congruence.
Qed.

(** X25.  The guild operations keep the bookkeeping of guilds: if user
    and guild ids are unique, every member count is the length of a
    member list without repetition, and users and member lists refer to
    each other, then the same holds after a [create_guild] with an unused
    non-empty id, after a [join_guild], after a [leave_guild], and after
    any single-document update of a user. *)
Theorem guild_operations_keep_consistency (w : World) :
  guilds_consistent w ->
  (forall fresh_id now name description uid w',
     truthy (Some fresh_id) = true ->
     guilds_find_one fresh_id w = None ->
     create_guild fresh_id now name description uid w = GOk fresh_id w' ->
     guilds_consistent w')
  /\ (forall gid uid name w',
        join_guild gid uid w = GOk name w' -> guilds_consistent w')
  /\ (forall uid w',
        leave_guild uid w = GOk tt w' -> guilds_consistent w')
  /\ (forall uid ops,
        guilds_consistent
          (mkWorld (users_update_one uid ops (w_db w)) (w_guilds w))).
Proof.
  intros Hw. split; [|split; [|split]].
  - intros fresh_id now name description uid w' Htruthy Hfresh H.
    unfold create_guild, get_current_user in H.
    destruct (users_find_one uid (w_db w)) as [user|] eqn:Hu;
      [|discriminate].
    apply find_one_In in Hu. destruct Hu as [Hu _].
    destruct (truthy (guild_id user)) eqn:Hfree; [discriminate|].
    destruct (existsb _ (w_guilds w)); [discriminate|].
    injection H as <-. apply unlock_when_consistent.
    apply create_core_consistent; assumption.
  - intros gid uid name w' H.
    unfold join_guild, get_current_user in H.
    destruct (users_find_one uid (w_db w)) as [user|] eqn:Hu;
      [|discriminate].
    apply find_one_In in Hu. destruct Hu as [Hu _].
    destruct (truthy (guild_id user)) eqn:Hfree; [discriminate|].
    destruct (guilds_find_one gid w) as [g0|] eqn:Hg; [|discriminate].
    unfold guilds_find_one in Hg. apply find_some in Hg.
    destruct Hg as [Hg0 Eg0]. apply has_guild_id_true in Eg0.
    injection H as _ <-. apply unlock_when_consistent.
    apply (join_core_consistent gid w user g0); assumption.
  - intros uid w' H.
    unfold leave_guild, get_current_user in H.
    destruct (users_find_one uid (w_db w)) as [user|] eqn:Hu;
      [|discriminate].
    apply find_one_In in Hu. destruct Hu as [Hu _].
    destruct (guild_id user) as [gid|] eqn:Hgu; [|discriminate].
    destruct (truthy (Some gid)) eqn:Htruthy; [|discriminate].
    cbn [negb] in H.
    match type of H with
    | (if ?c then _ else _) = _ => destruct c
    end; injection H as <-.
    + apply leave_leader_consistent. exact Hw.
    + apply leave_member_consistent; assumption.
  - intros uid ops. apply update_one_consistent.
    destruct w as [db gs]. exact Hw.
Qed.

Lemma world_led_consistent : guilds_consistent world_led.
Proof.
  unfold guilds_consistent, world_led, guild_led.
  cbn [w_db w_guilds users map id g_id new_user with_guild_id hunter].
  split.
  { constructor; [intros [H|[]]; discriminate H|].
    constructor; [intros []|constructor]. }
  split; [constructor; [intros []|constructor]|].
  split.
  { intros g [<-|[]]. cbn. split; [reflexivity|]. split; [|reflexivity].
    constructor; [intros [H|[]]; discriminate H|].
    constructor; [intros []|constructor]. }
  split.
  - intros g u [<-|[]] [<-|[<-|[]]] _; reflexivity.
  - intros u [<-|[<-|[]]] _; eexists; (split; [left; reflexivity|]);
      cbn; (split; [reflexivity|]); auto.
Qed.

Lemma guild_operations_keep_consistency_witness :
  guilds_consistent world_led
  /\ (forall uid w',
        leave_guild uid world_led = GOk tt w' -> guilds_consistent w').
Proof.
  split; [exact world_led_consistent|].
  exact (proj1 (proj2 (proj2 (guild_operations_keep_consistency world_led
                                world_led_consistent)))).
Defined.

(** ** The shadow collection view *)

Lemma boss_shadow_in_catalog (b : Boss) (s : string) :
  In b WEEKLY_BOSSES -> bs_shadow b = Some s ->
  exists rarity, In (s, rarity) SHADOWS.
Proof.
  unfold WEEKLY_BOSSES. cbn [In]. intros H Hs.
  repeat (destruct H as [<-|H];
          [cbn in Hs; first [discriminate Hs | injection Hs as <-];
           eexists; unfold SHADOWS; cbn [In]; auto 30|]).
  contradiction.
Qed.

Lemma mission_shadow_in_catalog (m : Mission) (s : string) :
  In m SPECIAL_MISSIONS -> ms_shadow m = Some s ->
  exists rarity, In (s, rarity) SHADOWS.
Proof.
  unfold SPECIAL_MISSIONS. cbn [In]. intros H Hs.
  repeat (destruct H as [<-|H];
          [cbn in Hs; first [discriminate Hs | injection Hs as <-];
           eexists; unfold SHADOWS; cbn [In]; auto 30|]).
  contradiction.
Qed.

(** X26.  The shadow a completion adds is an entry of the [SHADOWS]
    catalog: [GET /shadows] showed it as not owned before and shows it as
    owned afterwards, and every shadow shown as owned before is still
    shown as owned. *)
Theorem earned_shadow_is_listed (today : Z) (q uid : string) (db db' : DB)
    (r : CompleteResponse) (user : User) :
  users_find_one uid db = Some user ->
  complete_quest today q uid db = Ok r db' ->
  exists user' listing listing',
    users_find_one uid db' = Some user'
    /\ get_shadows uid db = Ok listing db
    /\ get_shadows uid db' = Ok listing' db'
    /\ (forall entry, In (entry, true) listing -> In (entry, true) listing')
    /\ (forall s, In s (shadows user') -> ~ In s (shadows user) ->
          exists rarity,
            In (s, rarity, false) listing /\ In (s, rarity, true) listing').
Proof.
  intros Hu H.
  destruct (complete_quest_shadows _ _ _ _ _ _ _ Hu H)
    as (user' & Hu' & Hsh).
  unfold get_shadows, get_current_user. rewrite Hu, Hu'.
  exists user'. eexists. eexists. split; [reflexivity|].
  split; [reflexivity|]. split; [reflexivity|].
  assert (Hincl : forall s, mem s (shadows user) = true ->
                            mem s (shadows user') = true).
  { intros s Hs. destruct Hsh as [->|(s0 & -> & _)]; [exact Hs|].
    apply mem_In. apply in_or_app. left. apply mem_In. exact Hs. }
  split.
  - intros entry Hin. apply in_map_iff in Hin.
    destruct Hin as ([s rar] & E & Hin). cbn [fst snd] in E.
    injection E as <- Hm. apply in_map_iff. exists (s, rar).
    cbn [fst snd]. rewrite (Hincl s Hm). split; [reflexivity | exact Hin].
  - intros s Hs Hnew.
    destruct Hsh as [E|(s0 & E & _ & Hm0 & Hsrc)];
      [rewrite E in Hs; contradiction|].
    rewrite E in Hs. apply in_app_or in Hs.
    destruct Hs as [Hs|[<-|[]]]; [contradiction|].
    assert (Hcat : exists rarity, In (s0, rarity) SHADOWS).
    { destruct Hsrc as [(b & Hb & Hbs)|(m & Hm & Hms)].
      - apply find_some in Hb.
        apply (boss_shadow_in_catalog b); [exact (proj1 Hb) | exact Hbs].
      - apply find_some in Hm.
        apply (mission_shadow_in_catalog m); [exact (proj1 Hm) | exact Hms]. }
    destruct Hcat as (rarity & Hcat). exists rarity. split.
    + apply in_map_iff. exists (s0, rarity). cbn [fst snd].
      rewrite Hm0. split; [reflexivity | exact Hcat].
    + apply in_map_iff. exists (s0, rarity). cbn [fst snd]. rewrite E.
      split; [|exact Hcat]. f_equal. apply mem_In. apply in_or_app.
      right. left. reflexivity.
Qed.

Lemma earned_shadow_is_listed_witness :
  users_find_one "u1" db_recruit = Some recruit
  /\ recruit_fight1 = Ok (response_of recruit_fight1) (db_of recruit_fight1)
  /\ exists user' listing listing',
       users_find_one "u1" (db_of recruit_fight1) = Some user'
       /\ get_shadows "u1" db_recruit = Ok listing db_recruit
       /\ get_shadows "u1" (db_of recruit_fight1)
          = Ok listing' (db_of recruit_fight1)
       /\ (forall entry,
             In (entry, true) listing -> In (entry, true) listing')
       /\ (forall s, In s (shadows user') -> ~ In s (shadows recruit) ->
             exists rarity,
               In (s, rarity, false) listing
               /\ In (s, rarity, true) listing').
Proof.
  split; [reflexivity|]. split; [vm_compute; reflexivity|].
  apply (earned_shadow_is_listed 7 "boss_igris" "u1" db_recruit
           (db_of recruit_fight1) (response_of recruit_fight1) recruit);
    [reflexivity | vm_compute; reflexivity].
Defined.

(** ** The member view of a guild *)

Lemma In_firstn {A : Type} (n : nat) (l : list A) (x : A) :
  In x (firstn n l) -> In x l.
Proof.
  revert l. induction n as [|n IH]; intros l H; [contradiction|].
  destruct l as [|y rest]; [contradiction|].
  cbn [firstn] in H. destruct H as [->|H]; [left; reflexivity|].
  right. apply IH. exact H.
Qed.

Lemma length_filter_le {A : Type} (p : A -> bool) (l : list A) :
  (List.length (filter p l) <= List.length l)%nat.
Proof.
  induction l as [|x rest IH]; [apply le_n|].
  cbn [filter]. destruct (p x); cbn [List.length]; lia.
Qed.

(** X27.  With consistent guild bookkeeping, [GET /guilds/{id}] answers
    404 for an unknown id and otherwise returns the stored guild with a
    member view in which every entry is the projection of a stored user
    who refers to this guild; the view has at most [member_count]
    entries, and when the collection has at most 100 users it shows every
    user who refers to the guild. *)
Theorem guild_details_show_members (gid : string) (w : World) :
  guilds_consistent w ->
  (guilds_find_one gid w = None ->
   get_guild_details gid w = GErr 404 Guild_not_found)
  /\ forall g infos,
       get_guild_details gid w = GOk (g, infos) w ->
       guilds_find_one gid w = Some g
       /\ (forall info, In info infos ->
             exists u,
               users_find_one (mi_id info) (w_db w) = Some u
               /\ info = member_info u
               /\ guild_id u = Some gid)
       /\ Z.of_nat (List.length infos) <= g_member_count g
       /\ ((List.length (users (w_db w)) <= 100)%nat ->
           forall u, In u (users (w_db w)) -> guild_id u = Some gid ->
                     In (member_info u) infos).
Proof.
  intros (H1 & H2 & H3 & H4 & H5). split.
  - intros Hnone. unfold get_guild_details. rewrite Hnone. reflexivity.
  - intros g infos H. unfold get_guild_details in H.
    destruct (guilds_find_one gid w) as [guild|] eqn:Hg; [|discriminate].
    remember (firstn 100
                (map member_info
                   (filter (fun u => mem (id u) (g_members guild))
                      (users (w_db w))))) as shown eqn:Hshown.
    injection H as <- <-. subst shown. split; [reflexivity|].
    unfold guilds_find_one in Hg. apply find_some in Hg.
    destruct Hg as [Hin Eg]. apply has_guild_id_true in Eg.
    destruct (H3 guild Hin) as (Htruthy & Hnd & Hcount).
    split.
    { intros info Hinfo. apply In_firstn in Hinfo.
      apply in_map_iff in Hinfo. destruct Hinfo as (u & <- & Hu).
      apply filter_In in Hu. destruct Hu as [Hu Hm]. apply mem_In in Hm.
      exists u. split; [|split; [reflexivity|]].
      - apply (find_unique id (id u) (users (w_db w)) u H1 Hu eq_refl).
      - rewrite <- Eg. apply H4; assumption. }
    split.
    { rewrite Hcount. apply inj_le.
      rewrite length_firstn.
      eapply Nat.le_trans; [apply Nat.le_min_r|].
      rewrite length_map.
      rewrite <- (length_map id
                    (filter (fun u => mem (id u) (g_members guild))
                       (users (w_db w)))).
      apply NoDup_incl_length.
      - apply NoDup_map_filter. exact H1.
      - intros x Hx. apply in_map_iff in Hx. destruct Hx as (u & <- & Hu).
        apply filter_In in Hu. apply mem_In. exact (proj2 Hu). }
    intros Hsmall u Hu Hgu.
    rewrite firstn_all2.
    + apply in_map. apply filter_In. split; [exact Hu|]. apply mem_In.
      destruct (H5 u Hu) as (g1 & Hg1 & E1 & Hmem).
      * rewrite Hgu, <- Eg. exact Htruthy.
      * rewrite Hgu in E1. apply some_inj in E1.
        assert (guild = g1)
          by (apply (key_unique g_id _ _ _ H2 Hin Hg1); congruence).
        subst g1. exact Hmem.
    + rewrite length_map.
      eapply Nat.le_trans; [apply length_filter_le | exact Hsmall].
Qed.

Lemma guild_details_show_members_witness :
  guilds_consistent world_led
  /\ get_guild_details "g1" world_led
     = GOk (guild_led,
            [mkMemberInfo "u1" "Jinwoo" 1 "E"; mkMemberInfo "u2" "Beta" 1 "E"])
           world_led
  /\ Z.of_nat (List.length [mkMemberInfo "u1" "Jinwoo" 1 "E";
                            mkMemberInfo "u2" "Beta" 1 "E"])
     <= g_member_count guild_led.
Proof.
  split; [exact world_led_consistent|]. split; [reflexivity|].
  apply (proj2 (guild_details_show_members "g1" world_led
                  world_led_consistent) guild_led
           [mkMemberInfo "u1" "Jinwoo" 1 "E"; mkMemberInfo "u2" "Beta" 1 "E"]
           eq_refl).
Defined.

(** ** The progression invariant across the handlers *)

(** X28.  Rank equal to [calculate_rank(level)] and experience below the
    threshold of the level hold for a newly registered hunter, hold
    after every successful completion whatever the document was before,
    and are kept by [fail_quest] (for experience that is not negative),
    [upgrade_stat] and [start_training]. *)
Theorem progression_invariant_kept :
  (forall user_id password_hash now email_ name db res db',
     users_find_one user_id db = None ->
     register user_id password_hash now email_ name db = Ok res db' ->
     exists user',
       users_find_one user_id db' = Some user'
       /\ progression_invariant user')
  /\ (forall today q uid db r db' user,
        users_find_one uid db = Some user ->
        complete_quest today q uid db = Ok r db' ->
        exists user',
          users_find_one uid db' = Some user' /\ progression_invariant user')
  /\ (forall rnd uuid now q uid db resp db' user,
        users_find_one uid db = Some user ->
        0 <= experience user ->
        progression_invariant user ->
        fail_quest rnd uuid now q uid db = Ok resp db' ->
        exists user',
          users_find_one uid db' = Some user' /\ progression_invariant user')
  /\ (forall stat_name points uid db unlocked db' user,
        users_find_one uid db = Some user ->
        progression_invariant user ->
        upgrade_stat stat_name points uid db = Ok unlocked db' ->
        exists user',
          users_find_one uid db' = Some user' /\ progression_invariant user')
  /\ (forall now q uid db t db' user,
        users_find_one uid db = Some user ->
        progression_invariant user ->
        start_training now q uid db = Ok t db' ->
        exists user',
          users_find_one uid db' = Some user'
          /\ progression_invariant user').
Proof.
  split; [|split; [|split; [|split]]].
  - intros user_id password_hash now email_ name db res db' Hfresh H.
    unfold register in H.
    destruct (existsb _ (users db)); [discriminate|].
    destruct (existsb _ (users db)); [discriminate|].
    injection H as _ <-. eexists. split; [|apply register_invariant].
    unfold users_find_one. cbn [users]. apply find_app_fresh.
    + exact Hfresh.
    + apply str_eqb_refl.
  - intros today q uid db r db' user Hu H.
    exact (complete_quest_invariant _ _ _ _ _ _ _ Hu H).
  - intros rnd uuid now q uid db resp db' user Hu Hpos Hinv H.
    exact (fail_quest_invariant _ _ _ _ _ _ _ _ _ Hu Hpos Hinv H).
  - intros stat_name points uid db unlocked db' user Hu Hinv H.
    exact (upgrade_stat_invariant _ _ _ _ _ _ _ Hu Hinv H).
  - intros now q uid db t db' user Hu [Hrank Hexp] H.
    pose proof (find_one_id _ _ _ Hu) as Hid.
    unfold start_training, get_current_user in H. rewrite Hu, Hid in H.
    injection H as _ <-. rewrite find_one_update_one, Hu.
    eexists. split; [reflexivity|]. split; assumption.
Qed.

Lemma progression_invariant_kept_witness :
  users_find_one "u1" db_registered = Some hunter
  /\ 0 <= experience hunter
  /\ progression_invariant hunter
  /\ exists user',
       users_find_one "u1"
         (db_of (fail_quest 0 "0f8fad5b-d9cb-469f-a165-70867728950e" 5 "q"
                   "u1" db_registered)) = Some user'
       /\ progression_invariant user'.
Proof.
  assert (Hinv : progression_invariant hunter) by (split; reflexivity).
  split; [reflexivity|]. split; [cbn; lia|]. split; [exact Hinv|].
  eapply (proj1 (proj2 (proj2 progression_invariant_kept)) 0%nat
            "0f8fad5b-d9cb-469f-a165-70867728950e" 5 "q" "u1" db_registered
            _ _ hunter);
    [reflexivity | cbn; lia | exact Hinv | vm_compute; reflexivity].
Defined.
